(** * gen_auto_berichtsheft: the report generator, embedded and verified

    A shallow embedding of [gen_auto_berichtsheft.js].  The script logs in
    to WebUntis, walks the days of a date range, asks the calendar
    endpoint once per hourly slot, groups the returned lines by subject
    in a per-day object of sets, and renders the groups as paragraphs of
    a Word document.

    Conventions of the embedding:
    - a JavaScript [Date] is its time value, an integer number of
      milliseconds since the epoch ([Z]); an invalid date is [None];
    - local time is UTC shifted by the offset of the host zone: a
      standard offset and, while summer time is in force, one hour
      more;
    - strings are byte strings (UTF-8), compared byte by byte;
    - the network, the terminal and the file system are an explicit
      [World] of responses and a list of [Event]s in program order;
    - the environment variables, the functions of [path], the packing
      of the document and the write of the file belong to the [World]
      too; debug output is off. *)

From Stdlib Require Import ZArith List String Ascii Bool Lia.
From Stdlib Require Import DecimalString Sorted.

Import ListNotations.

Local Open Scope string_scope.
Local Open Scope list_scope.
Local Open Scope Z_scope.

Set Implicit Arguments.

(** ** Time values (ECMAScript, section "Time Values and Time Range") *)

Module JsDate.

Definition msPerSecond : Z := 1000.
Definition msPerMinute : Z := 60000.
Definition msPerHour : Z := 3600000.
Definition msPerDay : Z := 86400000.

Definition Day (t : Z) : Z := t / msPerDay.
Definition TimeWithinDay (t : Z) : Z := t mod msPerDay.

Definition DayFromYear (y : Z) : Z :=
  365 * (y - 1970) + (y - 1969) / 4 - (y - 1901) / 100 + (y - 1601) / 400.

Definition DaysInYear (y : Z) : Z := DayFromYear (y + 1) - DayFromYear y.

(** The largest year whose first day is not after day [d]: the
    Gregorian mean year gives an estimate that is off by at most one. *)
Definition YearFromDay (d : Z) : Z :=
  let y0 := 1970 + (d * 400) / 146097 in
  if DayFromYear (y0 + 1) <=? d then y0 + 1
  else if DayFromYear y0 <=? d then y0
  else y0 - 1.

Definition InLeapYear (y : Z) : bool := DaysInYear y =? 366.

Definition DayWithinYear (d : Z) : Z := d - DayFromYear (YearFromDay d).

(** Number of days of the year before month [m] (0 = January). *)
Definition monthStart (leap : bool) (m : Z) : Z :=
  let l := if leap then 1 else 0 in
  if m <=? 0 then 0
  else if m =? 1 then 31
  else if m =? 2 then 59 + l
  else if m =? 3 then 90 + l
  else if m =? 4 then 120 + l
  else if m =? 5 then 151 + l
  else if m =? 6 then 181 + l
  else if m =? 7 then 212 + l
  else if m =? 8 then 243 + l
  else if m =? 9 then 273 + l
  else if m =? 10 then 304 + l
  else 334 + l.

Definition MonthFromDay (d : Z) : Z :=
  let leap := InLeapYear (YearFromDay d) in
  let n := DayWithinYear d in
  if n <? monthStart leap 1 then 0
  else if n <? monthStart leap 2 then 1
  else if n <? monthStart leap 3 then 2
  else if n <? monthStart leap 4 then 3
  else if n <? monthStart leap 5 then 4
  else if n <? monthStart leap 6 then 5
  else if n <? monthStart leap 7 then 6
  else if n <? monthStart leap 8 then 7
  else if n <? monthStart leap 9 then 8
  else if n <? monthStart leap 10 then 9
  else if n <? monthStart leap 11 then 10
  else 11.

Definition DateFromDay (d : Z) : Z :=
  DayWithinYear d
  - monthStart (InLeapYear (YearFromDay d)) (MonthFromDay d) + 1.

(** 0 = Sunday ... 6 = Saturday; day 0 (1970-01-01) was a Thursday. *)
Definition WeekDay (d : Z) : Z := (d + 4) mod 7.

Definition HourFromTime (t : Z) : Z := (t / msPerHour) mod 24.
Definition MinFromTime (t : Z) : Z := (t / msPerMinute) mod 60.
Definition SecFromTime (t : Z) : Z := (t / msPerSecond) mod 60.
Definition msFromTime (t : Z) : Z := t mod msPerSecond.

Definition MakeTime (h m s ms : Z) : Z :=
  h * msPerHour + m * msPerMinute + s * msPerSecond + ms.

Definition MakeDay (year month date : Z) : Z :=
  let ym := year + month / 12 in
  let mn := month mod 12 in
  DayFromYear ym + monthStart (InLeapYear ym) mn + date - 1.

Definition MakeDate (day time : Z) : Z := day * msPerDay + time.

(** *** Local time

    A zone has a standard offset from UTC, in milliseconds, and summer
    time one hour ahead of it; [summerTime t] tells whether summer time
    is in force at the instant [t]. *)
Record Zone : Type := {
  standardOffset : Z;
  summerTime : Z -> bool
}.

(** A zone without summer time. *)
Definition fixedOffset (tza : Z) : Zone :=
  {| standardOffset := tza; summerTime := fun _ => false |}.

(** *** The [Date] object, in the zone of the host *)

Section Local.

Variable zone : Zone.

(** The offset of local time at the instant [t]. *)
Definition offsetAt (t : Z) : Z :=
  if summerTime zone t
  then standardOffset zone + msPerHour
  else standardOffset zone.

(** The offset with which the local time value [t] is read.  A local
    time that occurs twice, when summer time ends, is read as the
    earlier instant; a local time that is skipped, when summer time
    begins, is read with the offset before the change. *)
Definition offsetOfLocal (t : Z) : Z :=
  if summerTime zone (t - standardOffset zone - msPerHour)
  then standardOffset zone + msPerHour
  else standardOffset zone.

Definition LocalTime (t : Z) : Z := t + offsetAt t.
Definition UTC (t : Z) : Z := t - offsetOfLocal t.

Definition getFullYear (t : Z) : Z := YearFromDay (Day (LocalTime t)).
Definition getMonth (t : Z) : Z := MonthFromDay (Day (LocalTime t)).
Definition getDate (t : Z) : Z := DateFromDay (Day (LocalTime t)).
Definition getDay (t : Z) : Z := WeekDay (Day (LocalTime t)).
Definition getHours (t : Z) : Z := HourFromTime (LocalTime t).
Definition getMinutes (t : Z) : Z := MinFromTime (LocalTime t).
Definition getSeconds (t : Z) : Z := SecFromTime (LocalTime t).

(** [d.setDate(dt)] *)
Definition setDate (t dt : Z) : Z :=
  let l := LocalTime t in
  UTC (MakeDate (MakeDay (YearFromDay (Day l)) (MonthFromDay (Day l)) dt)
                (TimeWithinDay l)).

(** [d.setHours(h, m, s)]: the milliseconds are kept. *)
Definition setHours (t h m s : Z) : Z :=
  let l := LocalTime t in
  UTC (MakeDate (Day l) (MakeTime h m s (msFromTime l))).

(** [new Date(year, month, date)]: a year from 0 to 99 means 1900 + year. *)
Definition newDateYMD (year month date : Z) : Z :=
  let yr := if (0 <=? year) && (year <=? 99) then 1900 + year else year in
  UTC (MakeDate (MakeDay yr month date) 0).

End Local.

End JsDate.

(** A number used as a zone stands for the zone with that constant
    offset. *)
Coercion JsDate.fixedOffset : Z >-> JsDate.Zone.

(** ** Strings *)

Module JsString.

(** [String(n)] for an integer. *)
Definition ofZ (n : Z) : string := NilZero.string_of_int (Z.to_int n).

(** [s.padStart(2, "0")] *)
Definition padStart2 (s : string) : string :=
  match String.length s with
  | O => "00"
  | S O => ("0" ++ s)%string
  | _ => s
  end.

(** [hay.includes(needle)] *)
Fixpoint includes (needle hay : string) : bool :=
  String.prefix needle hay
  || match hay with
     | EmptyString => false
     | String _ rest => includes needle rest
     end.

(** [s.split(sep)] for a one-character separator: never an empty list. *)
Fixpoint split (sep : ascii) (s : string) : list string :=
  match s with
  | EmptyString => [EmptyString]
  | String c rest =>
      if Ascii.eqb c sep then EmptyString :: split sep rest
      else match split sep rest with
           | [] => [String c EmptyString]
           | piece :: pieces => String c piece :: pieces
           end
  end.

(** [pieces.join(sep)] *)
Definition join (sep : string) (pieces : list string) : string :=
  String.concat sep pieces.

(** White space and line terminators of the ASCII range. *)
Definition isWhiteSpace (c : ascii) : bool :=
  let n := nat_of_ascii c in
  ((9 <=? n) && (n <=? 13))%nat || (n =? 32)%nat.

(** A string of white space of the ASCII range only. *)
Fixpoint allWhiteSpace (s : string) : bool :=
  match s with
  | EmptyString => true
  | String c rest => isWhiteSpace c && allWhiteSpace rest
  end.

(** The double-quote character. *)
Definition dquote : ascii := ascii_of_nat 34.

(** Value of a string made of decimal digits only. *)
Fixpoint digitsValue (acc : Z) (s : string) : option Z :=
  match s with
  | EmptyString => Some acc
  | String c rest =>
      let n := Z.of_nat (nat_of_ascii c) in
      if (48 <=? n) && (n <=? 57) then digitsValue (10 * acc + (n - 48)) rest
      else None
  end.

(** A canonical array index: the decimal form, without sign or leading
    zero, of an integer from 0 to 2^32 - 2. *)
Definition arrayIndex (s : string) : option Z :=
  match s with
  | EmptyString => None
  | _ =>
      match digitsValue 0 s with
      | Some n =>
          if String.eqb (ofZ n) s && (n <=? 4294967294) then Some n else None
      | None => None
      end
  end.

End JsString.

(** ** More operations on strings *)

(** The string without its first [n] characters. *)
Fixpoint drop (n : nat) (s : string) : string :=
  match n, s with
  | S n', String _ rest => drop n' rest
  | _, _ => s
  end.

Module JsTrim.

(** The rest of [s] after one white space or line terminator of
    JavaScript at its start, in UTF-8: the ASCII ones, U+00A0, U+1680,
    U+2000 to U+200A, U+2028, U+2029, U+202F, U+205F, U+3000, U+FEFF. *)
Definition skipWhiteSpace (s : string) : option string :=
  match s with
  | EmptyString => None
  | String c r =>
      let n := nat_of_ascii c in
      if JsString.isWhiteSpace c then Some r
      else
        match r with
        | EmptyString => None
        | String c2 r2 =>
            let n2 := nat_of_ascii c2 in
            if ((n =? 194) && (n2 =? 160))%nat then Some r2
            else
              match r2 with
              | EmptyString => None
              | String c3 r3 =>
                  let n3 := nat_of_ascii c3 in
                  if (((n =? 225) && (n2 =? 154) && (n3 =? 128))
                      || ((n =? 226) && (n2 =? 128)
                          && (((128 <=? n3) && (n3 <=? 138))
                              || (n3 =? 168) || (n3 =? 169) || (n3 =? 175)))
                      || ((n =? 226) && (n2 =? 129) && (n3 =? 159))
                      || ((n =? 227) && (n2 =? 128) && (n3 =? 128))
                      || ((n =? 239) && (n2 =? 187) && (n3 =? 191)))%nat
                  then Some r3
                  else None
              end
        end
  end.

Fixpoint trimStartFrom (fuel : nat) (s : string) : string :=
  match fuel with
  | O => s
  | S fuel' =>
      match skipWhiteSpace s with
      | Some rest => trimStartFrom fuel' rest
      | None => s
      end
  end.

(** [s.trimStart()] *)
Definition trimStart (s : string) : string :=
  trimStartFrom (String.length s) s.

(** A string of white space only. *)
Definition blank (s : string) : bool := String.eqb (trimStart s) "".

(** [s.trimEnd()] *)
Fixpoint trimEnd (s : string) : string :=
  match s with
  | EmptyString => EmptyString
  | String c r => if blank (String c r) then EmptyString
                  else String c (trimEnd r)
  end.

(** [s.trim()] *)
Definition trim (s : string) : string := trimEnd (trimStart s).

End JsTrim.

(** [c.toLowerCase()] for a letter of the ASCII range; the test for
    the ending [.docx] looks at no other letter. *)
Definition lowerAscii (c : ascii) : ascii :=
  let n := nat_of_ascii c in
  if ((65 <=? n) && (n <=? 90))%nat then ascii_of_nat (n + 32) else c.

Fixpoint toLowerCase (s : string) : string :=
  match s with
  | EmptyString => EmptyString
  | String c r => String (lowerAscii c) (toLowerCase r)
  end.

(** [s.endsWith(suffix)] *)
Definition endsWith (suffix s : string) : bool :=
  (String.length suffix <=? String.length s)%nat
  && String.eqb suffix (drop (String.length s - String.length suffix) s).

(** ** The [Set] of strings: insertion order, no duplicates *)

Module JsSet.

Definition t : Type := list string.

Definition empty : t := [].

Definition has (s : t) (x : string) : bool :=
  existsb (String.eqb x) s.

(** [s.add(x)] *)
Definition add (s : t) (x : string) : t :=
  if has s x then s else s ++ [x].

(** [for (const x of s)]: the elements in insertion order. *)
Definition values (s : t) : list string := s.

End JsSet.

(** ** The plain object [{}] used as a map from subject to set *)

Module JsObject.

(** Own properties, in the order of their creation. *)
Definition t : Type := list (string * JsSet.t).

Definition empty : t := [].

(** The properties that [{}] inherits from [Object.prototype]. *)
Definition prototypeKeys : list string :=
  [ "constructor"; "__defineGetter__"; "__defineSetter__"; "hasOwnProperty";
    "__lookupGetter__"; "__lookupSetter__"; "isPrototypeOf";
    "propertyIsEnumerable"; "toString"; "valueOf"; "__proto__";
    "toLocaleString" ]%string.

Definition inherited (k : string) : bool :=
  existsb (String.eqb k) prototypeKeys.

Inductive value : Type :=
  | Undefined
  | SetValue (s : JsSet.t)
  | Builtin.

Fixpoint getOwn (o : t) (k : string) : option JsSet.t :=
  match o with
  | [] => None
  | (k', s) :: rest => if String.eqb k k' then Some s else getOwn rest k
  end.

(** [o[k]]: an own property, else one of the prototype, else undefined. *)
Definition get (o : t) (k : string) : value :=
  match getOwn o k with
  | Some s => SetValue s
  | None => if inherited k then Builtin else Undefined
  end.

(** [!v] *)
Definition falsy (v : value) : bool :=
  match v with
  | Undefined => true
  | _ => false
  end.

Fixpoint replace (o : t) (k : string) (s : JsSet.t) : t :=
  match o with
  | [] => []
  | (k', s') :: rest =>
      if String.eqb k k' then (k', s) :: rest else (k', s') :: replace rest k s
  end.

(** [o[k] = s]: an own property keeps its place, a new one comes last.
    ([__proto__] is an accessor of the prototype and creates nothing.) *)
Definition set (o : t) (k : string) (s : JsSet.t) : t :=
  match getOwn o k with
  | Some _ => replace o k s
  | None => if String.eqb k "__proto__" then o else o ++ [(k, s)]
  end.

Fixpoint insertIndexed (n : Z) (p : string * JsSet.t)
    (l : list (Z * (string * JsSet.t))) : list (Z * (string * JsSet.t)) :=
  match l with
  | [] => [(n, p)]
  | (m, q) :: rest =>
      if n <? m then (n, p) :: l else (m, q) :: insertIndexed n p rest
  end.

Fixpoint indexProperties (o : t) : list (Z * (string * JsSet.t)) :=
  match o with
  | [] => []
  | (k, s) :: rest =>
      match JsString.arrayIndex k with
      | Some n => insertIndexed n (k, s) (indexProperties rest)
      | None => indexProperties rest
      end
  end.

Definition isIndexKey (p : string * JsSet.t) : bool :=
  match JsString.arrayIndex (fst p) with
  | Some _ => true
  | None => false
  end.

(** [Object.entries(o)]: the array-index keys in ascending numeric
    order, then the other keys in the order of their creation. *)
Definition entries (o : t) : list (string * JsSet.t) :=
  map snd (indexProperties o) ++ filter (fun p => negb (isIndexKey p)) o.

End JsObject.

(** ** The data of the program *)

(** A [TextRun] and a [Paragraph] of the docx library, with the options
    the script passes. *)
Record TextRun : Type := {
  run_text : string;
  run_color : option string;
  run_underline : bool
}.

Record Paragraph : Type := {
  par_text : option string;
  par_children : list TextRun;
  par_heading : option string;
  par_alignment : option string;
  par_numbering : option (string * Z)
}.

(** A local date-time [YYYY-MM-DDTHH:mm:ss] as the calendar endpoint
    sends it, by its fields. *)
Record DateTime : Type := {
  dt_year : Z;
  dt_month : Z;
  dt_day : Z;
  dt_hour : Z;
  dt_minute : Z;
  dt_second : Z
}.

Record Subject : Type := { longName : option string }.

(** One calendar entry of a response. *)
Record Entry : Type := {
  subject : option Subject;
  status : string;
  startDateTime : DateTime;
  endDateTime : DateTime;
  teachingContent : option string
}.

(** One hourly request of a day. *)
Record Lesson : Type := {
  elementId : Z;
  elementType : Z;
  lesson_startDateTime : string;
  lesson_endDateTime : string
}.

Inductive Exception : Type :=
  | Error (message : string)
  | TypeError (message : string)
  | ReferenceError (message : string).

Definition message_of (e : Exception) : string :=
  match e with
  | Error m => m
  | TypeError m => m
  | ReferenceError m => m
  end.

(** *** The outside world *)

Inductive Fetched (A : Type) : Type :=
  | Rejected (message : string)
  | Resolved (response : A).

Arguments Rejected {A} message.
Arguments Resolved {A} response.

Record LoginResponse : Type := {
  login_ok : bool;
  login_status : Z;
  login_statusText : string;
  login_setCookie : option string
}.

Record TokenResponse : Type := {
  token_ok : bool;
  token_statusText : string;
  token_text : string
}.

(** What [response.json()] gives: a rejection, [null], or an object
    with or without the field [calendarEntries]. *)
Inductive Body : Type :=
  | NotJson (message : string)
  | JsonNull
  | JsonObject (calendarEntries : option (list Entry)).

Record DetailResponse : Type := {
  detail_ok : bool;
  detail_status : Z;
  detail_statusText : string;
  detail_body : Body
}.

(** The servers, the environment and the file system of a run.
    [packer_toBuffer] and [fs_writeFileSync] give the message of the
    error when [Packer.toBuffer(doc)] rejects and when
    [fs.writeFileSync(path, buffer)] throws, [None] when they succeed;
    [path_isAbsolute] and [path_join] are the functions of the module
    [path] on the host. *)
Record World : Type := {
  login : Fetched LoginResponse;
  token : Fetched TokenResponse;
  detail : Lesson -> Fetched DetailResponse;
  env_OUTPUT_FILENAME : option string;
  env_DOCX_PATH : option string;
  packer_toBuffer : list Paragraph -> option string;
  path_isAbsolute : string -> bool;
  path_join : string -> string -> string;
  fs_writeFileSync : string -> option string
}.

Inductive Request : Type :=
  | LoginRequest
  | TokenRequest
  | DetailRequest (lesson : Lesson).

(** What the run does to the outside, in program order.  The
    informational [console.log] lines, the start-up screen and the
    progress bar are left out. *)
Inductive Event : Type :=
  | Fetch (request : Request)
  | ConsoleError (text : string)
  | WriteFile (path : string) (paragraphs : list Paragraph).

Definition isFetch (e : Event) : bool :=
  match e with
  | Fetch _ => true
  | _ => false
  end.

Definition isWriteFile (e : Event) : bool :=
  match e with
  | WriteFile _ _ => true
  | _ => false
  end.

(** ** Dates of the program *)

Section Program.

(** The zone of the host. *)
Variable zone : JsDate.Zone.

Import JsDate JsString.

Definition daysInMonth (year month : Z) : Z :=
  if month =? 11 then 31
  else monthStart (InLeapYear year) (month + 1)
       - monthStart (InLeapYear year) month.

(** The date-times that [new Date(s)] reads: the engine of Node takes
    a day from 1 to 31 in every month (a day beyond the end of the
    month runs over into the next), and the hour 24 at 24:00:00. *)
Definition validDateTime (d : DateTime) : bool :=
  (1 <=? dt_month d) && (dt_month d <=? 12)
  && (1 <=? dt_day d) && (dt_day d <=? 31)
  && (0 <=? dt_hour d) && (0 <=? dt_minute d) && (0 <=? dt_second d)
  && (dt_minute d <=? 59) && (dt_second d <=? 59)
  && ((dt_hour d <=? 23)
      || ((dt_hour d =? 24) && (dt_minute d =? 0) && (dt_second d =? 0))).

(** [new Date(s)] for a local date-time: [None] is the invalid date. *)
Definition newDateLocal (d : DateTime) : option Z :=
  if validDateTime d then
    Some (UTC zone
            (MakeDate (MakeDay (dt_year d) (dt_month d - 1) (dt_day d))
                      (MakeTime (dt_hour d) (dt_minute d) (dt_second d) 0)))
  else None.

(** [d.toLocaleTimeString("de-DE", {hour: "2-digit", minute: "2-digit"})] *)
Definition toLocaleTimeString (d : option Z) : string :=
  match d with
  | Some t =>
      (padStart2 (ofZ (getHours zone t)) ++ ":"
       ++ padStart2 (ofZ (getMinutes zone t)))%string
  | None => "Invalid Date"
  end.

Definition weekdayName (n : Z) : string :=
  if n =? 0 then "Sonntag"
  else if n =? 1 then "Montag"
  else if n =? 2 then "Dienstag"
  else if n =? 3 then "Mittwoch"
  else if n =? 4 then "Donnerstag"
  else if n =? 5 then "Freitag"
  else "Samstag".

Definition monthName (n : Z) : string :=
  if n =? 0 then "Januar"
  else if n =? 1 then "Februar"
  else if n =? 2 then "März"
  else if n =? 3 then "April"
  else if n =? 4 then "Mai"
  else if n =? 5 then "Juni"
  else if n =? 6 then "Juli"
  else if n =? 7 then "August"
  else if n =? 8 then "September"
  else if n =? 9 then "Oktober"
  else if n =? 10 then "November"
  else "Dezember".

(** The year as [year: "numeric"] prints it: the year of the era,
    without a sign (the year 0 is the year 1 before the era). *)
Definition eraYear (y : Z) : Z := if y <=? 0 then 1 - y else y.

(** [d.toLocaleDateString("de-DE", {weekday: "long", year: "numeric",
    month: "long", day: "numeric"})] *)
Definition toLocaleDateString (t : Z) : string :=
  (weekdayName (getDay zone t) ++ ", " ++ ofZ (getDate zone t) ++ ". "
   ++ monthName (getMonth zone t) ++ " "
   ++ ofZ (eraYear (getFullYear zone t)))%string.

Definition formatLocalDateTime (date : Z) : string :=
  let year := getFullYear zone date in
  let month := padStart2 (ofZ (getMonth zone date + 1)) in
  let day := padStart2 (ofZ (getDate zone date)) in
  let hours := padStart2 (ofZ (getHours zone date)) in
  let minutes := padStart2 (ofZ (getMinutes zone date)) in
  let seconds := padStart2 (ofZ (getSeconds zone date)) in
  (ofZ year ++ "-" ++ month ++ "-" ++ day ++ "T"
   ++ hours ++ ":" ++ minutes ++ ":" ++ seconds)%string.

(** [Math.ceil(n / d)] for integers, [d] positive. *)
Definition ceilDiv (n d : Z) : Z := - ((- n) / d).

(** The week number of the script.  The quotient of the source,
    [((target - firstThursday) / 86400000 + firstThursday.getDay() + 1) / 7],
    is taken exactly, over the common denominator [7 * 86400000]. *)
Definition getCalendarWeek (date : Z) : Z :=
  let target := date in
  let dayNr := (getDay zone date + 6) mod 7 in
  let target := setDate zone target (getDate zone target - dayNr + 3) in
  let firstThursday := newDateYMD zone (getFullYear zone target) 0 4 in
  let weekNumber :=
    ceilDiv (target - firstThursday
             + (getDay zone firstThursday + 1) * 86400000)
            (7 * 86400000) in
  weekNumber.

(** ** Grouping the entries of a day by subject *)

Definition lf8LongName : string :=
  "LF 8: Daten systemübergreifend bereitstellen / OOP (SI+IT nur Grundlagen) in Python/Java/ Datenbanke".

Definition lf8ShortName : string :=
  "LF 8: Daten systemübergreifend bereitstellen".

Definition missingContent : string :=
  "Kein Lehrstoff durch die Lehrkraft angegeben! Bitte manuell eintragen!".

Definition addNotAFunction : Exception :=
  TypeError "daySubjects[subject].add is not a function".

(** The block "Group by subject":
    [if (!daySubjects[subject]) daySubjects[subject] = new Set();
     daySubjects[subject].add(text);]
    The object is changed in place, so the object after the block is
    returned also when [add] throws. *)
Definition groupBySubject (daySubjects : JsObject.t) (subject text : string)
  : JsObject.t * option Exception :=
  let daySubjects :=
    if JsObject.falsy (JsObject.get daySubjects subject)
    then JsObject.set daySubjects subject JsSet.empty
    else daySubjects in
  match JsObject.get daySubjects subject with
  | JsObject.SetValue s =>
      (JsObject.set daySubjects subject (JsSet.add s text), None)
  | JsObject.Builtin => (daySubjects, Some addNotAFunction)
  | JsObject.Undefined =>
      (daySubjects,
       Some (TypeError "Cannot read properties of undefined (reading 'add')"))
  end.

(** [entry.subject?.longName], when it is truthy. *)
Definition subjectLongName (entry : Entry) : option string :=
  match subject entry with
  | Some s =>
      match longName s with
      | Some n => if String.eqb n "" then None else Some n
      | None => None
      end
  | None => None
  end.

Definition canceledText (entry : Entry) : string :=
  let startTime := toLocaleTimeString (newDateLocal (startDateTime entry)) in
  let endTime := toLocaleTimeString (newDateLocal (endDateTime entry)) in
  ("Entfallen (" ++ startTime ++ " - " ++ endTime ++ ")")%string.

(** [entry.teachingContent || "Kein Lehrstoff ..."] *)
Definition teachingContentOr (entry : Entry) : string :=
  match teachingContent entry with
  | Some c => if String.eqb c "" then missingContent else c
  | None => missingContent
  end.

(** The body of [for (const entry of calendarEntries)]. *)
Definition processEntry (daySubjects : JsObject.t) (entry : Entry)
  : JsObject.t * option Exception :=
  match subjectLongName entry with
  | None => (daySubjects, None)
  | Some name =>
      let subject :=
        if String.eqb name lf8LongName then lf8ShortName else name in
      if String.eqb (status entry) "CANCELLED"
      then groupBySubject daySubjects subject (canceledText entry)
      else groupBySubject daySubjects subject (teachingContentOr entry)
  end.

Fixpoint processEntries (daySubjects : JsObject.t) (entries : list Entry)
  : JsObject.t * option Exception :=
  match entries with
  | [] => (daySubjects, None)
  | entry :: rest =>
      match processEntry daySubjects entry with
      | (daySubjects', None) => processEntries daySubjects' rest
      | (daySubjects', Some ex) => (daySubjects', Some ex)
      end
  end.

(** The [try] block of one lesson, after the request was sent. *)
Definition tryLesson (daySubjects : JsObject.t)
    (answer : Fetched DetailResponse) : JsObject.t * option Exception :=
  match answer with
  | Rejected m => (daySubjects, Some (TypeError m))
  | Resolved r =>
      if negb (detail_ok r) then
        (daySubjects,
         Some (Error ("Failed to fetch teaching content: "
                      ++ ofZ (detail_status r) ++ " "
                      ++ detail_statusText r)%string))
      else
        match detail_body r with
        | NotJson m => (daySubjects, Some (Error m))
        | JsonNull =>
            (daySubjects,
             Some (TypeError
               "Cannot read properties of null (reading 'calendarEntries')"))
        | JsonObject found =>
            let calendarEntries :=
              match found with
              | Some l => l
              | None => []
              end in
            processEntries daySubjects calendarEntries
        end
  end.

(** One turn of [for (const lesson of lessons)]: the request, the [try]
    block, and the [catch] that logs. *)
Definition processLesson (w : World) (daySubjects : JsObject.t)
    (lesson : Lesson) : JsObject.t * list Event :=
  match tryLesson daySubjects (detail w lesson) with
  | (daySubjects', None) => (daySubjects', [Fetch (DetailRequest lesson)])
  | (daySubjects', Some lessonError) =>
      (daySubjects',
       [Fetch (DetailRequest lesson);
        ConsoleError ("Error fetching teaching content for lesson: "
                      ++ message_of lessonError)%string])
  end.

Fixpoint processLessons (w : World) (daySubjects : JsObject.t)
    (lessons : list Lesson) : JsObject.t * list Event :=
  match lessons with
  | [] => (daySubjects, [])
  | lesson :: rest =>
      let (daySubjects', events) := processLesson w daySubjects lesson in
      let (daySubjects'', events') := processLessons w daySubjects' rest in
      (daySubjects'', events ++ events')
  end.

(** The hours 7 to 18. *)
Definition hours : list Z := map Z.of_nat (seq 7 12).

Definition lessonsOfDay (currentDate : Z) : list Lesson :=
  map (fun hour =>
         {| elementId := 36686;
            elementType := 5;
            lesson_startDateTime :=
              formatLocalDateTime (setHours zone currentDate hour 0 0);
            lesson_endDateTime :=
              formatLocalDateTime (setHours zone currentDate (hour + 1) 0 0) |})
      hours.

(** ** Rendering *)

Definition titleParagraph : Paragraph :=
  {| par_text := Some "Berichtsheft";
     par_children := [];
     par_heading := Some "Title";
     par_alignment := Some "center";
     par_numbering := None |}.

Definition weekParagraph (startDate : Z) : Paragraph :=
  {| par_text :=
       Some ("KW" ++ ofZ (getCalendarWeek startDate) ++ "/"
             ++ ofZ (getFullYear zone startDate))%string;
     par_children := [];
     par_heading := None;
     par_alignment := Some "center";
     par_numbering := None |}.

Definition dayHeading (currentDate : Z) : Paragraph :=
  {| par_text := None;
     par_children :=
       [ {| run_text := (toLocaleDateString currentDate ++ ":")%string;
            run_color := None;
            run_underline := true |} ];
     par_heading := Some "Heading2";
     par_alignment := None;
     par_numbering := None |}.

Definition subjectHeading (subject : string) : Paragraph :=
  {| par_text := None;
     par_children :=
       [ {| run_text := subject;
            run_color := Some "156082";
            run_underline := false |} ];
     par_heading := Some "Heading3";
     par_alignment := None;
     par_numbering := None |}.

Definition bulletLine (content : string) : Paragraph :=
  {| par_text := None;
     par_children :=
       [ {| run_text := content;
            run_color :=
              Some (if includes "Kein Lehrstoff" content
                    then "FF0000" else "000000");
            run_underline := false |} ];
     par_heading := None;
     par_alignment := None;
     par_numbering := Some ("bullet-points", 0) |}.

Definition emptyLine : Paragraph :=
  {| par_text := Some "";
     par_children := [];
     par_heading := None;
     par_alignment := None;
     par_numbering := None |}.

(** One turn of [for (const [subject, contents] of Object.entries(daySubjects))]. *)
Definition renderSubject (p : string * JsSet.t) : list Paragraph :=
  subjectHeading (fst p) :: map bulletLine (JsSet.values (snd p)).

Definition renderSubjects (daySubjects : JsObject.t) : list Paragraph :=
  flat_map renderSubject (JsObject.entries daySubjects).

(** One turn of [while (currentDate <= endDate)], up to the step to the
    next day: the paragraphs pushed and the events. *)
Definition processDay (w : World) (currentDate : Z)
  : list Paragraph * list Event :=
  let lessons := lessonsOfDay currentDate in
  let (daySubjects, events) := processLessons w JsObject.empty lessons in
  (dayHeading currentDate :: renderSubjects daySubjects ++ [emptyLine],
   events).

(** [currentDate.setDate(currentDate.getDate() + 1)] *)
Definition nextDay (currentDate : Z) : Z :=
  setDate zone currentDate (getDate zone currentDate + 1).

(** Fuel for the loop over the days.  A step of the loop moves the date
    by 23, 24 or 25 hours, so this fuel is never used up. *)
Definition loopFuel (startDate endDate : Z) : nat :=
  Z.to_nat ((endDate - startDate) / (23 * msPerHour) + 1).

(** The [while] loop; [None] when the fuel does not reach the end. *)
Fixpoint dayLoop (fuel : nat) (w : World) (currentDate endDate : Z)
  : option (list Paragraph * list Event) :=
  if currentDate <=? endDate then
    match fuel with
    | O => None
    | S fuel' =>
        let (paragraphs, events) := processDay w currentDate in
        match dayLoop fuel' w (nextDay currentDate) endDate with
        | Some (paragraphs', events') =>
            Some (paragraphs ++ paragraphs', events ++ events')
        | None => None
        end
    end
  else Some ([], []).

(** ** Logging in *)

Definition tenantPrefix : string :=
  ("Tenant-Id=" ++ String dquote EmptyString)%string.

(** The characters before the first double quote, and whether one follows. *)
Fixpoint untilQuote (s : string) : string * bool :=
  match s with
  | EmptyString => (EmptyString, false)
  | String c rest =>
      if Ascii.eqb c dquote then (EmptyString, true)
      else let (value, closed) := untilQuote rest in (String c value, closed)
  end.

(** The first group of the first match of the pattern
    Tenant-Id=<quote>([^<quote>]+)<quote> in [s]. *)
Fixpoint matchTenantId (s : string) : option string :=
  let here :=
    if String.prefix tenantPrefix s then
      match untilQuote (drop (String.length tenantPrefix) s) with
      | (String c value, true) => Some (String c value)
      | _ => None
      end
    else None in
  match here with
  | Some tenantId => Some tenantId
  | None =>
      match s with
      | EmptyString => None
      | String _ rest => matchTenantId rest
      end
  end.

Definition loginAndGetCookie (w : World) : list Event * (Exception + string) :=
  ([Fetch LoginRequest],
   match login w with
   | Rejected m => inl (TypeError m)
   | Resolved loginResponse =>
       if negb (login_ok loginResponse) then
         inl (Error ("Failed to login: " ++ ofZ (login_status loginResponse)
                     ++ " " ++ login_statusText loginResponse)%string)
       else
         match login_setCookie loginResponse with
         | None =>
             inl (Error "No Set-Cookie header found in the login response.")
         | Some setCookieHeader =>
             if String.eqb setCookieHeader "" then
               inl (Error "No Set-Cookie header found in the login response.")
             else
               inr (join "; "
                      (map (fun cookie => hd EmptyString (split ";" cookie))
                           (split "," setCookieHeader)))
         end
   end).

(** ** The run *)

(** The file name of the document: [value] is the environment variable
    [OUTPUT_FILENAME], [None] when it is not set. *)
Definition outputFilename (value : option string) : string :=
  let outputFilename :=
    match value with
    | Some v =>
        if negb (String.eqb v "") && negb (String.eqb (JsTrim.trim v) "")
        then JsTrim.trim v
        else "TeachingContentOverview.docx"
    | None => "TeachingContentOverview.docx"
    end in
  if negb (endsWith ".docx" (toLowerCase outputFilename))
  then (outputFilename ++ ".docx")%string
  else outputFilename.

(** The directory of the document: [value] is the environment variable
    [DOCX_PATH].  The fallback of the script is [__dirname]; the script
    is an ES module (it imports with [import]), where that name is not
    defined, so reading it throws a [ReferenceError]: [None]. *)
Definition outputDir (value : option string) : option string :=
  match value with
  | Some v =>
      if negb (String.eqb v "") && negb (String.eqb (JsTrim.trim v) "")
      then Some (JsTrim.trim v)
      else None
  | None => None
  end.

(** The end of the [try] block, from [Packer.toBuffer] to the write of
    the file. *)
Definition afterTheLoop (w : World) (events : list Event)
    (paragraphs : list Paragraph) : list Event * option Exception :=
  match packer_toBuffer w paragraphs with
  | Some m => (events, Some (Error m))
  | None =>
      let outputFilename := outputFilename (env_OUTPUT_FILENAME w) in
      match outputDir (env_DOCX_PATH w) with
      | None => (events, Some (ReferenceError "__dirname is not defined"))
      | Some outputDir =>
          let outputPath :=
            if path_isAbsolute w outputFilename then outputFilename
            else path_join w outputDir outputFilename in
          match fs_writeFileSync w outputPath with
          | Some m => (events, Some (Error m))
          | None => (events ++ [WriteFile outputPath paragraphs], None)
          end
      end
  end.

(** The [try] block of [fetchTeachingContent]: the events, and the
    exception that ended it, if one did. *)
Definition tryFetchTeachingContent (w : World) (startDate endDate : Z)
  : list Event * option Exception :=
  let (loginEvents, logged) := loginAndGetCookie w in
  match logged with
  | inl ex => (loginEvents, Some ex)
  | inr cookie =>
      match matchTenantId cookie with
      | None => (loginEvents, Some (Error "Tenant-Id not found in the cookie."))
      | Some tenantId =>
          let events := loginEvents ++ [Fetch TokenRequest] in
          match token w with
          | Rejected m => (events, Some (TypeError m))
          | Resolved tokenResponse =>
              if negb (token_ok tokenResponse) then
                (events,
                 Some (Error ("Failed to fetch API token: "
                              ++ token_statusText tokenResponse)%string))
              else if String.eqb (token_text tokenResponse) ""
                      || String.eqb (JsTrim.trim (token_text tokenResponse)) ""
              then
                (events, Some (Error "API token is empty or invalid."))
              else
                let paragraphs := [titleParagraph; weekParagraph startDate] in
                match dayLoop (loopFuel startDate endDate) w
                        startDate endDate with
                | None => (events, None)
                | Some (dayParagraphs, dayEvents) =>
                    let paragraphs := paragraphs ++ dayParagraphs in
                    let events := events ++ dayEvents in
                    if (List.length paragraphs =? 0)%nat then
                      (events,
                       Some (Error
                         "No valid teaching content to add to the document."))
                    else afterTheLoop w events paragraphs
                end
          end
      end
  end.

Definition describe (e : Exception) : string :=
  match e with
  | Error m => ("Error: " ++ m)%string
  | TypeError m => ("TypeError: " ++ m)%string
  | ReferenceError m => ("ReferenceError: " ++ m)%string
  end.

Definition fetchTeachingContent (w : World) (startDate endDate : Z)
  : list Event :=
  match tryFetchTeachingContent w startDate endDate with
  | (events, None) => events
  | (events, Some error) =>
      events ++ [ConsoleError ("An error occurred: " ++ describe error)%string]
  end.

(** The validation of the two answers; [parseDate] is [new Date(input)],
    [None] for the invalid date. *)
Definition promptUserForTimeframe (parseDate : string -> option Z)
    (startDateInput endDateInput : string) : Exception + (Z * Z) :=
  match parseDate startDateInput, parseDate endDateInput with
  | Some startDate, Some endDate =>
      if startDate >? endDate then
        inl (Error "Start date must be earlier than or equal to the end date.")
      else inr (startDate, endDate)
  | _, _ =>
      inl (Error "Invalid date format. Please use an valid date as YYYY-MM-DD.")
  end.

Definition main (parseDate : string -> option Z) (w : World)
    (startDateInput endDateInput : string) : list Event :=
  match promptUserForTimeframe parseDate startDateInput endDateInput with
  | inr (startDate, endDate) => fetchTeachingContent w startDate endDate
  | inl error => [ConsoleError ("Error: " ++ message_of error)%string]
  end.

End Program.

(** ** Reference notions used in the statements *)

(** The ISO 8601 week number of a day, by the words of the standard:
    weeks start on Monday, week 1 of a year is the week that holds the
    year's first Thursday, and a day is counted in the year of the
    Thursday of its week. *)
Module Iso8601.

Definition thursdayOfWeek (d : Z) : Z :=
  d - (JsDate.WeekDay d + 6) mod 7 + 3.

Definition firstThursday (y : Z) : Z :=
  let jan1 := JsDate.DayFromYear y in
  jan1 + (4 - JsDate.WeekDay jan1) mod 7.

Definition weekNumber (d : Z) : Z :=
  let th := thursdayOfWeek d in
  (th - firstThursday (JsDate.YearFromDay th)) / 7 + 1.

End Iso8601.

(** The local calendar day of a date. *)
Definition localDay (zone : JsDate.Zone) (t : Z) : Z :=
  JsDate.Day (JsDate.LocalTime zone t).

(** The time value of [new Date("YYYY-MM-DD")]: midnight UTC. *)
Definition utcMidnight (year month day : Z) : Z :=
  JsDate.MakeDate (JsDate.MakeDay year (month - 1) day) 0.

(** A date-time of the calendar: one that [new Date] reads, with a day
    that its month has. *)
Definition calendarDateTime (d : DateTime) : bool :=
  validDateTime d && (dt_day d <=? daysInMonth (dt_year d) (dt_month d - 1)).

(** A list without its repetitions, each element at its first place. *)
Fixpoint firstSeen (l : list string) : list string :=
  match l with
  | [] => []
  | x :: rest => x :: filter (fun y => negb (String.eqb y x)) (firstSeen rest)
  end.

(** Two decimal digits. *)
Definition digit (n : Z) : ascii := ascii_of_nat (48 + Z.to_nat n).

Definition twoDigits (n : Z) : string :=
  String (digit (n / 10)) (String (digit (n mod 10)) EmptyString).

(** [HH:MM] *)
Definition clock (hour minute : Z) : string :=
  (twoDigits hour ++ ":" ++ twoDigits minute)%string.

(** How the clock time of a date-time is shown: [HH:MM], with 24:00 as
    00:00, and "Invalid Date" for a date-time that [new Date] does not
    read. *)
Definition shownTime (d : DateTime) : string :=
  if validDateTime d then clock (dt_hour d mod 24) (dt_minute d)
  else "Invalid Date".

(** An object as the script builds it: no key twice, no line twice, and
    no own key that is a name of the prototype. *)
Definition WellFormed (o : JsObject.t) : Prop :=
  NoDup (map fst o)
  /\ Forall (fun p => NoDup (snd p)) o
  /\ Forall (fun p => JsObject.inherited (fst p) = false) o.

(** The insertions of a list of (subject, line) pairs, one after the
    other, as long as none throws. *)
Fixpoint groupAll (daySubjects : JsObject.t) (lines : list (string * string))
  : JsObject.t * option Exception :=
  match lines with
  | [] => (daySubjects, None)
  | (subject, text) :: rest =>
      match groupBySubject daySubjects subject text with
      | (daySubjects', None) => groupAll daySubjects' rest
      | (daySubjects', Some ex) => (daySubjects', Some ex)
      end
  end.

(** The lines inserted for one subject, in order. *)
Definition linesOf (subject : string) (lines : list (string * string))
  : list string :=
  map snd (filter (fun p => String.eqb (fst p) subject) lines).

(** The lines an object holds for a subject, in the order of the set. *)
Definition linesOfSubject (o : JsObject.t) (subject : string) : list string :=
  match JsObject.getOwn o subject with
  | Some s => JsSet.values s
  | None => []
  end.

(** The text of the first run of a paragraph. *)
Definition firstText (p : Paragraph) : string :=
  match par_children p with
  | r :: _ => run_text r
  | [] => EmptyString
  end.

(** The text that a paragraph shows. *)
Definition textOf (p : Paragraph) : string :=
  match par_text p with
  | Some t => t
  | None => firstText p
  end.

Definition isBullet (p : Paragraph) : bool :=
  match par_numbering p with
  | Some _ => true
  | None => false
  end.

Definition isSubjectHeading (p : Paragraph) : bool :=
  match par_heading p with
  | Some h => String.eqb h "Heading3"
  | None => false
  end.

(** The subject an entry is grouped under, if it has a long name. *)
Definition subjectOf (entry : Entry) : option string :=
  match subjectLongName entry with
  | Some name =>
      Some (if String.eqb name lf8LongName then lf8ShortName else name)
  | None => None
  end.

(** The line an entry stands for. *)
Definition lineOf (zone : JsDate.Zone) (entry : Entry) : string :=
  if String.eqb (status entry) "CANCELLED"
  then canceledText zone entry
  else teachingContentOr entry.

(** The (subject, line) pairs of the entries that have a subject. *)
Definition linesOfEntries (zone : JsDate.Zone) (entries : list Entry)
  : list (string * string) :=
  flat_map (fun entry =>
              match subjectOf entry with
              | Some s => [(s, lineOf zone entry)]
              | None => []
              end)
           entries.

(** A name that is not an array index. *)
Definition plainName (k : string) : bool :=
  match JsString.arrayIndex k with
  | Some _ => false
  | None => true
  end.

(** Names that are array indices, in ascending numeric order. *)
Definition ascendingIndices (keys : list string) : Prop :=
  exists ns,
    map JsString.arrayIndex keys = map Some ns /\ Sorted.StronglySorted Z.lt ns.

(** The bullet lines of a block that show a given text. *)
Definition bulletsWith (text : string) (block : list Paragraph)
  : list Paragraph :=
  filter (fun p => isBullet p && String.eqb (firstText p) text) block.

(** The path of the document in the directory [dir]. *)
Definition documentPath (w : World) (dir : string) : string :=
  let name := outputFilename (env_OUTPUT_FILENAME w) in
  if path_isAbsolute w name then name else path_join w dir name.

(** The requests for calendar entries among some events, in order. *)
Fixpoint detailRequests (events : list Event) : list Lesson :=
  match events with
  | [] => []
  | Fetch (DetailRequest lesson) :: rest => lesson :: detailRequests rest
  | _ :: rest => detailRequests rest
  end.

(** The days the loop visits: [n] days from [currentDate] on. *)
Fixpoint daysFrom (n : nat) (currentDate : Z) : list Z :=
  match n with
  | O => []
  | S k => currentDate :: daysFrom k (currentDate + JsDate.msPerDay)
  end.

(** The number of days from the start date to the end date. *)
Definition numberOfDays (startDate endDate : Z) : nat :=
  if startDate <=? endDate
  then Z.to_nat ((endDate - startDate) / JsDate.msPerDay + 1)
  else O.

(** A lookup that fails before any entry is read. *)
Definition lookupFails (answer : Fetched DetailResponse) : bool :=
  match answer with
  | Rejected _ => true
  | Resolved r =>
      negb (detail_ok r)
      || match detail_body r with
         | JsonObject _ => false
         | _ => true
         end
  end.

(** A lookup that answers with no entry. *)
Definition noEntries (answer : Fetched DetailResponse) : bool :=
  match answer with
  | Rejected _ => false
  | Resolved r =>
      detail_ok r
      && match detail_body r with
         | JsonObject None => true
         | JsonObject (Some []) => true
         | _ => false
         end
  end.

(** An answer with the given entries. *)
Definition answerWith (entries : list Entry) : Fetched DetailResponse :=
  Resolved {| detail_ok := true; detail_status := 200;
              detail_statusText := "OK";
              detail_body := JsonObject (Some entries) |}.

Definition emptyAnswer : Fetched DetailResponse := answerWith [].

(** The entries a lookup hands to the loop over the entries. *)
Definition answeredEntries (answer : Fetched DetailResponse) : list Entry :=
  match answer with
  | Rejected _ => []
  | Resolved r =>
      if detail_ok r then
        match detail_body r with
        | JsonObject (Some l) => l
        | _ => []
        end
      else []
  end.

(** The insertions that take effect: those before the first subject
    that is a name of the prototype, where the slot is given up. *)
Fixpoint insertedLines (lines : list (string * string))
  : list (string * string) :=
  match lines with
  | [] => []
  | (s, t) :: rest =>
      if JsObject.inherited s then [] else (s, t) :: insertedLines rest
  end.

(** The insertions of a day that take effect, slot by slot. *)
Definition dayLines (zone : JsDate.Zone) (w : World) (lessons : list Lesson)
  : list (string * string) :=
  flat_map (fun lesson =>
              insertedLines
                (linesOfEntries zone (answeredEntries (detail w lesson))))
           lessons.

(** The subjects of the subject headings among some paragraphs. *)
Definition emittedSubjects (paragraphs : list Paragraph) : list string :=
  map firstText (filter isSubjectHeading paragraphs).

(** The block of a subject: its heading and its bullet lines. *)
Definition subjectBlock (lines : list (string * string)) (subject : string)
  : list Paragraph :=
  subjectHeading subject :: map bulletLine (firstSeen (linesOf subject lines)).

(** An entry at which the loop over the entries throws: its subject is
    named like a member of [Object.prototype]. *)
Definition throwsAt (entry : Entry) : bool :=
  match subjectOf entry with
  | Some s => JsObject.inherited s
  | None => false
  end.

(** The entries that are read before the first one that throws. *)
Fixpoint readEntries (entries : list Entry) : list Entry :=
  match entries with
  | [] => []
  | entry :: rest => if throwsAt entry then [] else entry :: readEntries rest
  end.

(** The message of the error that ends the [try] block of a slot, by
    the answer to its lookup: the request is rejected, the response is
    not ok, its body is not JSON or is [null], or an entry throws;
    [None] for a slot that ends without an error. *)
Definition failure (answer : Fetched DetailResponse) : option string :=
  match answer with
  | Rejected m => Some m
  | Resolved r =>
      if detail_ok r then
        match detail_body r with
        | NotJson m => Some m
        | JsonNull =>
            Some "Cannot read properties of null (reading 'calendarEntries')"
        | JsonObject _ =>
            if existsb throwsAt (answeredEntries answer)
            then Some "daySubjects[subject].add is not a function"
            else None
        end
      else
        Some ("Failed to fetch teaching content: "
              ++ JsString.ofZ (detail_status r) ++ " "
              ++ detail_statusText r)%string
  end.

(** The line that the [catch] of a slot writes. *)
Definition logOf (answer : Fetched DetailResponse) : list Event :=
  match failure answer with
  | Some message =>
      [ConsoleError ("Error fetching teaching content for lesson: "
                     ++ message)%string]
  | None => []
  end.

(** The world in which every slot that fails in [w] answers with the
    entries that were read before it failed (none when the lookup
    itself failed); every other slot, and all else, is as in [w]. *)
Definition calm (w : World) : World :=
  {| login := login w;
     token := token w;
     detail := fun lesson =>
       match failure (detail w lesson) with
       | Some _ => answerWith (readEntries (answeredEntries (detail w lesson)))
       | None => detail w lesson
       end;
     env_OUTPUT_FILENAME := env_OUTPUT_FILENAME w;
     env_DOCX_PATH := env_DOCX_PATH w;
     packer_toBuffer := packer_toBuffer w;
     path_isAbsolute := path_isAbsolute w;
     path_join := path_join w;
     fs_writeFileSync := fs_writeFileSync w |}.

(** The date of a day in German, as in "Montag, 10. März 2025". *)
Definition germanDate (day : Z) : string :=
  (weekdayName (JsDate.WeekDay day) ++ ", "
   ++ JsString.ofZ (JsDate.DateFromDay day) ++ ". "
   ++ monthName (JsDate.MonthFromDay day) ++ " "
   ++ JsString.ofZ (eraYear (JsDate.YearFromDay day)))%string.

(** The heading of a day: its date, underlined, in the style of a
    heading of the second level. *)
Definition headingOfDay (day : Z) : Paragraph :=
  {| par_text := None;
     par_children :=
       [ {| run_text := (germanDate day ++ ":")%string;
            run_color := None;
            run_underline := true |} ];
     par_heading := Some "Heading2";
     par_alignment := None;
     par_numbering := None |}.

(** The login gives no cookie with a tenant. *)
Definition loginFails (w : World) : bool :=
  match snd (loginAndGetCookie w) with
  | inl _ => true
  | inr cookie =>
      match matchTenantId cookie with
      | Some _ => false
      | None => true
      end
  end.

(** The token request gives no token. *)
Definition tokenFails (w : World) : bool :=
  match token w with
  | Rejected _ => true
  | Resolved r =>
      negb (token_ok r) || String.eqb (JsTrim.trim (token_text r)) ""
  end.


(** ** Further notions: the fields of a date *)

(** The local date of a time value as [YYYY-MM-DD]. *)
Definition datePart (zone : JsDate.Zone) (t : Z) : string :=
  (JsString.ofZ (JsDate.getFullYear zone t) ++ "-"
   ++ JsString.padStart2 (JsString.ofZ (JsDate.getMonth zone t + 1)) ++ "-"
   ++ JsString.padStart2 (JsString.ofZ (JsDate.getDate zone t)))%string.

(** The request of the slot that starts at [hour] on the day of [t]. *)
Definition slotOf (zone : JsDate.Zone) (t hour : Z) : Lesson :=
  {| elementId := 36686;
     elementType := 5;
     lesson_startDateTime :=
       (datePart zone t ++ "T" ++ twoDigits hour ++ ":00:00")%string;
     lesson_endDateTime :=
       (datePart zone t ++ "T" ++ twoDigits (hour + 1) ++ ":00:00")%string |}.

(** A local date-time written as [YYYY-MM-DDTHH:MM:SS]. *)
Definition isoLocal (d : DateTime) : string :=
  (JsString.ofZ (dt_year d) ++ "-" ++ twoDigits (dt_month d) ++ "-"
   ++ twoDigits (dt_day d) ++ "T" ++ twoDigits (dt_hour d) ++ ":"
   ++ twoDigits (dt_minute d) ++ ":" ++ twoDigits (dt_second d))%string.

(** Whether a character occurs in a string. *)
Fixpoint hasChar (c : ascii) (s : string) : bool :=
  match s with
  | EmptyString => false
  | String x rest => Ascii.eqb x c || hasChar c rest
  end.

(** ** Sample inputs *)

Module Samples.

(** Central European Time: one hour ahead of UTC. *)
Definition cet : Z := 3600000.

(** The day number of the last Sunday of a month of 31 days. *)
Definition lastSunday (year month : Z) : Z :=
  let last := JsDate.MakeDay year month 31 in
  last - JsDate.WeekDay last.

(** Summer time by the rule of the European Union, in force since 1996:
    from 01:00 UTC on the last Sunday of March to 01:00 UTC on the last
    Sunday of October. *)
Definition europeanSummerTime (t : Z) : bool :=
  let year := JsDate.YearFromDay (JsDate.Day t) in
  (JsDate.MakeDate (lastSunday year 2) JsDate.msPerHour <=? t)
  && (t <? JsDate.MakeDate (lastSunday year 9) JsDate.msPerHour).

(** The zone Europe/Berlin under that rule. *)
Definition berlin : JsDate.Zone :=
  {| JsDate.standardOffset := 3600000;
     JsDate.summerTime := europeanSummerTime |}.

Definition cookieHeader : string :=
  ("JSESSIONID=abc; Path=/, Tenant-Id="
   ++ String JsString.dquote ("4711" ++ String JsString.dquote "; Path=/"))%string.

Definition loginFine : Fetched LoginResponse :=
  Resolved {| login_ok := true; login_status := 200;
              login_statusText := "OK";
              login_setCookie := Some cookieHeader |}.

Definition tokenFine : Fetched TokenResponse :=
  Resolved {| token_ok := true; token_statusText := "OK";
              token_text := "token" |}.

Definition answer (entries : list Entry) : Fetched DetailResponse :=
  answerWith entries.

(** A host on which the login and the token request succeed, the
    document can be packed and written, [DOCX_PATH] is set and
    [OUTPUT_FILENAME] is not, with the paths of a POSIX system, and a
    school that answers the slots by [answers]. *)
Definition school (answers : Lesson -> Fetched DetailResponse) : World :=
  {| login := loginFine;
     token := tokenFine;
     detail := answers;
     env_OUTPUT_FILENAME := None;
     env_DOCX_PATH := Some "/home/azubi/berichte";
     packer_toBuffer := fun _ => None;
     path_isAbsolute := String.prefix "/";
     path_join := fun dir name => (dir ++ "/" ++ name)%string;
     fs_writeFileSync := fun _ => None |}.

(** A school that answers every slot with no entry. *)
Definition quietWorld : World := school (fun _ => emptyAnswer).

Definition at_ (hour minute : Z) : DateTime :=
  {| dt_year := 2025; dt_month := 3; dt_day := 10;
     dt_hour := hour; dt_minute := minute; dt_second := 0 |}.

Definition entryOf (name : option string) (state : string)
    (content : option string) : Entry :=
  {| subject := Some {| longName := name |};
     status := state;
     startDateTime := at_ 8 0;
     endDateTime := at_ 9 30;
     teachingContent := content |}.

Definition cancelled : Entry := entryOf (Some "Mathe") "CANCELLED" None.
Definition silent : Entry := entryOf (Some "Mathe") "" None.
Definition mathe : Entry := entryOf (Some "Mathe") "" (Some "Bruchrechnen").
Definition numbered : Entry := entryOf (Some "1") "" (Some "Lesen").
Definition nameless : Entry := entryOf None "CANCELLED" (Some "Bruchrechnen").

(** A morning on which three slots fail: the request of the slot from
    09:00 is rejected, the slot from 10:00 answers with the status 500,
    and in the slot from 11:00 the second of three entries has a
    subject named like a member of [Object.prototype]. *)
Definition stormyMorning (lesson : Lesson) : Fetched DetailResponse :=
  if String.eqb (lesson_startDateTime lesson) "2025-03-10T08:00:00"
  then answer [mathe]
  else if String.eqb (lesson_startDateTime lesson) "2025-03-10T09:00:00"
  then Rejected "fetch failed"
  else if String.eqb (lesson_startDateTime lesson) "2025-03-10T10:00:00"
  then Resolved {| detail_ok := false; detail_status := 500;
                   detail_statusText := "Internal Server Error";
                   detail_body := JsonNull |}
  else if String.eqb (lesson_startDateTime lesson) "2025-03-10T11:00:00"
  then answer [entryOf (Some "Deutsch") "" (Some "Lyrik");
               entryOf (Some "toString") "" (Some "Rechnen");
               entryOf (Some "Englisch") "" (Some "Vocabulary")]
  else emptyAnswer.

Definition stormyWorld : World := school stormyMorning.

(** A morning whose slot from 08:00 answers with the given entries;
    every other slot answers with none. *)
Definition calmMorning (entries : list Entry) (lesson : Lesson)
  : Fetched DetailResponse :=
  if String.eqb (lesson_startDateTime lesson) "2025-03-10T08:00:00"
  then answer entries
  else emptyAnswer.

Definition calmMorningWorld (entries : list Entry) : World :=
  school (calmMorning entries).

(** A morning with three subjects: they are first seen in the order
    Mathe, Deutsch, Englisch, and the lines of Mathe and of Deutsch are
    first seen in another order than that of the alphabet. *)
Definition lessonOf (name content : string) : Entry :=
  entryOf (Some name) "" (Some content).

Definition threeSubjects (lesson : Lesson) : Fetched DetailResponse :=
  if String.eqb (lesson_startDateTime lesson) "2025-03-10T08:00:00"
  then answer [lessonOf "Mathe" "Zinsrechnung"; lessonOf "Deutsch" "Lyrik";
               lessonOf "Mathe" "Algebra"]
  else if String.eqb (lesson_startDateTime lesson) "2025-03-10T09:00:00"
  then answer [lessonOf "Englisch" "Vocabulary"; lessonOf "Deutsch" "Aufsatz";
               lessonOf "Mathe" "Zinsrechnung"]
  else emptyAnswer.

Definition threeSubjectsWorld : World := school threeSubjects.

(** [new Date(input)] for the two inputs of the samples. *)
Definition parseSample (input : string) : option Z :=
  if String.eqb input "2025-03-14" then Some (utcMidnight 2025 3 14)
  else if String.eqb input "2025-03-10" then Some (utcMidnight 2025 3 10)
  else None.

(** A school whose login endpoint can not be reached. *)
Definition offlineWorld : World :=
  {| login := Rejected "fetch failed";
     token := tokenFine;
     detail := fun _ => emptyAnswer;
     env_OUTPUT_FILENAME := None;
     env_DOCX_PATH := Some "/home/azubi/berichte";
     packer_toBuffer := fun _ => None;
     path_isAbsolute := String.prefix "/";
     path_join := fun dir name => (dir ++ "/" ++ name)%string;
     fs_writeFileSync := fun _ => None |}.

(** A school that answers every slot with the same lesson. *)
Definition doubleLessonWorld : World := school (fun _ => answer [mathe]).

(** The quiet school, on a host where [DOCX_PATH] is not set. *)
Definition noPathWorld : World :=
  {| login := loginFine;
     token := tokenFine;
     detail := fun _ => emptyAnswer;
     env_OUTPUT_FILENAME := None;
     env_DOCX_PATH := None;
     packer_toBuffer := fun _ => None;
     path_isAbsolute := String.prefix "/";
     path_join := fun dir name => (dir ++ "/" ++ name)%string;
     fs_writeFileSync := fun _ => None |}.

End Samples.

(** ** Facts about time values *)

Unset Implicit Arguments.

Module JsDateFacts.

Import JsDate.

Lemma YearFromDay_spec d :
  DayFromYear (YearFromDay d) <= d < DayFromYear (YearFromDay d + 1).
Proof.
  unfold YearFromDay.
  set (y0 := 1970 + d * 400 / 146097).
  destruct (Z.leb_spec (DayFromYear (y0 + 1)) d) as [H1|H1].
  - split; [exact H1|]. unfold DayFromYear in *. subst y0.
    Z.to_euclidean_division_equations; lia.
  - destruct (Z.leb_spec (DayFromYear y0) d) as [H2|H2].
    + split; [exact H2|exact H1].
    + replace (y0 - 1 + 1) with y0 by lia. split; [|exact H2].
      unfold DayFromYear in *. subst y0.
      Z.to_euclidean_division_equations; lia.
Qed.

Lemma MonthFromDay_range d : 0 <= MonthFromDay d <= 11.
Proof.
  unfold MonthFromDay.
  repeat match goal with
         | |- context [if ?c then _ else _] => destruct c
         end; lia.
Qed.

Lemma MakeDay_same_month d k :
  MakeDay (YearFromDay d) (MonthFromDay d) (DateFromDay d + k) = d + k.
Proof.
  pose proof (MonthFromDay_range d) as Hm.
  unfold MakeDay, DateFromDay, DayWithinYear.
  rewrite (Z.div_small (MonthFromDay d) 12) by lia.
  rewrite (Z.mod_small (MonthFromDay d) 12) by lia.
  rewrite Z.add_0_r. lia.
Qed.

Lemma Day_MakeDate day time :
  0 <= time < msPerDay -> Day (MakeDate day time) = day.
Proof.
  unfold Day, MakeDate, msPerDay. intros H.
  Z.to_euclidean_division_equations; lia.
Qed.

(** In any zone [setDate] moves the local time by whole days and reads
    the result back as an instant. *)
Lemma setDate_local (zone : Zone) (t k : Z) :
  setDate zone t (getDate zone t + k)
  = UTC zone (LocalTime zone t + k * msPerDay).
Proof.
  unfold setDate, getDate. rewrite MakeDay_same_month.
  f_equal. unfold MakeDate, TimeWithinDay, Day, msPerDay.
  Z.to_euclidean_division_equations; lia.
Qed.

Lemma setDate_shift (tza t k : Z) :
  setDate tza t (getDate tza t + k) = t + k * msPerDay.
Proof.
  unfold setDate, getDate, UTC, LocalTime, MakeDate, TimeWithinDay,
    offsetAt, offsetOfLocal;
    cbn [standardOffset summerTime fixedOffset].
  rewrite MakeDay_same_month. unfold Day, msPerDay.
  Z.to_euclidean_division_equations; lia.
Qed.

End JsDateFacts.

(** ** The week number *)

Section WeekNumber.

Import JsDate JsDateFacts.

Variable tza : Z.

Lemma WeekDay_thursdayOfWeek d : WeekDay (Iso8601.thursdayOfWeek d) = 4.
Proof.
  unfold Iso8601.thursdayOfWeek, WeekDay.
  Z.to_euclidean_division_equations; lia.
Qed.

Lemma MakeDay_january_4 y : MakeDay y 0 4 = DayFromYear y + 3.
Proof.
  unfold MakeDay. change (0 / 12) with 0. change (0 mod 12) with 0.
  replace (y + 0) with y by lia.
  change (monthStart (InLeapYear y) 0) with 0. lia.
Qed.

Lemma localDay_of_thursday t :
  localDay tza (t + (3 - (getDay tza t + 6) mod 7) * msPerDay)
  = Iso8601.thursdayOfWeek (localDay tza t).
Proof.
  unfold Iso8601.thursdayOfWeek, localDay, getDay, LocalTime, Day, msPerDay,
    offsetAt, offsetOfLocal;
    cbn [standardOffset summerTime fixedOffset].
  set (w := WeekDay _). clearbody w.
  Z.to_euclidean_division_equations; lia.
Qed.

(** The script's week number is the ISO week number, except in the
    years whose 4 January is a Sunday, where it is one less.  (Years 0
    to 99 are left out: [new Date(year, 0, 4)] reads them as 19xx.) *)
Lemma getCalendarWeek_against_iso t :
  let th := Iso8601.thursdayOfWeek (localDay tza t) in
  let y := YearFromDay th in
  ~ (0 <= y <= 99) ->
  getCalendarWeek tza t
  = Iso8601.weekNumber (localDay tza t)
    - (if WeekDay (MakeDay y 0 4) =? 0 then 1 else 0).
Proof.
  intros th y Hy.
  unfold getCalendarWeek.
  replace (getDate tza t - (getDay tza t + 6) mod 7 + 3)
    with (getDate tza t + (3 - (getDay tza t + 6) mod 7)) by lia.
  rewrite setDate_shift.
  pose proof (localDay_of_thursday t) as Hth. fold th in Hth.
  unfold getFullYear.
  fold (localDay tza (t + (3 - (getDay tza t + 6) mod 7) * msPerDay)).
  rewrite Hth. fold y.
  unfold newDateYMD.
  replace ((0 <=? y) && (y <=? 99)) with false
    by (symmetry; apply andb_false_iff; lia).
  unfold getDay at 2. unfold UTC, LocalTime,
    offsetAt, offsetOfLocal;
    cbn [standardOffset summerTime fixedOffset].
  replace (MakeDate (MakeDay y 0 4) 0 - tza + tza)
    with (MakeDate (MakeDay y 0 4) 0) by lia.
  rewrite Day_MakeDate by (unfold msPerDay; lia).
  unfold Iso8601.weekNumber. fold th. fold y.
  unfold Iso8601.firstThursday.
  rewrite MakeDay_january_4.
  pose proof (WeekDay_thursdayOfWeek (localDay tza t)) as Hw. fold th in Hw.
  assert (Ht : t = (th + (getDay tza t + 6) mod 7 - 3) * msPerDay
                   + TimeWithinDay (LocalTime tza t) - tza).
  { subst th.
    unfold Iso8601.thursdayOfWeek, getDay, localDay, Day, TimeWithinDay,
      LocalTime, msPerDay,
    offsetAt, offsetOfLocal;
    cbn [standardOffset summerTime fixedOffset].
    set (w := (WeekDay _ + 6) mod 7). clearbody w.
    Z.to_euclidean_division_equations; lia. }
  assert (Htw : 0 <= TimeWithinDay (LocalTime tza t) < msPerDay)
    by (apply Z.mod_pos_bound; unfold msPerDay; lia).
  set (tw := TimeWithinDay (LocalTime tza t)) in *. clearbody tw.
  set (dn := (getDay tza t + 6) mod 7) in *. clearbody dn.
  rewrite Ht. clear Ht Hth.
  unfold ceilDiv, MakeDate, WeekDay in *. unfold msPerDay in *.
  set (j := DayFromYear y) in *. clearbody j. clearbody th.
  destruct (Z.eqb_spec ((j + 3 + 4) mod 7) 0);
    Z.to_euclidean_division_equations; lia.
Qed.

End WeekNumber.

(** The reference week number on known dates: 2020-12-31 and
    2021-01-03 lie in week 53, 2021-01-04 in week 1, 2024-12-30 in
    week 1, 2025-03-10 in week 11. *)
Example iso_week_numbers :
  map (fun d => Iso8601.weekNumber (JsDate.Day d))
      [utcMidnight 2020 12 31; utcMidnight 2021 1 3; utcMidnight 2021 1 4;
       utcMidnight 2024 12 30; utcMidnight 2025 3 10]
  = [53; 53; 1; 1; 11].
Proof. vm_compute. reflexivity. Qed.

(** Where 4 January is not a Sunday the script agrees with ISO 8601:
    the same dates, in Central European Time. *)
Example script_week_numbers :
  map (getCalendarWeek Samples.cet)
      [utcMidnight 2020 12 31; utcMidnight 2021 1 3; utcMidnight 2021 1 4;
       utcMidnight 2024 12 30; utcMidnight 2025 3 10]
  = [53; 53; 1; 1; 11].
Proof. vm_compute. reflexivity. Qed.

(** C3.  The week number of the script against ISO 8601, in Central
    European Time: for the start dates 2026-01-01 and 2025-12-29, both
    in ISO week 1 of 2026, the script computes week 0, and for
    2026-11-02, in ISO week 45, it computes week 44; the label of the
    document for 2026-01-01 reads KW0/2026. *)
Theorem getCalendarWeek_2026_is_one_short :
  getCalendarWeek Samples.cet (utcMidnight 2026 1 1) = 0
  /\ Iso8601.weekNumber (localDay Samples.cet (utcMidnight 2026 1 1)) = 1
  /\ getCalendarWeek Samples.cet (utcMidnight 2025 12 29) = 0
  /\ Iso8601.weekNumber (localDay Samples.cet (utcMidnight 2025 12 29)) = 1
  /\ getCalendarWeek Samples.cet (utcMidnight 2026 11 2) = 44
  /\ Iso8601.weekNumber (localDay Samples.cet (utcMidnight 2026 11 2)) = 45
  /\ par_text (weekParagraph Samples.cet (utcMidnight 2026 1 1))
     = Some "KW0/2026".
Proof. vm_compute. repeat split. Qed.

(** ** The loop over the days *)

Section Days.

Import JsDate JsDateFacts.

Variable zone : Zone.

Lemma dayLoop_unfold fuel w currentDate endDate :
  dayLoop zone fuel w currentDate endDate
  = if currentDate <=? endDate then
      match fuel with
      | O => None
      | S fuel' =>
          let (paragraphs, events) := processDay zone w currentDate in
          match dayLoop zone fuel' w (nextDay zone currentDate) endDate with
          | Some (paragraphs', events') =>
              Some (paragraphs ++ paragraphs', events ++ events')
          | None => None
          end
      end
    else Some ([], []).
Proof. destruct fuel; reflexivity. Qed.

Lemma offsetAt_cases t :
  offsetAt zone t = standardOffset zone
  \/ offsetAt zone t = standardOffset zone + msPerHour.
Proof. unfold offsetAt. destruct (summerTime zone t); auto. Qed.

Lemma offsetOfLocal_cases t :
  offsetOfLocal zone t = standardOffset zone
  \/ offsetOfLocal zone t = standardOffset zone + msPerHour.
Proof. unfold offsetOfLocal. destruct (summerTime zone _); auto. Qed.

(** The step to the next day keeps the clock of the local time: it is
    a day, and an hour more or less where summer time ends or begins
    in between. *)
Lemma nextDay_bounds t :
  t + 23 * msPerHour <= nextDay zone t <= t + 25 * msPerHour.
Proof.
  unfold nextDay. rewrite setDate_local. unfold UTC, LocalTime.
  pose proof (offsetAt_cases t) as H1.
  pose proof (offsetOfLocal_cases (t + offsetAt zone t + 1 * msPerDay)) as H2.
  unfold msPerDay, msPerHour in *. lia.
Qed.

(** The fuel of the model is enough: the loop ends. *)
Lemma dayLoop_ends fuel w currentDate endDate :
  (loopFuel currentDate endDate <= fuel)%nat ->
  exists result, dayLoop zone fuel w currentDate endDate = Some result.
Proof.
  revert currentDate. unfold loopFuel, msPerHour.
  induction fuel as [|fuel IH]; intros currentDate Hfuel;
    rewrite dayLoop_unfold;
    destruct (Z.leb_spec currentDate endDate) as [Hle|Hgt];
    try (eexists; reflexivity).
  - exfalso.
    assert (0 <= (endDate - currentDate) / (23 * 3600000))
      by (apply Z.div_pos; lia).
    lia.
  - destruct (processDay zone w currentDate) as [paragraphs events].
    destruct (IH (nextDay zone currentDate)) as [[paragraphs' events'] Hrest].
    + pose proof (nextDay_bounds currentDate) as Hstep.
      unfold msPerHour in Hstep.
      assert (0 <= (endDate - currentDate) / (23 * 3600000))
        by (apply Z.div_pos; lia).
      assert ((endDate - nextDay zone currentDate) / (23 * 3600000)
              <= (endDate - currentDate) / (23 * 3600000) - 1)
        by (Z.to_euclidean_division_equations; lia).
      lia.
    + rewrite Hrest. eexists; reflexivity.
Qed.

Ltac run_cases :=
  repeat match goal with
         | |- context [match ?x with _ => _ end] =>
             lazymatch x with
             | context [match _ with _ => _ end] => fail
             | _ => destruct x eqn:?; simpl; try discriminate
             end
         end.

(** The check before the file is written can not fire: the list holds
    the title and the week label from the start.  An error with its
    message can only come from the packing or the write of the file. *)
Lemma no_content_error_is_dead w startDate endDate :
  snd (tryFetchTeachingContent zone w startDate endDate)
  = Some (Error "No valid teaching content to add to the document.") ->
  (exists paragraphs,
      packer_toBuffer w paragraphs
      = Some "No valid teaching content to add to the document.")
  \/ (exists path,
        fs_writeFileSync w path
        = Some "No valid teaching content to add to the document.").
Proof.
  destruct (dayLoop_ends (loopFuel startDate endDate)
              w startDate endDate (le_n _)) as [[dayParagraphs dayEvents] Hloop].
  unfold tryFetchTeachingContent, loginAndGetCookie, afterTheLoop.
  rewrite Hloop.
  run_cases; intros H; try discriminate H; injection H as H; subst;
    first [left; eexists; eassumption | right; eexists; eassumption].
Qed.

(** A [try] block that ends without an exception went through the
    loop over the days and ends with the write of the file, in the
    directory that [DOCX_PATH] names; the document starts with the
    title and the week label. *)
Lemma run_without_exception_writes_the_file w startDate endDate events :
  tryFetchTeachingContent zone w startDate endDate = (events, None) ->
  exists dayParagraphs dayEvents dir,
    dayLoop zone (loopFuel startDate endDate) w startDate endDate
    = Some (dayParagraphs, dayEvents)
    /\ outputDir (env_DOCX_PATH w) = Some dir
    /\ events
       = Fetch LoginRequest :: Fetch TokenRequest :: dayEvents
         ++ [WriteFile (documentPath w dir)
               (titleParagraph :: weekParagraph zone startDate
                :: dayParagraphs)].
Proof.
  destruct (dayLoop_ends (loopFuel startDate endDate)
              w startDate endDate (le_n _)) as [[dayParagraphs dayEvents] Hloop].
  unfold tryFetchTeachingContent, loginAndGetCookie, afterTheLoop.
  rewrite Hloop.
  run_cases; intros H; try discriminate H; injection H as <-;
    exists dayParagraphs, dayEvents; eexists; repeat split;
    unfold documentPath;
    match goal with
    | E : path_isAbsolute _ _ = _ |- _ => rewrite E
    end; reflexivity.
Qed.

End Days.

Section FixedDays.

Import JsDate JsDateFacts.

Variable tza : Z.

Lemma nextDay_shift t : nextDay tza t = t + msPerDay.
Proof. unfold nextDay. rewrite setDate_shift. lia. Qed.

End FixedDays.

(** C1.  A run in which no slot of the range returns an entry: the
    script logs no error and writes the file, with the title, the week
    label, the day heading and the empty line. *)
Theorem no_content_still_writes_the_file :
  let events :=
    fetchTeachingContent Samples.cet Samples.quietWorld
      (utcMidnight 2025 3 10) (utcMidnight 2025 3 10) in
  filter isWriteFile events
  = [WriteFile "/home/azubi/berichte/TeachingContentOverview.docx"
       [titleParagraph;
        weekParagraph Samples.cet (utcMidnight 2025 3 10);
        dayHeading Samples.cet (utcMidnight 2025 3 10);
        emptyLine]]
  /\ (forall text, ~ In (ConsoleError text) events).
Proof.
  split.
  - vm_compute. reflexivity.
  - intros text H. vm_compute in H.
    repeat (destruct H as [H|H]; [discriminate H|]). exact H.
Qed.

(** ** The validation of the dates *)

(** C2.  When both inputs are dates and the start is after the end,
    the prompt rejects with the validation error, and the run consists
    of the one error line: no request is sent, neither the login nor a
    slot lookup. *)
Theorem start_after_end_sends_nothing
    (zone : JsDate.Zone) (parseDate : string -> option Z) (w : World)
    (startDateInput endDateInput : string) (startDate endDate : Z) :
  parseDate startDateInput = Some startDate ->
  parseDate endDateInput = Some endDate ->
  startDate > endDate ->
  promptUserForTimeframe parseDate startDateInput endDateInput
  = inl (Error "Start date must be earlier than or equal to the end date.")
  /\ main zone parseDate w startDateInput endDateInput
     = [ConsoleError
          "Error: Start date must be earlier than or equal to the end date."]
  /\ filter isFetch (main zone parseDate w startDateInput endDateInput) = [].
Proof.
  intros Hs He Hgt.
  assert (Hprompt :
    promptUserForTimeframe parseDate startDateInput endDateInput
    = inl (Error "Start date must be earlier than or equal to the end date.")).
  { unfold promptUserForTimeframe. rewrite Hs, He.
    destruct (Z.gtb_spec startDate endDate) as [_|Hle]; [reflexivity|lia]. }
  unfold main. rewrite Hprompt. repeat split.
Qed.

Lemma start_after_end_sends_nothing_witness :
  Samples.parseSample "2025-03-14" = Some (utcMidnight 2025 3 14)
  /\ Samples.parseSample "2025-03-10" = Some (utcMidnight 2025 3 10)
  /\ utcMidnight 2025 3 14 > utcMidnight 2025 3 10
  /\ filter isFetch
       (main Samples.cet Samples.parseSample Samples.quietWorld
             "2025-03-14" "2025-03-10") = [].
Proof.
  split; [reflexivity|]. split; [reflexivity|]. split; [reflexivity|].
  apply (start_after_end_sends_nothing Samples.cet Samples.parseSample
           Samples.quietWorld "2025-03-14" "2025-03-10"
           (utcMidnight 2025 3 14) (utcMidnight 2025 3 10));
    reflexivity.
Defined.

(** ** Sets and objects *)

Module JsSetFacts.

Import JsSet.

Lemma has_In s x : has s x = true <-> In x s.
Proof.
  unfold has. rewrite existsb_exists. split.
  - intros [y [Hy Heq]]. apply String.eqb_eq in Heq. subst. exact Hy.
  - intros H. exists x. split; [exact H|apply String.eqb_refl].
Qed.

Lemma has_false s x : has s x = false <-> ~ In x s.
Proof.
  rewrite <- has_In. destruct (has s x); split; congruence.
Qed.

Lemma In_add s x y : In y (add s x) <-> In y s \/ y = x.
Proof.
  unfold add. destruct (has s x) eqn:H.
  - apply has_In in H. split; [tauto|]. intros [Hy|Hy]; subst; assumption.
  - rewrite in_app_iff. simpl. split; intros [Hy|Hy]; auto.
    + destruct Hy as [Hy|[]]; auto.
Qed.

Lemma add_present s x : In x s -> add s x = s.
Proof. intros H. unfold add. apply has_In in H. rewrite H. reflexivity. Qed.

Lemma add_absent s x : ~ In x s -> add s x = s ++ [x].
Proof. intros H. unfold add. apply has_false in H. rewrite H. reflexivity. Qed.

Lemma add_twice s x : add (add s x) x = add s x.
Proof. apply add_present. apply In_add. right. reflexivity. Qed.

Lemma NoDup_add s x : NoDup s -> NoDup (add s x).
Proof.
  intros Hs. unfold add. destruct (has s x) eqn:H; [exact Hs|].
  apply has_false in H.
  apply NoDup_app; [exact Hs|constructor; [intros []|constructor]|].
  intros y Hy [Hx|[]]. subst. contradiction.
Qed.

Lemma count_add s x :
  NoDup s -> count_occ string_dec (add s x) x = 1%nat.
Proof.
  intros Hs. pose proof (NoDup_add s x Hs) as Hn.
  rewrite (NoDup_count_occ string_dec) in Hn. specialize (Hn x).
  assert (Hin : In x (add s x)) by (apply In_add; right; reflexivity).
  apply (count_occ_In string_dec) in Hin. lia.
Qed.

Lemma add_keeps_order s x : exists tail, add s x = s ++ tail.
Proof.
  unfold add. destruct (has s x).
  - exists []. rewrite app_nil_r. reflexivity.
  - exists [x]. reflexivity.
Qed.

End JsSetFacts.

Module JsObjectFacts.

Import JsObject.

Lemma getOwn_In o k s : getOwn o k = Some s -> In (k, s) o.
Proof.
  induction o as [|[k' s'] o IH]; simpl; [discriminate|].
  destruct (String.eqb_spec k k') as [->|Hne].
  - intros [= ->]. left. reflexivity.
  - intros H. right. apply IH. exact H.
Qed.

Lemma getOwn_None o k : getOwn o k = None <-> ~ In k (map fst o).
Proof.
  induction o as [|[k' s'] o IH]; simpl.
  - tauto.
  - destruct (String.eqb_spec k k') as [->|Hne].
    + split; [discriminate|]. intros H. exfalso. apply H. left. reflexivity.
    + rewrite IH. split; [intros H [Heq|Hin]|intros H Hin].
      * congruence.
      * contradiction.
      * apply H. right. exact Hin.
Qed.

Lemma keys_replace o k s : map fst (replace o k s) = map fst o.
Proof.
  induction o as [|[k' s'] o IH]; simpl; [reflexivity|].
  destruct (String.eqb k k'); simpl; [reflexivity|]. rewrite IH. reflexivity.
Qed.

Ltac string_cases :=
  repeat match goal with
         | H : String.eqb _ _ = true |- _ => apply String.eqb_eq in H
         | H : String.eqb _ _ = false |- _ => apply String.eqb_neq in H
         end;
  subst; try congruence; try reflexivity.

Lemma getOwn_replace o k s k' :
  getOwn (replace o k s) k'
  = if String.eqb k' k
    then match getOwn o k with
         | Some _ => Some s
         | None => None
         end
    else getOwn o k'.
Proof.
  induction o as [|[k0 s0] o IH]; simpl.
  - destruct (String.eqb k' k); reflexivity.
  - destruct (String.eqb k k0) eqn:E1; simpl.
    + destruct (String.eqb k' k0) eqn:E2; destruct (String.eqb k' k) eqn:E3;
        string_cases.
    + rewrite IH.
      destruct (String.eqb k' k0) eqn:E2; destruct (String.eqb k' k) eqn:E3;
        string_cases.
Qed.

Lemma getOwn_app o k s k' :
  getOwn o k = None ->
  getOwn (o ++ [(k, s)]) k' = if String.eqb k' k then Some s else getOwn o k'.
Proof.
  induction o as [|[k0 s0] o IH]; simpl; intros H.
  - reflexivity.
  - destruct (String.eqb k k0) eqn:E1; [discriminate|].
    rewrite (IH H).
    destruct (String.eqb k' k0) eqn:E2; destruct (String.eqb k' k) eqn:E3;
      string_cases.
Qed.

Lemma inherited_proto k : inherited k = false -> String.eqb k "__proto__" = false.
Proof.
  unfold inherited, prototypeKeys. simpl.
  intros H. repeat (apply orb_false_iff in H; destruct H as [? H]).
  assumption.
Qed.

End JsObjectFacts.

(** ** The block "Group by subject" *)

Section Grouping.

Import JsObject JsObjectFacts JsSetFacts.

Lemma groupBySubject_own ds subject text s :
  getOwn ds subject = Some s ->
  groupBySubject ds subject text
  = (replace ds subject (JsSet.add s text), None).
Proof.
  intros H. unfold groupBySubject.
  assert (Hget : get ds subject = SetValue s)
    by (unfold get; rewrite H; reflexivity).
  rewrite Hget. simpl. rewrite Hget. unfold set. rewrite H. reflexivity.
Qed.

Lemma replace_app_new ds subject s0 s :
  getOwn ds subject = None ->
  replace (ds ++ [(subject, s0)]) subject s = ds ++ [(subject, s)].
Proof.
  induction ds as [|[k s'] ds IH]; simpl; intros H.
  - rewrite String.eqb_refl. reflexivity.
  - destruct (String.eqb subject k); [discriminate|].
    rewrite (IH H). reflexivity.
Qed.

Lemma groupBySubject_new ds subject text :
  getOwn ds subject = None ->
  inherited subject = false ->
  groupBySubject ds subject text = (ds ++ [(subject, [text])], None).
Proof.
  intros H Hi. unfold groupBySubject.
  assert (Hget : get ds subject = Undefined)
    by (unfold get; rewrite H, Hi; reflexivity).
  rewrite Hget. simpl falsy. cbv iota.
  assert (Hset : set ds subject JsSet.empty = ds ++ [(subject, [])])
    by (unfold set; rewrite H, (inherited_proto _ Hi); reflexivity).
  rewrite Hset.
  assert (Hown : getOwn (ds ++ [(subject, [])]) subject = Some [])
    by (rewrite (getOwn_app _ _ _ _ H), String.eqb_refl; reflexivity).
  unfold get, set. rewrite Hown.
  rewrite replace_app_new by exact H. reflexivity.
Qed.

Lemma groupBySubject_inherited ds subject text :
  getOwn ds subject = None ->
  inherited subject = true ->
  groupBySubject ds subject text = (ds, Some addNotAFunction).
Proof.
  intros H Hi. unfold groupBySubject.
  assert (Hget : get ds subject = Builtin)
    by (unfold get; rewrite H, Hi; reflexivity).
  rewrite Hget. simpl. rewrite Hget. reflexivity.
Qed.

(** The block throws only for a name of the prototype. *)
Lemma groupBySubject_throws ds subject text ds' ex :
  groupBySubject ds subject text = (ds', Some ex) ->
  inherited subject = true /\ ds' = ds /\ ex = addNotAFunction.
Proof.
  destruct (getOwn ds subject) as [s|] eqn:H.
  - rewrite (groupBySubject_own _ _ _ _ H). discriminate.
  - destruct (inherited subject) eqn:Hi.
    + rewrite (groupBySubject_inherited _ _ _ H Hi). intros [= <- <-]. auto.
    + rewrite (groupBySubject_new _ _ _ H Hi). discriminate.
Qed.

(** What the block does for a subject that is not a name of the
    prototype: the line joins the subject's set, nothing else changes. *)
Lemma groupBySubject_adds ds subject text :
  inherited subject = false ->
  snd (groupBySubject ds subject text) = None
  /\ linesOfSubject (fst (groupBySubject ds subject text)) subject
     = JsSet.add (linesOfSubject ds subject) text
  /\ (forall other, other <> subject ->
        getOwn (fst (groupBySubject ds subject text)) other = getOwn ds other).
Proof.
  intros Hi. unfold linesOfSubject.
  destruct (getOwn ds subject) as [s|] eqn:H.
  - rewrite (groupBySubject_own _ _ _ _ H). simpl.
    rewrite getOwn_replace, String.eqb_refl, H. repeat split.
    intros other Hne. rewrite getOwn_replace.
    apply String.eqb_neq in Hne. rewrite Hne. reflexivity.
  - rewrite (groupBySubject_new _ _ _ H Hi). simpl.
    rewrite (getOwn_app _ _ _ _ H), String.eqb_refl. repeat split.
    intros other Hne. rewrite (getOwn_app _ _ _ _ H).
    apply String.eqb_neq in Hne. rewrite Hne. reflexivity.
Qed.

(** The keys after the block: a new subject comes last. *)
Lemma groupBySubject_keys ds subject text :
  map fst (fst (groupBySubject ds subject text))
  = if JsSet.has (map fst ds) subject || inherited subject
    then map fst ds
    else map fst ds ++ [subject].
Proof.
  destruct (getOwn ds subject) as [s|] eqn:H.
  - rewrite (groupBySubject_own _ _ _ _ H). simpl. rewrite keys_replace.
    apply getOwn_In in H. apply (in_map fst) in H. simpl in H.
    apply has_In in H. rewrite H. reflexivity.
  - assert (Hhas : JsSet.has (map fst ds) subject = false)
      by (apply has_false, getOwn_None, H).
    rewrite Hhas. simpl. destruct (inherited subject) eqn:Hi.
    + rewrite (groupBySubject_inherited _ _ _ H Hi). reflexivity.
    + rewrite (groupBySubject_new _ _ _ H Hi). simpl.
      rewrite map_app. reflexivity.
Qed.

Lemma Forall_replace (P : string * JsSet.t -> Prop) ds k s :
  Forall P ds -> P (k, s) -> Forall P (replace ds k s).
Proof.
  intros H Hp. induction H as [|[k' s'] ds Hx Hds IH]; simpl.
  - constructor.
  - destruct (String.eqb k k') eqn:E.
    + apply String.eqb_eq in E. subst. constructor; assumption.
    + constructor; assumption.
Qed.

Lemma groupBySubject_WellFormed ds subject text :
  WellFormed ds -> WellFormed (fst (groupBySubject ds subject text)).
Proof.
  intros [Hk [Hs Hp]]. split; [|split].
  - rewrite groupBySubject_keys.
    destruct (JsSet.has (map fst ds) subject) eqn:Hhas; simpl; [exact Hk|].
    destruct (inherited subject); [exact Hk|].
    apply has_false in Hhas.
    apply NoDup_app; [exact Hk|constructor; [intros []|constructor]|].
    intros y Hy [Hx|[]]. subst. contradiction.
  - destruct (getOwn ds subject) as [s|] eqn:H.
    + rewrite (groupBySubject_own _ _ _ _ H). simpl.
      apply Forall_replace; [exact Hs|]. simpl.
      apply NoDup_add. apply getOwn_In in H.
      rewrite Forall_forall in Hs. apply (Hs _ H).
    + destruct (inherited subject) eqn:Hi.
      * rewrite (groupBySubject_inherited _ _ _ H Hi). exact Hs.
      * rewrite (groupBySubject_new _ _ _ H Hi). simpl.
        apply Forall_app. split; [exact Hs|].
        constructor; [|constructor]. simpl.
        constructor; [intros []|constructor].
  - destruct (getOwn ds subject) as [s|] eqn:H.
    + rewrite (groupBySubject_own _ _ _ _ H). simpl.
      apply Forall_replace; [exact Hp|]. simpl.
      apply getOwn_In in H. rewrite Forall_forall in Hp. apply (Hp _ H).
    + destruct (inherited subject) eqn:Hi.
      * rewrite (groupBySubject_inherited _ _ _ H Hi). exact Hp.
      * rewrite (groupBySubject_new _ _ _ H Hi). simpl.
        apply Forall_app. split; [exact Hp|].
        constructor; [exact Hi|constructor].
Qed.

Lemma WellFormed_empty : WellFormed JsObject.empty.
Proof. repeat split; constructor. Qed.

End Grouping.

(** ** Clock times *)

Section Clock.

Import JsDate JsString.

Variable tza : Z.

Lemma padStart2_twoDigits n :
  0 <= n <= 59 -> padStart2 (ofZ n) = twoDigits n.
Proof.
  intros H. rewrite <- (Z2Nat.id n) by lia.
  assert (Hk : (Z.to_nat n < 60)%nat) by lia.
  generalize dependent (Z.to_nat n). clear H. intros k Hk.
  do 60 (destruct k as [|k]; [vm_compute; reflexivity|]).
  lia.
Qed.

Lemma clock_of_MakeTime day h m s :
  0 <= m <= 59 -> 0 <= s <= 59 ->
  getHours tza (UTC tza (MakeDate day (MakeTime h m s 0))) = h mod 24
  /\ getMinutes tza (UTC tza (MakeDate day (MakeTime h m s 0))) = m.
Proof.
  intros Hm Hs.
  unfold getHours, getMinutes, HourFromTime, MinFromTime, LocalTime, UTC,
    MakeDate, MakeTime, msPerDay, msPerHour, msPerMinute, msPerSecond,
    offsetAt, offsetOfLocal;
    cbn [standardOffset summerTime fixedOffset].
  split; Z.to_euclidean_division_equations; lia.
Qed.

(** In a zone of constant offset a local date-time is printed by its
    own hour and minute. *)
Lemma toLocaleTimeString_clock d :
  toLocaleTimeString tza (newDateLocal tza d) = shownTime d.
Proof.
  unfold newDateLocal, shownTime.
  destruct (validDateTime d) eqn:Hv; [|reflexivity].
  unfold validDateTime in Hv.
  repeat (apply andb_true_iff in Hv; destruct Hv as [Hv ?]).
  repeat match goal with
         | H : (_ <=? _) = true |- _ => apply Z.leb_le in H
         end.
  destruct (clock_of_MakeTime
              (MakeDay (dt_year d) (dt_month d - 1) (dt_day d))
              (dt_hour d) (dt_minute d) (dt_second d)) as [Hhour Hmin];
    try lia.
  unfold toLocaleTimeString, clock. rewrite Hhour, Hmin.
  pose proof (Z.mod_pos_bound (dt_hour d) 24).
  rewrite !padStart2_twoDigits by lia. reflexivity.
Qed.

End Clock.

(** ** The entries *)

(** [includes] is the search for a substring. *)
Lemma prefix_spec needle hay :
  String.prefix needle hay = true
  <-> exists after, hay = (needle ++ after)%string.
Proof.
  revert hay. induction needle as [|c needle IH]; intros hay; simpl.
  - split; [intros _; exists hay; reflexivity|].
    intros _. destruct hay; reflexivity.
  - destruct hay as [|c' hay].
    + split; [discriminate|intros [after H]; discriminate].
    + simpl. destruct (ascii_dec c c') as [->|Hne].
      * rewrite IH. split; intros [after H]; exists after.
        -- rewrite H. reflexivity.
        -- injection H as H. exact H.
      * split; [discriminate|].
        intros [after H]. injection H as Hc _. congruence.
Qed.

Lemma includes_spec needle hay :
  JsString.includes needle hay = true
  <-> exists before after, hay = (before ++ needle ++ after)%string.
Proof.
  induction hay as [|c hay IH]; cbn [JsString.includes].
  - rewrite orb_false_r, prefix_spec. split.
    + intros [after H]. exists EmptyString, after. exact H.
    + intros [before [after H]]. destruct before; [|discriminate].
      exists after. exact H.
  - rewrite orb_true_iff, prefix_spec, IH. split.
    + intros [[after H]|[before [after H]]].
      * exists EmptyString, after. exact H.
      * exists (String c before), after. rewrite H. reflexivity.
    + intros [before [after H]]. destruct before as [|c' before].
      * left. exists after. exact H.
      * right. exists before, after. injection H as _ H. exact H.
Qed.

Lemma bullets_of_renderSubjects o p :
  In p (renderSubjects o) -> isBullet p = true ->
  exists content, p = bulletLine content.
Proof.
  unfold renderSubjects. rewrite in_flat_map.
  intros [[k s] [_ Hp]] Hb. simpl in Hp. destruct Hp as [<-|Hp].
  - discriminate Hb.
  - apply in_map_iff in Hp. destruct Hp as [content [<- _]].
    exists content. reflexivity.
Qed.

(** C10.  An entry without a subject, or with a subject without a long
    name, or with the empty long name, is skipped: the object of the
    day stays as it is and nothing is thrown, whatever the status and
    the teaching content of the entry; the entries after it are
    processed as if it were not there. *)
Theorem entry_without_subject_is_skipped
    (zone : JsDate.Zone) (daySubjects : JsObject.t) (entry : Entry) (rest : list Entry) :
  subject entry = None
  \/ (exists s, subject entry = Some s
                /\ (longName s = None \/ longName s = Some EmptyString)) ->
  processEntry zone daySubjects entry = (daySubjects, None)
  /\ processEntries zone daySubjects (entry :: rest)
     = processEntries zone daySubjects rest
  /\ renderSubjects (fst (processEntry zone daySubjects entry))
     = renderSubjects daySubjects.
Proof.
  intros H.
  assert (Hname : subjectLongName entry = None).
  { unfold subjectLongName.
    destruct H as [-> | [s [-> [-> | ->]]]]; reflexivity. }
  assert (Hstep : processEntry zone daySubjects entry = (daySubjects, None))
    by (unfold processEntry; rewrite Hname; reflexivity).
  split; [exact Hstep|]. split.
  - simpl. rewrite Hstep. reflexivity.
  - rewrite Hstep. reflexivity.
Qed.

Lemma entry_without_subject_is_skipped_witness :
  processEntry Samples.cet JsObject.empty Samples.nameless
  = (JsObject.empty, None).
Proof.
  apply (entry_without_subject_is_skipped Samples.cet JsObject.empty
           Samples.nameless []).
  right. exists {| longName := None |}. split; [reflexivity|].
  left. reflexivity.
Defined.

(** ** The lessons of a day *)

Section Lessons.

Variable zone : JsDate.Zone.

Lemma processDay_paragraphs w currentDate :
  fst (processDay zone w currentDate)
  = dayHeading zone currentDate
    :: renderSubjects
         (fst (processLessons zone w JsObject.empty
                 (lessonsOfDay zone currentDate)))
       ++ [emptyLine].
Proof.
  unfold processDay. destruct (processLessons _ _ _ _). reflexivity.
Qed.

Lemma processDay_events w currentDate :
  snd (processDay zone w currentDate)
  = snd (processLessons zone w JsObject.empty (lessonsOfDay zone currentDate)).
Proof.
  unfold processDay. destruct (processLessons _ _ _ _). reflexivity.
Qed.

Lemma processLessons_cons w ds lesson rest :
  processLessons zone w ds (lesson :: rest)
  = (fst (processLessons zone w (fst (processLesson zone w ds lesson)) rest),
     snd (processLesson zone w ds lesson)
     ++ snd (processLessons zone w (fst (processLesson zone w ds lesson)) rest)).
Proof.
  simpl. destruct (processLesson zone w ds lesson) as [ds' events].
  simpl. destruct (processLessons zone w ds' rest). reflexivity.
Qed.

Lemma processLesson_noEntries w ds lesson :
  noEntries (detail w lesson) = true ->
  processLesson zone w ds lesson = (ds, [Fetch (DetailRequest lesson)]).
Proof.
  unfold noEntries, processLesson, tryLesson.
  destruct (detail w lesson) as [m|r]; [discriminate|].
  destruct (detail_ok r); [|discriminate]. simpl.
  destruct (detail_body r) as [m| |[[|e l]|]]; try discriminate; reflexivity.
Qed.

Lemma processLesson_lookupFails w ds lesson :
  lookupFails (detail w lesson) = true ->
  exists msg,
    processLesson zone w ds lesson
    = (ds, [Fetch (DetailRequest lesson);
            ConsoleError ("Error fetching teaching content for lesson: "
                          ++ msg)%string]).
Proof.
  unfold lookupFails, processLesson, tryLesson.
  destruct (detail w lesson) as [m|r].
  - intros _. eexists. reflexivity.
  - destruct (detail_ok r); simpl.
    + destruct (detail_body r) as [m| |found]; try discriminate;
        intros _; eexists; reflexivity.
    + intros _. eexists. reflexivity.
Qed.

(** Whatever the answer, a lesson is requested once, and the only other
    event is the line of the [catch]. *)
Lemma processLesson_events w ds lesson :
  snd (processLesson zone w ds lesson) = [Fetch (DetailRequest lesson)]
  \/ exists ex,
       snd (tryLesson zone ds (detail w lesson)) = Some ex
       /\ snd (processLesson zone w ds lesson)
          = [Fetch (DetailRequest lesson);
             ConsoleError ("Error fetching teaching content for lesson: "
                           ++ message_of ex)%string].
Proof.
  unfold processLesson.
  destruct (tryLesson zone ds (detail w lesson)) as [ds' [ex|]].
  - right. exists ex. split; reflexivity.
  - left. reflexivity.
Qed.

Lemma detailRequests_app a b :
  detailRequests (a ++ b) = detailRequests a ++ detailRequests b.
Proof.
  induction a as [|e a IH]; simpl; [reflexivity|].
  destruct e as [[| |lesson]| |]; simpl; rewrite IH; reflexivity.
Qed.

Lemma detailRequests_processLesson w ds lesson :
  detailRequests (snd (processLesson zone w ds lesson)) = [lesson].
Proof.
  destruct (processLesson_events w ds lesson) as [->|[ex [_ ->]]];
    reflexivity.
Qed.

Lemma detailRequests_processLessons w ds lessons :
  detailRequests (snd (processLessons zone w ds lessons)) = lessons.
Proof.
  revert ds. induction lessons as [|lesson rest IH]; intros ds.
  - reflexivity.
  - rewrite processLessons_cons. simpl snd.
    rewrite detailRequests_app, detailRequests_processLesson, IH.
    reflexivity.
Qed.

Lemma processLessons_noEntries w ds lessons :
  (forall lesson, In lesson lessons -> noEntries (detail w lesson) = true) ->
  processLessons zone w ds lessons
  = (ds, map (fun lesson => Fetch (DetailRequest lesson)) lessons).
Proof.
  induction lessons as [|lesson rest IH]; intros H.
  - reflexivity.
  - rewrite processLessons_cons.
    rewrite processLesson_noEntries by (apply H; left; reflexivity).
    simpl fst. simpl snd. rewrite IH by (intros l Hl; apply H; right; exact Hl).
    reflexivity.
Qed.

End Lessons.

(** The heading of a day names the local date of the day. *)
Lemma dayHeading_of_day (zone : JsDate.Zone) (currentDate : Z) :
  dayHeading zone currentDate = headingOfDay (localDay zone currentDate).
Proof. reflexivity. Qed.



(** ** The days of a range, in a zone of constant offset *)

Section FixedLoop.

Import JsDate JsDateFacts.

Variable tza : Z.

Lemma numberOfDays_step currentDate endDate :
  currentDate <= endDate ->
  numberOfDays currentDate endDate
  = S (numberOfDays (currentDate + msPerDay) endDate).
Proof.
  intros Hle. unfold numberOfDays, msPerDay.
  destruct (Z.leb_spec currentDate endDate) as [_|Hgt]; [|lia].
  assert (0 <= (endDate - currentDate) / 86400000)
    by (apply Z.div_pos; lia).
  destruct (Z.leb_spec (currentDate + 86400000) endDate) as [Hle'|Hgt'].
  - replace ((endDate - (currentDate + 86400000)) / 86400000)
      with ((endDate - currentDate) / 86400000 - 1)
      by (Z.to_euclidean_division_equations; lia).
    assert (1 <= (endDate - currentDate) / 86400000)
      by (Z.to_euclidean_division_equations; lia).
    lia.
  - assert ((endDate - currentDate) / 86400000 = 0)
      by (Z.to_euclidean_division_equations; lia).
    lia.
Qed.

(** The loop, day by day: its paragraphs and events are those of the
    days from the start date to the end date, in order. *)
Lemma dayLoop_days fuel w currentDate endDate :
  (numberOfDays currentDate endDate <= fuel)%nat ->
  dayLoop tza fuel w currentDate endDate
  = Some (flat_map (fun day => fst (processDay tza w day))
            (daysFrom (numberOfDays currentDate endDate) currentDate),
          flat_map (fun day => snd (processDay tza w day))
            (daysFrom (numberOfDays currentDate endDate) currentDate)).
Proof.
  revert currentDate.
  induction fuel as [|fuel IH]; intros currentDate Hfuel;
    rewrite dayLoop_unfold;
    destruct (Z.leb_spec currentDate endDate) as [Hle|Hgt].
  - rewrite (numberOfDays_step _ _ Hle) in Hfuel. lia.
  - unfold numberOfDays.
    destruct (Z.leb_spec currentDate endDate); [lia|reflexivity].
  - rewrite (numberOfDays_step _ _ Hle) in Hfuel.
    rewrite (numberOfDays_step _ _ Hle).
    rewrite nextDay_shift. rewrite IH by lia.
    cbn [daysFrom flat_map].
    destruct (processDay tza w currentDate) as [paragraphs events].
    reflexivity.
  - unfold numberOfDays.
    destruct (Z.leb_spec currentDate endDate); [lia|reflexivity].
Qed.

End FixedLoop.

(** ** Entries as insertions *)

Section Insertions.

Import JsObject JsObjectFacts JsSetFacts.

Variable zone : JsDate.Zone.

Lemma processEntry_as_group ds entry :
  processEntry zone ds entry
  = match subjectOf entry with
    | Some s => groupBySubject ds s (lineOf zone entry)
    | None => (ds, None)
    end.
Proof.
  unfold processEntry, subjectOf, lineOf.
  destruct (subjectLongName entry) as [name|]; [|reflexivity].
  destruct (String.eqb (status entry) "CANCELLED"); reflexivity.
Qed.

Lemma processEntries_groupAll ds entries :
  processEntries zone ds entries = groupAll ds (linesOfEntries zone entries).
Proof.
  revert ds. induction entries as [|entry rest IH]; intros ds.
  - reflexivity.
  - simpl processEntries. rewrite processEntry_as_group.
    unfold linesOfEntries. simpl flat_map. fold (linesOfEntries zone rest).
    destruct (subjectOf entry) as [s|]; simpl.
    + destruct (groupBySubject ds s (lineOf zone entry)) as [ds' [ex|]];
        [reflexivity|apply IH].
    + apply IH.
Qed.

Lemma In_insertIndexed x n p l :
  In x (insertIndexed n p l) <-> x = (n, p) \/ In x l.
Proof.
  induction l as [|[m q] l IH]; simpl.
  - split; [intros [H|[]]; left; congruence|intros [H|[]]; left; congruence].
  - destruct (n <? m); simpl.
    + split; [intros [H|H]; [left; congruence|right; exact H]
             |intros [H|H]; [left; congruence|right; exact H]].
    + rewrite IH. split.
      * intros [H|[H|H]]; auto.
      * intros [H|[H|H]]; auto.
Qed.

Lemma In_indexProperties n k s o :
  In (n, (k, s)) (indexProperties o)
  <-> In (k, s) o /\ JsString.arrayIndex k = Some n.
Proof.
  induction o as [|[k' s'] o IH]; simpl.
  - tauto.
  - destruct (JsString.arrayIndex k') as [m|] eqn:E.
    + rewrite In_insertIndexed, IH. split.
      * intros [H|[H1 H2]].
        -- injection H as -> -> ->. split; [left; reflexivity|exact E].
        -- split; [right; exact H1|exact H2].
      * intros [[H|H] H2].
        -- injection H as -> ->. left. congruence.
        -- right. split; assumption.
    + rewrite IH. split.
      * intros [H1 H2]. split; [right; exact H1|exact H2].
      * intros [[H|H] H2].
        -- injection H as -> ->. congruence.
        -- split; assumption.
Qed.

(** [Object.entries] lists the own properties, each once. *)
Lemma In_entries p o : In p (entries o) <-> In p o.
Proof.
  unfold entries. rewrite in_app_iff, in_map_iff, filter_In.
  destruct p as [k s]. unfold isIndexKey. simpl. split.
  - intros [[[n [k' s']] [Heq H]]|[H _]]; [|exact H].
    simpl in Heq. injection Heq as -> ->.
    apply In_indexProperties in H. apply H.
  - intros H. destruct (JsString.arrayIndex k) as [n|] eqn:E.
    + left. exists (n, (k, s)). split; [reflexivity|].
      apply In_indexProperties. split; assumption.
    + right. split; [exact H|reflexivity].
Qed.

Lemma bulletsWith_lines (s : list string) text :
  List.length (bulletsWith text (map bulletLine s))
  = count_occ string_dec s text.
Proof.
  induction s as [|x s IH]; [reflexivity|].
  unfold bulletsWith in *. cbn [map filter].
  change (isBullet (bulletLine x)) with true.
  change (firstText (bulletLine x)) with x.
  cbn [andb count_occ].
  destruct (string_dec x text) as [->|Hne].
  - rewrite String.eqb_refl. cbn [List.length]. rewrite IH. reflexivity.
  - apply String.eqb_neq in Hne. rewrite Hne. exact IH.
Qed.

Lemma bulletsWith_block subject s text :
  List.length (bulletsWith text (renderSubject (subject, s)))
  = count_occ string_dec s text.
Proof.
  rewrite <- bulletsWith_lines. reflexivity.
Qed.

End Insertions.

(** ** One line, inserted more than once *)

Section Collapse.

Import JsObject JsObjectFacts JsSetFacts.

Lemma replace_replace o k s1 s2 :
  replace (replace o k s1) k s2 = replace o k s2.
Proof.
  induction o as [|[k' s'] o IH]; simpl; [reflexivity|].
  destruct (String.eqb k k') eqn:E; simpl; rewrite E; [reflexivity|].
  rewrite IH. reflexivity.
Qed.

Lemma groupBySubject_twice ds subject text :
  inherited subject = false ->
  groupBySubject (fst (groupBySubject ds subject text)) subject text
  = (fst (groupBySubject ds subject text), None).
Proof.
  intros Hi. destruct (getOwn ds subject) as [s|] eqn:H.
  - rewrite (groupBySubject_own _ _ _ _ H). simpl fst.
    assert (H' : getOwn (replace ds subject (JsSet.add s text)) subject
                 = Some (JsSet.add s text))
      by (rewrite getOwn_replace, String.eqb_refl, H; reflexivity).
    rewrite (groupBySubject_own _ _ _ _ H').
    rewrite replace_replace, add_twice. reflexivity.
  - rewrite (groupBySubject_new _ _ _ H Hi). simpl fst.
    assert (H' : getOwn (ds ++ [(subject, [text])]) subject = Some [text])
      by (rewrite (getOwn_app _ _ _ _ H), String.eqb_refl; reflexivity).
    rewrite (groupBySubject_own _ _ _ _ H').
    rewrite (replace_app_new _ _ _ _ H).
    rewrite add_present by (left; reflexivity). reflexivity.
Qed.

Lemma groupAll_repeat ds subject text n :
  inherited subject = false ->
  groupAll ds (repeat (subject, text) (S n))
  = (fst (groupBySubject ds subject text), None).
Proof.
  intros Hi. revert ds. induction n as [|n IH]; intros ds.
  - simpl. destruct (groupBySubject_adds ds subject text Hi) as [Hok _].
    destruct (groupBySubject ds subject text) as [ds' r]. simpl in Hok.
    subst r. reflexivity.
  - change (repeat (subject, text) (S (S n)))
      with ((subject, text) :: repeat (subject, text) (S n)).
    cbn [groupAll].
    destruct (groupBySubject_adds ds subject text Hi) as [Hok _].
    destruct (groupBySubject ds subject text) as [ds' r] eqn:Hfirst.
    simpl in Hok. subst r. rewrite IH.
    replace ds' with (fst (groupBySubject ds subject text))
      by (rewrite Hfirst; reflexivity).
    rewrite groupBySubject_twice by exact Hi. reflexivity.
Qed.

Lemma linesOfEntries_same zone entries subject text :
  Forall (fun e => subjectOf e = Some subject /\ lineOf zone e = text) entries ->
  linesOfEntries zone entries
  = repeat (subject, text) (List.length entries).
Proof.
  induction 1 as [|e entries [Hs Hl] _ IH]; [reflexivity|].
  unfold linesOfEntries in *. simpl. rewrite Hs, Hl, IH. reflexivity.
Qed.

Lemma WellFormed_lines ds subject :
  WellFormed ds -> NoDup (linesOfSubject ds subject).
Proof.
  intros [_ [Hs _]]. unfold linesOfSubject.
  destruct (getOwn ds subject) as [s|] eqn:H; [|constructor].
  apply getOwn_In in H. rewrite Forall_forall in Hs. apply (Hs _ H).
Qed.

Lemma WellFormed_one_set ds k s s' :
  WellFormed ds -> In (k, s) ds -> In (k, s') ds -> s = s'.
Proof.
  intros [Hk _]. induction ds as [|[k0 s0] ds IH]; simpl; [intros []|].
  inversion Hk as [|? ? Hnot Hrest]; subst.
  intros [H1|H1] [H2|H2].
  - congruence.
  - injection H1 as -> ->. exfalso. apply Hnot.
    apply (in_map fst) in H2. exact H2.
  - injection H2 as -> ->. exfalso. apply Hnot.
    apply (in_map fst) in H1. exact H1.
  - apply IH; assumption.
Qed.

Lemma count_one_of_NoDup (s : list string) x :
  NoDup s -> In x s -> count_occ string_dec s x = 1%nat.
Proof.
  intros Hn Hin. rewrite (NoDup_count_occ string_dec) in Hn.
  specialize (Hn x). apply (count_occ_In string_dec) in Hin. lia.
Qed.

Lemma groupAll_WellFormed lines :
  forall ds, WellFormed ds -> WellFormed (fst (groupAll ds lines)).
Proof.
  induction lines as [|[s t] lines IH]; intros ds Hwf; simpl; [exact Hwf|].
  pose proof (groupBySubject_WellFormed ds s t Hwf) as Hwf1.
  destruct (groupBySubject ds s t) as [ds1 [ex|]]; [exact Hwf1|].
  apply IH. exact Hwf1.
Qed.

End Collapse.

(** X24.  No block of a day shows a text twice: every set of the
    object is free of repetitions, whatever entries are processed.
    For a subject that is not named like a member of
    [Object.prototype], any number of entries (at least one) that stand
    for the same line under that subject leave the line once in the
    subject's set: the set is the old set with the line added, the
    line is counted once in it, and the one block of the subject in
    the rendering has one bullet with that text.  A line with another
    text is a second element: texts are merged only when they are
    equal strings. *)
Theorem identical_lines_collapse
    (zone : JsDate.Zone) (daySubjects : JsObject.t) (entries : list Entry)
    (subject text : string) :
  WellFormed daySubjects ->
  entries <> [] ->
  Forall (fun e => subjectOf e = Some subject /\ lineOf zone e = text)
         entries ->
  let after := fst (processEntries zone daySubjects entries) in
  (forall k s, In (k, s) (JsObject.entries after) -> NoDup (JsSet.values s))
  /\ (JsObject.inherited subject = false ->
      snd (processEntries zone daySubjects entries) = None
      /\ linesOfSubject after subject
         = JsSet.add (linesOfSubject daySubjects subject) text
      /\ count_occ string_dec (linesOfSubject after subject) text = 1%nat
      /\ (exists s,
            In (subject, s) (JsObject.entries after)
            /\ (forall s', In (subject, s') (JsObject.entries after) -> s' = s)
            /\ List.length (bulletsWith text (renderSubject (subject, s)))
               = 1%nat)
      /\ (forall text', text' <> text ->
            let both := fst (groupBySubject after subject text') in
            count_occ string_dec (linesOfSubject both subject) text = 1%nat
            /\ count_occ string_dec (linesOfSubject both subject) text'
               = 1%nat)).
Proof.
  intros Hwf Hne Hall after.
  assert (Hwf' : WellFormed after).
  { unfold after. rewrite processEntries_groupAll.
    apply groupAll_WellFormed, Hwf. }
  split.
  { intros k s Hin. apply (proj1 (In_entries _ _)) in Hin.
    destruct Hwf' as [_ [Hsets _]]. rewrite Forall_forall in Hsets.
    apply (Hsets _ Hin). }
  intros Hi.
  assert (Hrun : processEntries zone daySubjects entries
                 = (fst (groupBySubject daySubjects subject text), None)).
  { rewrite processEntries_groupAll, (linesOfEntries_same _ _ _ _ Hall).
    destruct entries as [|e rest]; [congruence|].
    apply groupAll_repeat. exact Hi. }
  assert (Hafter : after = fst (groupBySubject daySubjects subject text))
    by (unfold after; rewrite Hrun; reflexivity).
  destruct (groupBySubject_adds daySubjects subject text Hi)
    as [_ [Hlines _]].
  split; [rewrite Hrun; reflexivity|].
  split; [rewrite Hafter; exact Hlines|].
  assert (Hcount : count_occ string_dec (linesOfSubject after subject) text
                   = 1%nat).
  { rewrite Hafter, Hlines. apply JsSetFacts.count_add.
    apply WellFormed_lines, Hwf. }
  split; [exact Hcount|]. split.
  - assert (Hin : In text (linesOfSubject after subject))
      by (apply (count_occ_In string_dec); lia).
    unfold linesOfSubject in Hin, Hcount.
    destruct (JsObject.getOwn after subject) as [s|] eqn:Hown;
      [|destruct Hin].
    apply JsObjectFacts.getOwn_In in Hown.
    exists s. split; [apply (proj2 (In_entries _ _)), Hown|]. split.
    + intros s' Hs'. apply (proj1 (In_entries _ _)) in Hs'.
      apply (WellFormed_one_set after subject s' s Hwf' Hs' Hown).
    + rewrite bulletsWith_block. exact Hcount.
  - intros text' Hne' both.
    destruct (groupBySubject_adds after subject text' Hi)
      as [_ [Hboth _]].
    fold both in Hboth.
    assert (Hnd : NoDup (linesOfSubject both subject)).
    { apply WellFormed_lines. unfold both.
      apply groupBySubject_WellFormed, Hwf'. }
    split; apply count_one_of_NoDup; try exact Hnd; rewrite Hboth;
      apply JsSetFacts.In_add.
    + left. apply (count_occ_In string_dec). lia.
    + right. reflexivity.
Qed.

Lemma identical_lines_collapse_witness :
  linesOfSubject
    (fst (processEntries Samples.cet JsObject.empty
            [Samples.silent; Samples.silent; Samples.silent])) "Mathe"
  = ["Kein Lehrstoff durch die Lehrkraft angegeben! Bitte manuell eintragen!"].
Proof.
  destruct (identical_lines_collapse Samples.cet JsObject.empty
              [Samples.silent; Samples.silent; Samples.silent] "Mathe"
              "Kein Lehrstoff durch die Lehrkraft angegeben! Bitte manuell eintragen!"
              WellFormed_empty ltac:(discriminate)
              ltac:(repeat constructor))
    as [_ H].
  destruct (H eq_refl) as [_ [Hlines _]].
  exact Hlines.
Defined.

(** ** The order of subjects and lines *)

Section Order.

Import JsObject JsObjectFacts JsSetFacts.

Lemma filter_twice {A : Type} (f g : A -> bool) (l : list A) :
  filter f (filter g l) = filter (fun x => g x && f x) l.
Proof.
  induction l as [|x l IH]; simpl; [reflexivity|].
  destruct (g x); simpl; [destruct (f x)|]; rewrite IH; reflexivity.
Qed.

Lemma has_app acc x y :
  JsSet.has (acc ++ [x]) y = JsSet.has acc y || String.eqb y x.
Proof.
  unfold JsSet.has. rewrite existsb_app. simpl.
  rewrite orb_false_r. reflexivity.
Qed.

(** Adding the elements of a list to a set, one by one, appends the
    new ones at their first places. *)
Lemma fold_add_firstSeen l acc :
  fold_left JsSet.add l acc
  = acc ++ filter (fun y => negb (JsSet.has acc y)) (firstSeen l).
Proof.
  revert acc. induction l as [|x l IH]; intros acc; simpl.
  - rewrite app_nil_r. reflexivity.
  - rewrite IH. unfold JsSet.add at 1 2.
    destruct (JsSet.has acc x) eqn:Hx; simpl.
    + f_equal. rewrite filter_twice. apply filter_ext. intros y.
      destruct (String.eqb y x) eqn:E; simpl; [|reflexivity].
      apply String.eqb_eq in E. subst. rewrite Hx. reflexivity.
    + rewrite <- app_assoc. simpl. f_equal. f_equal.
      rewrite filter_twice. apply filter_ext. intros y.
      rewrite has_app. rewrite negb_orb. apply andb_comm.
Qed.

Lemma fold_add_empty l : fold_left JsSet.add l [] = firstSeen l.
Proof.
  rewrite fold_add_firstSeen. simpl.
  induction (firstSeen l) as [|x r IH]; simpl; [reflexivity|].
  rewrite IH. reflexivity.
Qed.

Lemma In_firstSeen l x : In x (firstSeen l) <-> In x l.
Proof.
  rewrite <- fold_add_empty.
  assert (H : forall acc, In x (fold_left JsSet.add l acc)
                          <-> In x acc \/ In x l).
  { induction l as [|y l IH]; intros acc; simpl; [tauto|].
    rewrite IH, In_add. split; intros H; intuition (subst; auto). }
  rewrite H. simpl. tauto.
Qed.

(** A successful insertion, seen from the keys and the lines. *)
Lemma groupBySubject_success ds s t ds1 :
  groupBySubject ds s t = (ds1, None) ->
  map fst ds1 = JsSet.add (map fst ds) s
  /\ (forall k, linesOfSubject ds1 k
                = if String.eqb k s
                  then JsSet.add (linesOfSubject ds k) t
                  else linesOfSubject ds k).
Proof.
  unfold linesOfSubject.
  destruct (getOwn ds s) as [old|] eqn:H.
  - rewrite (groupBySubject_own _ _ _ _ H). intros [= <-]. split.
    + rewrite keys_replace. symmetry. apply add_present.
      apply getOwn_In in H. apply (in_map fst) in H. exact H.
    + intros k. rewrite getOwn_replace.
      destruct (String.eqb k s) eqn:E; [|reflexivity].
      apply String.eqb_eq in E. subst. rewrite H. reflexivity.
  - destruct (inherited s) eqn:Hi.
    + rewrite (groupBySubject_inherited _ _ _ H Hi). discriminate.
    + rewrite (groupBySubject_new _ _ _ H Hi). intros [= <-]. split.
      * rewrite map_app. simpl. symmetry. apply add_absent.
        apply getOwn_None. exact H.
      * intros k. rewrite (getOwn_app _ _ _ _ H).
        destruct (String.eqb k s) eqn:E; [|reflexivity].
        apply String.eqb_eq in E. subst. rewrite H. reflexivity.
Qed.

Lemma linesOf_cons s t k lines :
  linesOf k ((s, t) :: lines)
  = if String.eqb s k then t :: linesOf k lines else linesOf k lines.
Proof.
  unfold linesOf. simpl. destruct (String.eqb s k); reflexivity.
Qed.

Lemma groupAll_success lines :
  forall ds ds',
    groupAll ds lines = (ds', None) ->
    map fst ds' = fold_left JsSet.add (map fst lines) (map fst ds)
    /\ (forall k, linesOfSubject ds' k
                  = fold_left JsSet.add (linesOf k lines)
                      (linesOfSubject ds k)).
Proof.
  induction lines as [|[s t] lines IH]; intros ds ds'; simpl.
  - intros [= <-]. split; reflexivity.
  - destruct (groupBySubject ds s t) as [ds1 [ex|]] eqn:Hstep; [discriminate|].
    intros Hrest. destruct (groupBySubject_success _ _ _ _ Hstep) as [Hk Hl].
    destruct (IH _ _ Hrest) as [Hk' Hl']. split.
    + rewrite Hk', Hk. reflexivity.
    + intros k. rewrite Hl', Hl, linesOf_cons.
      rewrite (String.eqb_sym s k).
      destruct (String.eqb k s); reflexivity.
Qed.

Lemma WellFormed_own_not_inherited ds s :
  WellFormed ds -> inherited s = true -> getOwn ds s = None.
Proof.
  intros [_ [_ Hp]] Hi. destruct (getOwn ds s) as [old|] eqn:H; [|reflexivity].
  apply getOwn_In in H. rewrite Forall_forall in Hp.
  specialize (Hp _ H). simpl in Hp. congruence.
Qed.

(** The insertions after a throwing one are not made, and the throwing
    one changes nothing. *)
Lemma groupAll_insertedLines lines :
  forall ds,
    WellFormed ds ->
    groupAll ds (insertedLines lines) = (fst (groupAll ds lines), None).
Proof.
  induction lines as [|[s t] lines IH]; intros ds Hwf; simpl; [reflexivity|].
  destruct (inherited s) eqn:Hi.
  - rewrite (groupBySubject_inherited _ _ _
               (WellFormed_own_not_inherited ds s Hwf Hi) Hi).
    reflexivity.
  - simpl. pose proof (groupBySubject_WellFormed ds s t Hwf) as Hwf1.
    destruct (groupBySubject_adds ds s t Hi) as [Hok _].
    destruct (groupBySubject ds s t) as [ds1 r]. simpl in Hok. subst r.
    apply IH. exact Hwf1.
Qed.

Lemma groupAll_app a b :
  forall ds ds1,
    groupAll ds a = (ds1, None) -> groupAll ds (a ++ b) = groupAll ds1 b.
Proof.
  induction a as [|[s t] a IH]; intros ds ds1; simpl.
  - intros [= <-]. reflexivity.
  - destruct (groupBySubject ds s t) as [ds' [ex|]]; [discriminate|].
    apply IH.
Qed.

End Order.

Section DayOrder.

Import JsObject JsObjectFacts JsSetFacts.

Variable zone : JsDate.Zone.

Lemma tryLesson_store ds answer :
  fst (tryLesson zone ds answer)
  = fst (groupAll ds (linesOfEntries zone (answeredEntries answer))).
Proof.
  unfold tryLesson, answeredEntries.
  destruct answer as [m|r]; [reflexivity|].
  destruct (detail_ok r); simpl; [|reflexivity].
  destruct (detail_body r) as [m| |[l|]]; try reflexivity.
  rewrite processEntries_groupAll. reflexivity.
Qed.

Lemma processLesson_store w ds lesson :
  fst (processLesson zone w ds lesson)
  = fst (tryLesson zone ds (detail w lesson)).
Proof.
  unfold processLesson.
  destruct (tryLesson zone ds (detail w lesson)) as [ds' [ex|]]; reflexivity.
Qed.

(** The object of a day is the result of the insertions of the day
    that take effect, in their order. *)
Lemma processLessons_store w lessons :
  forall ds,
    WellFormed ds ->
    groupAll ds (dayLines zone w lessons)
    = (fst (processLessons zone w ds lessons), None).
Proof.
  induction lessons as [|lesson rest IH]; intros ds Hwf; [reflexivity|].
  rewrite processLessons_cons. simpl fst.
  unfold dayLines. simpl flat_map. fold (dayLines zone w rest).
  rewrite processLesson_store, tryLesson_store.
  rewrite (groupAll_app _ _ _ _ (groupAll_insertedLines _ ds Hwf)).
  apply IH. apply groupAll_WellFormed. exact Hwf.
Qed.

Lemma keys_entries o :
  map fst (entries o)
  = map (fun x => fst (snd x)) (indexProperties o)
    ++ filter plainName (map fst o).
Proof.
  unfold entries. rewrite map_app, map_map. f_equal.
  induction o as [|[k s] o IH]; simpl; [reflexivity|].
  unfold isIndexKey, plainName in *. simpl.
  destruct (JsString.arrayIndex k); simpl; rewrite IH; reflexivity.
Qed.

Lemma arrayIndex_name k n : JsString.arrayIndex k = Some n -> JsString.ofZ n = k.
Proof.
  unfold JsString.arrayIndex. destruct k as [|c k]; [discriminate|].
  destruct (JsString.digitsValue 0 (String c k)) as [m|]; [|discriminate].
  destruct (String.eqb (JsString.ofZ m) (String c k)) eqn:E;
    [|discriminate].
  destruct (m <=? 4294967294); [|discriminate].
  intros [= <-]. apply String.eqb_eq. exact E.
Qed.

Lemma insertIndexed_sorted n p l :
  ~ In n (map fst l) ->
  Sorted.StronglySorted Z.lt (map fst l) ->
  Sorted.StronglySorted Z.lt (map fst (insertIndexed n p l)).
Proof.
  induction l as [|[m q] l IH]; simpl; intros Hnot Hs.
  - constructor; constructor.
  - inversion Hs as [|? ? Hrest Hall]; subst.
    destruct (Z.ltb_spec n m) as [Hlt|Hge]; simpl.
    + constructor; [exact Hs|]. constructor; [lia|].
      rewrite Forall_forall in *. intros x Hx. specialize (Hall x Hx). lia.
    + constructor; [apply IH; [tauto|exact Hrest]|].
      rewrite Forall_forall in *. intros x Hx.
      apply in_map_iff in Hx. destruct Hx as [[n' p'] [<- Hx]].
      apply In_insertIndexed in Hx. destruct Hx as [Hx|Hx].
      * injection Hx as -> _. simpl. lia.
      * apply Hall. apply (in_map fst) in Hx. exact Hx.
Qed.

(** The array indices among the keys come in strictly ascending
    order: a key occurs once, and an index has one name. *)
Lemma indexProperties_sorted o :
  NoDup (map fst o) ->
  Sorted.StronglySorted Z.lt (map fst (indexProperties o)).
Proof.
  induction o as [|[k s] o IH]; simpl; intros Hn; [constructor|].
  inversion Hn as [|? ? Hnot Hrest]; subst.
  destruct (JsString.arrayIndex k) as [n|] eqn:E; [|apply IH; exact Hrest].
  apply insertIndexed_sorted; [|apply IH; exact Hrest].
  intros Hin. apply in_map_iff in Hin.
  destruct Hin as [[n' [k' s']] [Heq Hin]]. simpl in Heq. subst n'.
  apply In_indexProperties in Hin. destruct Hin as [Hin Hk'].
  apply arrayIndex_name in E. apply arrayIndex_name in Hk'.
  apply Hnot. apply in_map_iff. exists (k', s'). split; [|exact Hin].
  simpl. congruence.
Qed.

Lemma indexProperties_indices o :
  map JsString.arrayIndex (map (fun x => fst (snd x)) (indexProperties o))
  = map Some (map fst (indexProperties o)).
Proof.
  rewrite !map_map. apply map_ext_in. intros [n [k s]] H. simpl.
  apply In_indexProperties in H. apply H.
Qed.

Lemma In_index_keys o k :
  In k (map (fun x => fst (snd x)) (indexProperties o))
  <-> In k (map fst o) /\ plainName k = false.
Proof.
  rewrite !in_map_iff. unfold plainName. split.
  - intros [[n [k' s]] [Heq H]]. simpl in Heq. subst k'.
    apply In_indexProperties in H. destruct H as [H1 H2]. split.
    + exists (k, s). split; [reflexivity|exact H1].
    + rewrite H2. reflexivity.
  - intros [[[k' s] [Heq H1]] H2]. simpl in Heq. subst k'.
    destruct (JsString.arrayIndex k) as [n|] eqn:E; [|discriminate].
    exists (n, (k, s)). split; [reflexivity|].
    apply In_indexProperties. split; assumption.
Qed.

Lemma getOwn_of_In o k s :
  NoDup (map fst o) -> In (k, s) o -> getOwn o k = Some s.
Proof.
  induction o as [|[k' s'] o IH]; simpl; intros Hn Hin; [destruct Hin|].
  inversion Hn as [|? ? Hnot Hrest]; subst.
  destruct Hin as [Heq|Hin].
  - injection Heq as -> ->. rewrite String.eqb_refl. reflexivity.
  - destruct (String.eqb k k') eqn:E.
    + apply String.eqb_eq in E. subst. exfalso. apply Hnot.
      apply (in_map fst) in Hin. exact Hin.
    + apply IH; assumption.
Qed.

Lemma flat_map_keys {A B C : Type} (f : A * B -> list C) (g : A -> list C)
    (l : list (A * B)) :
  (forall p, In p l -> f p = g (fst p)) ->
  flat_map f l = flat_map g (map fst l).
Proof.
  induction l as [|p l IH]; simpl; intros H; [reflexivity|].
  rewrite (H p) by (left; reflexivity).
  rewrite IH by (intros q Hq; apply H; right; exact Hq). reflexivity.
Qed.

Lemma renderSubjects_blocks o :
  WellFormed o ->
  renderSubjects o
  = flat_map (fun k => subjectHeading k :: map bulletLine (linesOfSubject o k))
             (map fst (entries o)).
Proof.
  intros [Hk _]. unfold renderSubjects. apply flat_map_keys.
  intros [k s] Hp. apply (proj1 (In_entries _ _)) in Hp.
  unfold renderSubject, linesOfSubject. simpl.
  rewrite (getOwn_of_In o k s Hk Hp). reflexivity.
Qed.

Lemma filter_all {A : Type} (f : A -> bool) (l : list A) :
  (forall x, In x l -> f x = true) -> filter f l = l.
Proof.
  induction l as [|x l IH]; simpl; intros H; [reflexivity|].
  rewrite (H x) by (left; reflexivity).
  rewrite IH by (intros y Hy; apply H; right; exact Hy). reflexivity.
Qed.

(** A lesson never takes a line away: what the object held before the
    [try] block, it holds after it. *)
Lemma processLesson_keeps_lines w ds lesson k x :
  WellFormed ds ->
  In x (linesOfSubject ds k) ->
  In x (linesOfSubject (fst (processLesson zone w ds lesson)) k).
Proof.
  intros Hwf Hin.
  rewrite processLesson_store, tryLesson_store.
  set (lines := linesOfEntries zone (answeredEntries (detail w lesson))).
  pose proof (groupAll_insertedLines lines ds Hwf) as Hrun.
  destruct (groupAll_success _ _ _ Hrun) as [_ Hlines].
  rewrite Hlines, fold_add_firstSeen. apply in_or_app. left. exact Hin.
Qed.

(** The object of a day is well formed after every slot. *)
Lemma processLessons_WellFormed w ds lessons :
  WellFormed ds -> WellFormed (fst (processLessons zone w ds lessons)).
Proof.
  intros Hwf.
  replace (fst (processLessons zone w ds lessons))
    with (fst (groupAll ds (dayLines zone w lessons)))
    by (rewrite (processLessons_store w lessons ds Hwf); reflexivity).
  apply groupAll_WellFormed. exact Hwf.
Qed.

End DayOrder.

(** C8, as the script has it.  The subjects of a day are emitted in two
    runs: first those whose names are array indices, in ascending
    numeric order, then all the others in the order in which they were
    first inserted.  Under each subject the lines stand in the order
    in which they were first inserted.  When no subject of the day is
    named by an array index, the subjects are emitted in the order of
    their first insertion. *)
Theorem subjects_and_lines_order (zone : JsDate.Zone) (w : World) (currentDate : Z) :
  let lines := dayLines zone w (lessonsOfDay zone currentDate) in
  let subjects := firstSeen (map fst lines) in
  exists indexed,
    ascendingIndices indexed
    /\ (forall k, In k indexed <-> In k subjects /\ plainName k = false)
    /\ fst (processDay zone w currentDate)
       = dayHeading zone currentDate
         :: flat_map (subjectBlock lines)
              (indexed ++ filter plainName subjects)
         ++ [emptyLine]
    /\ ((forall k, In k subjects -> plainName k = true) ->
        fst (processDay zone w currentDate)
        = dayHeading zone currentDate
          :: flat_map (subjectBlock lines) subjects ++ [emptyLine]).
Proof.
  intros lines subjects.
  set (ds := fst (processLessons zone w JsObject.empty
                    (lessonsOfDay zone currentDate))).
  pose proof (processLessons_store zone w (lessonsOfDay zone currentDate)
                JsObject.empty WellFormed_empty) as Hstore.
  fold lines in Hstore. fold ds in Hstore.
  destruct (groupAll_success _ _ _ Hstore) as [Hkeys Hlines].
  simpl in Hkeys. rewrite fold_add_empty in Hkeys. fold subjects in Hkeys.
  assert (Hwf : WellFormed ds).
  { replace ds with (fst (groupAll JsObject.empty lines))
      by (rewrite Hstore; reflexivity).
    apply groupAll_WellFormed, WellFormed_empty. }
  assert (Hblock : forall k,
             subjectHeading k :: map bulletLine (linesOfSubject ds k)
             = subjectBlock lines k).
  { intros k. rewrite Hlines. unfold linesOfSubject at 1. simpl.
    rewrite fold_add_empty. reflexivity. }
  assert (Hday : fst (processDay zone w currentDate)
                 = dayHeading zone currentDate
                   :: flat_map (subjectBlock lines)
                        (map fst (JsObject.entries ds))
                   ++ [emptyLine]).
  { rewrite processDay_paragraphs. fold ds.
    rewrite (renderSubjects_blocks ds Hwf).
    rewrite (flat_map_ext _ _ Hblock). reflexivity. }
  rewrite keys_entries, Hkeys in Hday.
  exists (map (fun x => fst (snd x)) (JsObject.indexProperties ds)).
  assert (Hin : forall k,
             In k (map (fun x => fst (snd x)) (JsObject.indexProperties ds))
             <-> In k subjects /\ plainName k = false)
    by (intros k; rewrite In_index_keys, Hkeys; reflexivity).
  split; [|split; [exact Hin|split; [exact Hday|]]].
  - exists (map fst (JsObject.indexProperties ds)).
    split; [apply indexProperties_indices|].
    apply indexProperties_sorted. apply Hwf.
  - intros Hplain. rewrite Hday.
    rewrite (filter_all plainName subjects Hplain).
    destruct (map (fun x => fst (snd x)) (JsObject.indexProperties ds))
      as [|k rest] eqn:E; [reflexivity|].
    exfalso. destruct (proj1 (Hin k) (or_introl eq_refl)) as [Hk Hnot].
    rewrite (Hplain k Hk) in Hnot. discriminate.
Qed.

Lemma subjects_and_lines_order_witness :
  (forall k,
      In k (firstSeen
              (map fst
                 (dayLines Samples.cet Samples.threeSubjectsWorld
                    (lessonsOfDay Samples.cet (utcMidnight 2025 3 10))))) ->
      plainName k = true)
  /\ map textOf
       (fst (processDay Samples.cet Samples.threeSubjectsWorld
               (utcMidnight 2025 3 10)))
     = ["Montag, 10. März 2025:";
        "Mathe"; "Zinsrechnung"; "Algebra";
        "Deutsch"; "Lyrik"; "Aufsatz";
        "Englisch"; "Vocabulary";
        ""].
Proof.
  assert (Hplain : forall k,
      In k (firstSeen
              (map fst
                 (dayLines Samples.cet Samples.threeSubjectsWorld
                    (lessonsOfDay Samples.cet (utcMidnight 2025 3 10))))) ->
      plainName k = true).
  { intros k Hk. vm_compute in Hk.
    destruct Hk as [<-|[<-|[<-|[]]]]; reflexivity. }
  split; [exact Hplain|].
  destruct (subjects_and_lines_order Samples.cet Samples.threeSubjectsWorld
              (utcMidnight 2025 3 10)) as [indexed [_ [_ [_ H]]]].
  rewrite (H Hplain). vm_compute. reflexivity.
Defined.

(** C8, as the claim has it, fails: when the subject "Mathe" is
    inserted before the subject "1", the heading of "1" is emitted
    before the heading of "Mathe". *)
Lemma subject_named_by_a_number_comes_first :
  let w := Samples.calmMorningWorld [Samples.mathe; Samples.numbered] in
  let day := utcMidnight 2025 3 10 in
  firstSeen (map fst (dayLines Samples.cet w (lessonsOfDay Samples.cet day)))
  = ["Mathe"; "1"]
  /\ emittedSubjects (fst (processDay Samples.cet w day)) = ["1"; "Mathe"]
  /\ emittedSubjects (fst (processDay Samples.cet w day))
     <> firstSeen
          (map fst (dayLines Samples.cet w (lessonsOfDay Samples.cet day))).
Proof.
  vm_compute. repeat split. discriminate.
Qed.

(** ** A subject named like a member of the prototype *)

(** For the subject "constructor" the lookup [daySubjects[subject]]
    finds the function inherited from [Object.prototype]: no set is
    created, [add] is not a function, the object stays as it is and
    the [catch] of the slot gets a [TypeError]; the entries after it
    in the same slot are not read. *)
Example subject_named_constructor :
  processEntries Samples.cet JsObject.empty
    [Samples.entryOf (Some "constructor") "CANCELLED" None; Samples.mathe]
  = (JsObject.empty, Some addNotAFunction).
Proof. reflexivity. Qed.

(** C4.  Two entries of one slot with the same subject and the same
    text, on 2025-03-10 in Central European Time.  Under the subject
    "Mathe" the day shows the one bullet "Bruchrechnen".  Under the
    subject "toString" the lookup [daySubjects[subject]] finds the
    function inherited from [Object.prototype]: no set is created,
    [add] throws, and the day shows no heading of the subject and no
    bullet at all; the [catch] of the slot writes its line. *)
Theorem identical_lines_under_toString_are_lost :
  let entry name := Samples.entryOf (Some name) "" (Some "Bruchrechnen") in
  let day name :=
    processDay Samples.cet
      (Samples.calmMorningWorld [entry name; entry name])
      (utcMidnight 2025 3 10) in
  map textOf (fst (day "Mathe"))
  = ["Montag, 10. März 2025:"; "Mathe"; "Bruchrechnen"; ""]
  /\ map textOf (fst (day "toString")) = ["Montag, 10. März 2025:"; ""]
  /\ filter isBullet (fst (day "toString")) = []
  /\ filter (fun e => negb (isFetch e)) (snd (day "toString"))
     = [ConsoleError
          "Error fetching teaching content for lesson: daySubjects[subject].add is not a function"]
  /\ processEntries Samples.cet JsObject.empty
       [entry "toString"; entry "toString"]
     = (JsObject.empty, Some addNotAFunction).
Proof. vm_compute. repeat split. Qed.

(** C5.  A cancelled entry from 08:00 to 09:30, alone in its slot, on
    2025-03-10 in Central European Time.  Under the subject "Mathe"
    the day shows the bullet "Entfallen (08:00 - 09:30)".  Under the
    subject "constructor" nothing is added to any set: the day shows
    no line for the entry, and an entry that follows it in the same
    slot is not read. *)
Theorem cancelled_entry_under_constructor_has_no_line :
  let entry name := Samples.entryOf (Some name) "CANCELLED" None in
  let day entries :=
    processDay Samples.cet (Samples.calmMorningWorld entries)
      (utcMidnight 2025 3 10) in
  map textOf (fst (day [entry "Mathe"]))
  = ["Montag, 10. März 2025:"; "Mathe"; "Entfallen (08:00 - 09:30)"; ""]
  /\ map textOf (fst (day [entry "constructor"]))
     = ["Montag, 10. März 2025:"; ""]
  /\ map textOf (fst (day [entry "constructor"; Samples.mathe]))
     = ["Montag, 10. März 2025:"; ""]
  /\ filter (fun e => negb (isFetch e)) (snd (day [entry "constructor"]))
     = [ConsoleError
          "Error fetching teaching content for lesson: daySubjects[subject].add is not a function"]
  /\ processEntry Samples.cet JsObject.empty (entry "constructor")
     = (JsObject.empty, Some addNotAFunction).
Proof. vm_compute. repeat split. Qed.

(** C6.  An entry without teaching content, alone in its slot, on
    2025-03-10 in Central European Time.  Under the subject "Mathe"
    the day shows the fixed line "Kein Lehrstoff ..." as a red bullet.
    Under the subject "valueOf" the line is not added: the day shows
    no bullet, red or black. *)
Theorem missing_content_under_valueOf_has_no_line :
  let entry name := Samples.entryOf (Some name) "" None in
  let day name :=
    processDay Samples.cet (Samples.calmMorningWorld [entry name])
      (utcMidnight 2025 3 10) in
  map textOf (fst (day "Mathe"))
  = ["Montag, 10. März 2025:"; "Mathe";
     "Kein Lehrstoff durch die Lehrkraft angegeben! Bitte manuell eintragen!";
     ""]
  /\ map run_color (flat_map par_children (filter isBullet (fst (day "Mathe"))))
     = [Some "FF0000"]
  /\ map textOf (fst (day "valueOf")) = ["Montag, 10. März 2025:"; ""]
  /\ filter isBullet (fst (day "valueOf")) = []
  /\ filter (fun e => negb (isFetch e)) (snd (day "valueOf"))
     = [ConsoleError
          "Error fetching teaching content for lesson: daySubjects[subject].add is not a function"]
  /\ processEntry Samples.cet JsObject.empty (entry "valueOf")
     = (JsObject.empty, Some addNotAFunction).
Proof. vm_compute. repeat split. Qed.

(** ** Slots that fail *)

Section Failures.

Import JsObject JsObjectFacts JsSetFacts.

Variable zone : JsDate.Zone.

Lemma linesOfEntries_cons e rest :
  linesOfEntries zone (e :: rest)
  = match subjectOf e with
    | Some s => (s, lineOf zone e) :: linesOfEntries zone rest
    | None => linesOfEntries zone rest
    end.
Proof.
  unfold linesOfEntries. cbn [flat_map].
  destruct (subjectOf e); reflexivity.
Qed.

Lemma linesOfEntries_readEntries entries :
  linesOfEntries zone (readEntries entries)
  = insertedLines (linesOfEntries zone entries).
Proof.
  induction entries as [|e rest IH]; [reflexivity|].
  rewrite linesOfEntries_cons. cbn [readEntries]. unfold throwsAt.
  destruct (subjectOf e) as [s|] eqn:Hs.
  - cbn [insertedLines]. destruct (inherited s); [reflexivity|].
    rewrite linesOfEntries_cons, Hs, IH. reflexivity.
  - rewrite linesOfEntries_cons, Hs. exact IH.
Qed.

Lemma existsb_throwsAt entries :
  existsb throwsAt entries
  = existsb (fun p => inherited (fst p)) (linesOfEntries zone entries).
Proof.
  induction entries as [|e rest IH]; [reflexivity|].
  rewrite linesOfEntries_cons. cbn [existsb]. unfold throwsAt at 1.
  destruct (subjectOf e) as [s|]; cbn [existsb fst]; rewrite IH; reflexivity.
Qed.

(** Whether the insertions throw is a matter of the subjects alone. *)
Lemma groupAll_outcome lines :
  forall ds,
    WellFormed ds ->
    snd (groupAll ds lines)
    = if existsb (fun p => inherited (fst p)) lines
      then Some addNotAFunction else None.
Proof.
  induction lines as [|[s t] lines IH]; intros ds Hwf; [reflexivity|].
  cbn [groupAll existsb fst].
  destruct (inherited s) eqn:Hi.
  - rewrite (groupBySubject_inherited ds s t
               (WellFormed_own_not_inherited ds s Hwf Hi) Hi).
    reflexivity.
  - pose proof (groupBySubject_adds ds s t Hi) as [Hnone _].
    pose proof (groupBySubject_WellFormed ds s t Hwf) as Hwf'.
    destruct (groupBySubject ds s t) as [ds' r]. simpl in Hnone. subst r.
    cbn [orb]. apply IH. exact Hwf'.
Qed.

(** The error of a slot is told by the answer to its lookup. *)
Lemma tryLesson_outcome ds answer :
  WellFormed ds ->
  option_map message_of (snd (tryLesson zone ds answer)) = failure answer.
Proof.
  intros Hwf. unfold tryLesson, failure, answeredEntries.
  destruct answer as [m|r]; [reflexivity|].
  destruct (detail_ok r); cbn [negb]; [|reflexivity].
  destruct (detail_body r) as [m| |found]; try reflexivity.
  rewrite processEntries_groupAll, (groupAll_outcome _ ds Hwf).
  rewrite <- existsb_throwsAt.
  destruct found as [l|]; destruct (existsb throwsAt _); reflexivity.
Qed.

(** The answer of the calm world for a slot. *)
Lemma detail_calm w lesson :
  detail (calm w) lesson
  = match failure (detail w lesson) with
    | Some _ => answerWith (readEntries (answeredEntries (detail w lesson)))
    | None => detail w lesson
    end.
Proof. reflexivity. Qed.

Lemma tryLesson_calm w ds lesson :
  WellFormed ds ->
  tryLesson zone ds (detail (calm w) lesson)
  = (fst (tryLesson zone ds (detail w lesson)), None).
Proof.
  intros Hwf. rewrite detail_calm.
  pose proof (tryLesson_outcome ds (detail w lesson) Hwf) as Hout.
  destruct (failure (detail w lesson)) as [message|].
  - unfold answerWith, tryLesson at 1. cbn [detail_ok negb detail_body].
    rewrite processEntries_groupAll, linesOfEntries_readEntries.
    rewrite (groupAll_insertedLines _ ds Hwf), tryLesson_store.
    reflexivity.
  - destruct (tryLesson zone ds (detail w lesson)) as [ds' [ex|]];
      [discriminate Hout|reflexivity].
Qed.

Lemma processLesson_WellFormed w ds lesson :
  WellFormed ds -> WellFormed (fst (processLesson zone w ds lesson)).
Proof.
  intros Hwf. rewrite processLesson_store, tryLesson_store.
  apply groupAll_WellFormed. exact Hwf.
Qed.

(** One slot: the request is sent once, the [catch] writes its line
    when the slot fails, and the object is the one of the calm world. *)
Lemma processLesson_by_failure w ds lesson :
  WellFormed ds ->
  fst (processLesson zone w ds lesson)
  = fst (processLesson zone (calm w) ds lesson)
  /\ snd (processLesson zone w ds lesson)
     = Fetch (DetailRequest lesson) :: logOf (detail w lesson)
  /\ snd (processLesson zone (calm w) ds lesson)
     = [Fetch (DetailRequest lesson)].
Proof.
  intros Hwf.
  pose proof (tryLesson_outcome ds (detail w lesson) Hwf) as Hout.
  unfold processLesson at 2 4. rewrite (tryLesson_calm w ds lesson Hwf).
  cbn [fst snd]. split; [|split; [|reflexivity]].
  - apply processLesson_store.
  - unfold processLesson, logOf. rewrite <- Hout.
    destruct (tryLesson zone ds (detail w lesson)) as [ds' [ex|]];
      reflexivity.
Qed.

Lemma processLessons_by_failure w lessons :
  forall ds,
    WellFormed ds ->
    fst (processLessons zone w ds lessons)
    = fst (processLessons zone (calm w) ds lessons)
    /\ snd (processLessons zone w ds lessons)
       = flat_map (fun lesson =>
                     Fetch (DetailRequest lesson) :: logOf (detail w lesson))
                  lessons
    /\ snd (processLessons zone (calm w) ds lessons)
       = map (fun lesson => Fetch (DetailRequest lesson)) lessons.
Proof.
  induction lessons as [|lesson rest IH]; intros ds Hwf;
    [repeat split; reflexivity|].
  rewrite !processLessons_cons. cbn [fst snd].
  destruct (processLesson_by_failure w ds lesson Hwf) as (Hf & Hs & Hc).
  rewrite Hs, Hc, Hf.
  assert (Hwf' : WellFormed (fst (processLesson zone (calm w) ds lesson)))
    by (apply processLesson_WellFormed; exact Hwf).
  destruct (IH _ Hwf') as (Hf' & Hs' & Hc').
  rewrite Hs', Hc', Hf'. repeat split; reflexivity.
Qed.

Lemma processDay_by_failure w currentDate :
  fst (processDay zone w currentDate)
  = fst (processDay zone (calm w) currentDate)
  /\ snd (processDay zone w currentDate)
     = flat_map (fun lesson =>
                   Fetch (DetailRequest lesson) :: logOf (detail w lesson))
                (lessonsOfDay zone currentDate)
  /\ snd (processDay zone (calm w) currentDate)
     = map (fun lesson => Fetch (DetailRequest lesson))
           (lessonsOfDay zone currentDate).
Proof.
  destruct (processLessons_by_failure w (lessonsOfDay zone currentDate)
              JsObject.empty WellFormed_empty) as (Hf & Hs & Hc).
  rewrite !processDay_paragraphs, !processDay_events, Hf.
  repeat split; assumption.
Qed.

Lemma detailRequests_logged w lessons :
  detailRequests
    (flat_map (fun lesson =>
                 Fetch (DetailRequest lesson) :: logOf (detail w lesson))
              lessons)
  = lessons.
Proof.
  induction lessons as [|lesson rest IH]; [reflexivity|].
  cbn [flat_map app detailRequests]. rewrite detailRequests_app, IH.
  unfold logOf. destruct (failure (detail w lesson)); reflexivity.
Qed.

Lemma detailRequests_fetches lessons :
  detailRequests (map (fun lesson => Fetch (DetailRequest lesson)) lessons)
  = lessons.
Proof.
  induction lessons as [|lesson rest IH]; [reflexivity|].
  cbn [map detailRequests]. rewrite IH. reflexivity.
Qed.

Lemma no_write_in_logged w lessons :
  filter isWriteFile
    (flat_map (fun lesson =>
                 Fetch (DetailRequest lesson) :: logOf (detail w lesson))
              lessons)
  = [].
Proof.
  induction lessons as [|lesson rest IHl]; [reflexivity|].
  cbn [flat_map app filter isWriteFile]. rewrite filter_app, IHl.
  unfold logOf. destruct (failure (detail w lesson)); reflexivity.
Qed.

Lemma no_write_in_fetches lessons :
  filter isWriteFile
    (map (fun lesson => Fetch (DetailRequest lesson)) lessons)
  = [].
Proof.
  induction lessons as [|lesson rest IHl]; [reflexivity|].
  cbn [map filter isWriteFile]. exact IHl.
Qed.

(** The loop over the days visits the same days and builds the same
    paragraphs in a world and in its calm world. *)
Lemma dayLoop_calm fuel w endDate :
  forall currentDate,
    match dayLoop zone fuel w currentDate endDate,
          dayLoop zone fuel (calm w) currentDate endDate with
    | Some (paragraphs, events), Some (paragraphs', events') =>
        paragraphs' = paragraphs
        /\ detailRequests events' = detailRequests events
        /\ filter isWriteFile events = []
        /\ filter isWriteFile events' = []
    | None, None => True
    | _, _ => False
    end.
Proof.
  induction fuel as [|fuel IH]; intros currentDate;
    cbn [dayLoop];
    destruct (currentDate <=? endDate); try (repeat split; reflexivity).
  destruct (processDay_by_failure w currentDate) as (Hf & Hs & Hc).
  rewrite (surjective_pairing (processDay zone w currentDate)), Hf, Hs.
  rewrite (surjective_pairing (processDay zone (calm w) currentDate)), Hc.
  specialize (IH (nextDay zone currentDate)).
  destruct (dayLoop zone fuel w (nextDay zone currentDate) endDate)
    as [[paragraphs events]|];
    destruct (dayLoop zone fuel (calm w) (nextDay zone currentDate) endDate)
    as [[paragraphs' events']|]; try contradiction; [|exact I].
  destruct IH as (-> & Hreq & Hw1 & Hw2).
  split; [reflexivity|].
  rewrite !detailRequests_app, !filter_app, Hreq, Hw1, Hw2.
  rewrite detailRequests_logged, detailRequests_fetches.
  rewrite no_write_in_logged, no_write_in_fetches.
  repeat split; reflexivity.
Qed.

End Failures.

Section CalmRun.

Variable zone : JsDate.Zone.

Lemma afterTheLoop_events w events paragraphs :
  afterTheLoop w events paragraphs
  = (events ++ fst (afterTheLoop w [] paragraphs),
     snd (afterTheLoop w [] paragraphs)).
Proof.
  unfold afterTheLoop.
  destruct (packer_toBuffer w paragraphs);
    [rewrite app_nil_r; reflexivity|].
  destruct (outputDir (env_DOCX_PATH w));
    [|rewrite app_nil_r; reflexivity].
  destruct (fs_writeFileSync w _);
    [rewrite app_nil_r; reflexivity|reflexivity].
Qed.

(** The run of a world and the run of its calm world send the same
    requests, end the same way and write the same file. *)
Lemma run_calm w startDate endDate :
  snd (tryFetchTeachingContent zone w startDate endDate)
  = snd (tryFetchTeachingContent zone (calm w) startDate endDate)
  /\ detailRequests (fst (tryFetchTeachingContent zone w startDate endDate))
     = detailRequests
         (fst (tryFetchTeachingContent zone (calm w) startDate endDate))
  /\ filter isWriteFile
       (fst (tryFetchTeachingContent zone w startDate endDate))
     = filter isWriteFile
         (fst (tryFetchTeachingContent zone (calm w) startDate endDate)).
Proof.
  pose proof (dayLoop_calm zone (loopFuel startDate endDate) w endDate
                startDate) as Hloop.
  unfold tryFetchTeachingContent.
  change (loginAndGetCookie (calm w)) with (loginAndGetCookie w).
  change (token (calm w)) with (token w).
  destruct (loginAndGetCookie w) as [loginEvents [ex|cookie]];
    [repeat split; reflexivity|].
  destruct (matchTenantId cookie); [|repeat split; reflexivity].
  destruct (token w) as [m|r]; [repeat split; reflexivity|].
  destruct (negb (token_ok r)); [repeat split; reflexivity|].
  destruct (_ || _); [repeat split; reflexivity|].
  destruct (dayLoop zone _ w startDate endDate) as [[p ev]|];
    destruct (dayLoop zone _ (calm w) startDate endDate) as [[p' ev']|];
    try contradiction; [|repeat split; reflexivity].
  destruct Hloop as (-> & Hreq & Hw1 & Hw2).
  cbn [app List.length Nat.eqb].
  change (afterTheLoop (calm w)) with (afterTheLoop w).
  rewrite (afterTheLoop_events w ((loginEvents ++ _) ++ ev)).
  rewrite (afterTheLoop_events w ((loginEvents ++ _) ++ ev')).
  cbn [fst snd].
  rewrite !detailRequests_app, !filter_app, Hreq, Hw1, Hw2.
  repeat split; reflexivity.
Qed.

Lemma detailRequests_error events text :
  detailRequests (events ++ [ConsoleError text]) = detailRequests events.
Proof. rewrite detailRequests_app. apply app_nil_r. Qed.

Lemma writes_error events text :
  filter isWriteFile (events ++ [ConsoleError text])
  = filter isWriteFile events.
Proof. rewrite filter_app. apply app_nil_r. Qed.

Lemma lookupFails_failure answer :
  lookupFails answer = true ->
  failure answer <> None /\ answeredEntries answer = [].
Proof.
  unfold lookupFails, failure, answeredEntries.
  destruct answer as [m|r]; [split; [discriminate|reflexivity]|].
  destruct (detail_ok r); cbn [negb orb].
  - destruct (detail_body r) as [m| |found]; try discriminate;
      intros _; split; try discriminate; reflexivity.
  - intros _. split; [discriminate|reflexivity].
Qed.

End CalmRun.



(** ** More on dates *)

Section MoreDates.

Import JsDate JsDateFacts JsString.

Variable tza : Z.

Lemma YearFromDay_unique d y :
  DayFromYear y <= d < DayFromYear (y + 1) -> YearFromDay d = y.
Proof.
  intros H. pose proof (YearFromDay_spec d) as Hs.
  set (Y := YearFromDay d) in *. clearbody Y.
  unfold DayFromYear in *.
  Z.to_euclidean_division_equations; lia.
Qed.

Lemma DaysInYear_cases y : DaysInYear y = 365 \/ DaysInYear y = 366.
Proof.
  unfold DaysInYear, DayFromYear.
  Z.to_euclidean_division_equations; lia.
Qed.

Lemma monthStart_table (leap : bool) :
  let l := if leap then 1 else 0 in
  monthStart leap 0 = 0 /\ monthStart leap 1 = 31
  /\ monthStart leap 2 = 59 + l /\ monthStart leap 3 = 90 + l
  /\ monthStart leap 4 = 120 + l /\ monthStart leap 5 = 151 + l
  /\ monthStart leap 6 = 181 + l /\ monthStart leap 7 = 212 + l
  /\ monthStart leap 8 = 243 + l /\ monthStart leap 9 = 273 + l
  /\ monthStart leap 10 = 304 + l /\ monthStart leap 11 = 334 + l.
Proof. destruct leap; vm_compute; repeat split. Qed.

Ltac month_cases m :=
  let H := fresh "Hcases" in
  assert (H : m = 0 \/ m = 1 \/ m = 2 \/ m = 3 \/ m = 4 \/ m = 5
              \/ m = 6 \/ m = 7 \/ m = 8 \/ m = 9 \/ m = 10 \/ m = 11)
    by lia;
  repeat (destruct H as [H|H]; [subst m|]); [..|subst m].

Ltac month_length H :=
  match type of H with
  | context [?a =? 11] =>
      let b := eval vm_compute in (a =? 11) in
      change (a =? 11) with b in H; cbv iota in H
  end;
  try match type of H with
      | context [monthStart ?l (?a + 1)] =>
          let b := eval vm_compute in (a + 1) in
          change (a + 1) with b in H
      end.

(** The day number of a valid calendar date, and back. *)
Lemma civil_round_trip y m dd :
  0 <= m <= 11 -> 1 <= dd <= daysInMonth y m ->
  YearFromDay (MakeDay y m dd) = y
  /\ MonthFromDay (MakeDay y m dd) = m
  /\ DateFromDay (MakeDay y m dd) = dd.
Proof.
  intros Hm Hd.
  assert (Hday : MakeDay y m dd
                 = DayFromYear y + monthStart (InLeapYear y) m + dd - 1).
  { unfold MakeDay. rewrite (Z.div_small m 12), (Z.mod_small m 12) by lia.
    replace (y + 0) with y by lia. reflexivity. }
  assert (Hnext : DayFromYear (y + 1) = DayFromYear y + DaysInYear y)
    by (unfold DaysInYear; lia).
  assert (Hleap : (if InLeapYear y then 1 else 0) + 365 = DaysInYear y).
  { unfold InLeapYear. destruct (DaysInYear_cases y) as [H|H]; rewrite H;
      reflexivity. }
  pose proof (monthStart_table (InLeapYear y)) as Ht. cbv zeta in Ht.
  destruct Ht as (T0 & T1 & T2 & T3 & T4 & T5 & T6 & T7 & T8 & T9 & T10 & T11).
  set (l := if InLeapYear y then 1 else 0) in *.
  assert (Hl : 0 <= l <= 1) by (subst l; destruct (InLeapYear y); lia).
  clearbody l.
  unfold daysInMonth in Hd.
  assert (Hn : 0 <= monthStart (InLeapYear y) m + dd - 1 < 365 + l
               /\ forall k, 1 <= k <= 11 ->
                    (monthStart (InLeapYear y) m + dd - 1
                     <? monthStart (InLeapYear y) k) = (m <? k)).
  { split.
    - month_cases m; month_length Hd; lia.
    - intros k Hk.
      assert (Hmono : (m < k -> monthStart (InLeapYear y) m + dd - 1
                                < monthStart (InLeapYear y) k)
                      /\ (k <= m -> monthStart (InLeapYear y) k
                                    <= monthStart (InLeapYear y) m + dd - 1)).
      { month_cases m; month_length Hd; month_cases k; lia. }
      destruct (Z.ltb_spec (monthStart (InLeapYear y) m + dd - 1)
                           (monthStart (InLeapYear y) k));
        destruct (Z.ltb_spec m k); try reflexivity; lia. }
  destruct Hn as [Hrange Hchain].
  assert (Hyear : YearFromDay (MakeDay y m dd) = y).
  { apply YearFromDay_unique. rewrite Hday, Hnext. lia. }
  assert (Hmonth : MonthFromDay (MakeDay y m dd) = m).
  { unfold MonthFromDay, DayWithinYear. rewrite Hyear, Hday.
    replace (DayFromYear y + monthStart (InLeapYear y) m + dd - 1
             - DayFromYear y)
      with (monthStart (InLeapYear y) m + dd - 1) by lia.
    rewrite !Hchain by lia.
    month_cases m; reflexivity. }
  split; [exact Hyear|]. split; [exact Hmonth|].
  unfold DateFromDay, DayWithinYear. rewrite Hmonth, Hyear, Hday. lia.
Qed.

Lemma daysInMonth_bound y m :
  0 <= m <= 11 -> 28 <= daysInMonth y m <= 31.
Proof.
  intros Hm. unfold daysInMonth.
  pose proof (monthStart_table (InLeapYear y)) as Ht. cbv zeta in Ht.
  destruct Ht as (T0 & T1 & T2 & T3 & T4 & T5 & T6 & T7 & T8 & T9 & T10 & T11).
  assert (Hl : 0 <= (if InLeapYear y then 1 else 0) <= 1)
    by (destruct (InLeapYear y); lia).
  set (l := if InLeapYear y then 1 else 0) in *. clearbody l.
  month_cases m;
    match goal with
    | |- context [?a =? 11] =>
        let b := eval vm_compute in (a =? 11) in
        change (a =? 11) with b; cbv iota
    end;
    try match goal with
        | |- context [monthStart ?l (?a + 1)] =>
            let b := eval vm_compute in (a + 1) in change (a + 1) with b
        end;
    lia.
Qed.

Lemma LocalTime_UTC x : LocalTime tza (UTC tza x) = x.
Proof. unfold LocalTime, UTC,
    offsetAt, offsetOfLocal;
    cbn [standardOffset summerTime fixedOffset]. lia. Qed.

Lemma fields_of_MakeTime day h m s ms :
  0 <= h <= 23 -> 0 <= m <= 59 -> 0 <= s <= 59 -> 0 <= ms <= 999 ->
  Day (MakeDate day (MakeTime h m s ms)) = day
  /\ HourFromTime (MakeDate day (MakeTime h m s ms)) = h
  /\ MinFromTime (MakeDate day (MakeTime h m s ms)) = m
  /\ SecFromTime (MakeDate day (MakeTime h m s ms)) = s.
Proof.
  intros Hh Hm Hs Hms.
  unfold Day, HourFromTime, MinFromTime, SecFromTime, MakeDate, MakeTime,
    msPerDay, msPerHour, msPerMinute, msPerSecond.
  repeat split; Z.to_euclidean_division_equations; lia.
Qed.

Lemma calendarDateTime_valid d :
  calendarDateTime d = true -> validDateTime d = true.
Proof.
  unfold calendarDateTime. intros H. apply andb_true_iff in H. apply H.
Qed.

Lemma validDateTime_fields d :
  calendarDateTime d = true ->
  1 <= dt_month d <= 12
  /\ 1 <= dt_day d <= daysInMonth (dt_year d) (dt_month d - 1)
  /\ 0 <= dt_hour d <= 24 /\ 0 <= dt_minute d <= 59
  /\ 0 <= dt_second d <= 59.
Proof.
  unfold calendarDateTime, validDateTime. intros Hv.
  repeat (apply andb_true_iff in Hv; destruct Hv as [Hv ?]).
  repeat match goal with
         | H : (_ <=? _) = true |- _ => apply Z.leb_le in H
         end.
  match goal with
  | H : _ || _ = true |- _ =>
      apply orb_true_iff in H; destruct H as [H|H];
      [apply Z.leb_le in H
      |repeat (apply andb_true_iff in H; destruct H as [H ?]);
       apply Z.eqb_eq in H]
  end; lia.
Qed.

(** The field getters read back what [new Date] was given. *)
Lemma fields_of_newDateLocal d :
  calendarDateTime d = true -> dt_hour d <= 23 ->
  exists t,
    newDateLocal tza d = Some t
    /\ getFullYear tza t = dt_year d
    /\ getMonth tza t + 1 = dt_month d
    /\ getDate tza t = dt_day d
    /\ getHours tza t = dt_hour d
    /\ getMinutes tza t = dt_minute d
    /\ getSeconds tza t = dt_second d.
Proof.
  intros Hv Hh. destruct (validDateTime_fields d Hv) as (Hm & Hd & Hh' & Hmi & Hs).
  unfold newDateLocal. rewrite (calendarDateTime_valid d Hv).
  eexists. split; [reflexivity|].
  unfold getFullYear, getMonth, getDate, getHours, getMinutes, getSeconds.
  rewrite LocalTime_UTC.
  destruct (fields_of_MakeTime
              (MakeDay (dt_year d) (dt_month d - 1) (dt_day d))
              (dt_hour d) (dt_minute d) (dt_second d) 0)
    as (Hday & Hhour & Hmin & Hsec); [lia..|].
  rewrite Hday, Hhour, Hmin, Hsec.
  destruct (civil_round_trip (dt_year d) (dt_month d - 1) (dt_day d))
    as (Hy & Hmo & Hda); lia.
Qed.

(** [d.setHours(h, 0, 0)] keeps the local day and sets the clock. *)
Lemma fields_of_setHours t h :
  0 <= h <= 23 ->
  localDay tza (setHours tza t h 0 0) = localDay tza t
  /\ getHours tza (setHours tza t h 0 0) = h
  /\ getMinutes tza (setHours tza t h 0 0) = 0
  /\ getSeconds tza (setHours tza t h 0 0) = 0.
Proof.
  intros Hh.
  unfold localDay, getHours, getMinutes, getSeconds, setHours.
  rewrite LocalTime_UTC.
  assert (Hms : 0 <= msFromTime (LocalTime tza t) <= 999).
  { unfold msFromTime, msPerSecond.
    pose proof (Z.mod_pos_bound (LocalTime tza t) 1000). lia. }
  destruct (fields_of_MakeTime (Day (LocalTime tza t)) h 0 0
              (msFromTime (LocalTime tza t)))
    as (Hday & Hhour & Hmin & Hsec); [lia..|].
  rewrite Hday, Hhour, Hmin, Hsec. repeat split.
Qed.

Lemma append_assoc (a b c : string) :
  ((a ++ b) ++ c = a ++ (b ++ c))%string.
Proof.
  induction a as [|x a IH]; simpl; [reflexivity|]. rewrite IH. reflexivity.
Qed.

Lemma format_setHours t h :
  0 <= h <= 23 ->
  formatLocalDateTime tza (setHours tza t h 0 0)
  = (datePart tza t ++ "T" ++ twoDigits h ++ ":00:00")%string.
Proof.
  intros Hh.
  destruct (fields_of_setHours t h Hh) as (Hday & Hhour & Hmin & Hsec).
  unfold formatLocalDateTime, datePart.
  rewrite Hhour, Hmin, Hsec.
  unfold getFullYear, getMonth, getDate.
  unfold localDay in Hday. rewrite Hday.
  rewrite (padStart2_twoDigits h) by lia.
  change (padStart2 (ofZ 0)) with "00".
  rewrite !append_assoc. reflexivity.
Qed.

End MoreDates.



(** X2.  In a zone of constant offset the requests of a day are
    twelve, for the hours 7 to 18 in this order; each has the element
    36686 of type 5, starts at [HH:00:00] of the local date of the day
    and ends at the next full hour of the same date, whatever the time
    of day of the date object. *)
Theorem lessonsOfDay_slots (tza t : Z) :
  lessonsOfDay tza t
  = map (slotOf tza t) [7; 8; 9; 10; 11; 12; 13; 14; 15; 16; 17; 18].
Proof.
  unfold lessonsOfDay.
  change hours with [7; 8; 9; 10; 11; 12; 13; 14; 15; 16; 17; 18].
  apply map_ext_in. intros h Hh.
  assert (Hbound : 7 <= h <= 18).
  { simpl in Hh. repeat (destruct Hh as [<-|Hh]; [lia|]). destruct Hh. }
  unfold slotOf.
  rewrite (format_setHours tza t h) by lia.
  rewrite (format_setHours tza t (h + 1)) by lia.
  reflexivity.
Qed.

(** ** More on the week number *)

Lemma iso_week_range d : 1 <= Iso8601.weekNumber d <= 53.
Proof.
  unfold Iso8601.weekNumber.
  pose proof (WeekDay_thursdayOfWeek d) as Hth.
  set (th := Iso8601.thursdayOfWeek d) in *. clearbody th.
  pose proof (JsDateFacts.YearFromDay_spec th) as Hy.
  set (y := JsDate.YearFromDay th) in *. clearbody y.
  assert (Hlen : JsDate.DayFromYear (y + 1) <= JsDate.DayFromYear y + 366).
  { pose proof (DaysInYear_cases y) as H. unfold JsDate.DaysInYear in H. lia. }
  unfold Iso8601.firstThursday, JsDate.WeekDay in *.
  set (j := JsDate.DayFromYear y) in *. clearbody j.
  set (j' := JsDate.DayFromYear (y + 1)) in *. clearbody j'.
  Z.to_euclidean_division_equations; lia.
Qed.

(** X3.  In a zone of constant offset, for every date whose week does
    not belong to a year from 0 to 99, the week number of the script is
    the ISO 8601 week number, less one when 4 January of the year of
    that week is a Sunday. *)
Theorem week_number_is_iso_or_one_less (tza t : Z) :
  ~ (0 <= JsDate.YearFromDay (Iso8601.thursdayOfWeek (localDay tza t)) <= 99) ->
  getCalendarWeek tza t
  = Iso8601.weekNumber (localDay tza t)
    - (if JsDate.WeekDay
            (JsDate.MakeDay
               (JsDate.YearFromDay
                  (Iso8601.thursdayOfWeek (localDay tza t))) 0 4) =? 0
       then 1 else 0).
Proof. intros Hy. apply (getCalendarWeek_against_iso tza t Hy). Qed.

Lemma week_number_is_iso_or_one_less_witness :
  getCalendarWeek Samples.cet (utcMidnight 2026 11 2)
  = Iso8601.weekNumber (localDay Samples.cet (utcMidnight 2026 11 2)) - 1.
Proof.
  apply (week_number_is_iso_or_one_less Samples.cet (utcMidnight 2026 11 2)).
  vm_compute. intros [_ H]. apply H. reflexivity.
Defined.

(** X4.  In a zone of constant offset, for every date whose week does
    not belong to a year from 0 to 99, the week number of the script
    lies between 0 and 53, and it is 0 only in a year whose 4 January
    is a Sunday. *)
Theorem week_number_range (tza t : Z) :
  ~ (0 <= JsDate.YearFromDay (Iso8601.thursdayOfWeek (localDay tza t)) <= 99) ->
  0 <= getCalendarWeek tza t <= 53
  /\ (getCalendarWeek tza t = 0 ->
      JsDate.WeekDay
        (JsDate.MakeDay
           (JsDate.YearFromDay (Iso8601.thursdayOfWeek (localDay tza t))) 0 4)
      = 0).
Proof.
  intros Hy. rewrite (getCalendarWeek_against_iso tza t Hy).
  pose proof (iso_week_range (localDay tza t)) as Hiso.
  destruct (Z.eqb_spec
              (JsDate.WeekDay
                 (JsDate.MakeDay
                    (JsDate.YearFromDay
                       (Iso8601.thursdayOfWeek (localDay tza t))) 0 4)) 0)
    as [Hsun|Hnot]; split; lia.
Qed.

Lemma week_number_range_witness :
  0 <= getCalendarWeek Samples.cet (utcMidnight 2025 3 10) <= 53.
Proof.
  apply (week_number_range Samples.cet (utcMidnight 2025 3 10)).
  vm_compute. intros [_ H]. apply H. reflexivity.
Defined.

(** ** More on the run *)

Section MoreRun.

Import JsDate JsDateFacts.

Variable zone : Zone.

Lemma fetchTeachingContent_starts_with_login w startDate endDate :
  exists rest,
    fetchTeachingContent zone w startDate endDate = Fetch LoginRequest :: rest.
Proof.
  unfold fetchTeachingContent, tryFetchTeachingContent, loginAndGetCookie,
    afterTheLoop.
  repeat match goal with
         | |- context [match ?x with _ => _ end] =>
             lazymatch x with
             | context [match _ with _ => _ end] => fail
             | _ => destruct x eqn:?; simpl
             end
         end;
    eexists; reflexivity.
Qed.

Lemma lessonsOfDay_length t : List.length (lessonsOfDay zone t) = 12%nat.
Proof. unfold lessonsOfDay. rewrite length_map. reflexivity. Qed.

Lemma flat_map_length_const {A B : Type} (f : A -> list B) (l : list A) n :
  (forall x, List.length (f x) = n) ->
  List.length (flat_map f l) = (n * List.length l)%nat.
Proof.
  intros H. induction l as [|x l IH]; simpl; [lia|].
  rewrite length_app, H, IH. lia.
Qed.

Lemma detailRequests_days w days :
  detailRequests (flat_map (fun day => snd (processDay zone w day)) days)
  = flat_map (lessonsOfDay zone) days.
Proof.
  induction days as [|day rest IH]; [reflexivity|].
  simpl. rewrite detailRequests_app, IH, processDay_events,
    detailRequests_processLessons. reflexivity.
Qed.

(** When the login or the token request fails, the [try] block ends
    with an exception before the loop over the days. *)
Lemma thrown_before_the_loop w startDate endDate :
  loginFails w = true \/ tokenFails w = true ->
  exists ex,
    tryFetchTeachingContent zone w startDate endDate
    = (Fetch LoginRequest
       :: (if loginFails w then [] else [Fetch TokenRequest]),
       Some ex).
Proof.
  unfold loginFails, tokenFails, tryFetchTeachingContent.
  destruct (loginAndGetCookie w) as [loginEvents logged] eqn:Hlogin.
  assert (HloginEvents : loginEvents = [Fetch LoginRequest])
    by (unfold loginAndGetCookie in Hlogin; congruence).
  subst loginEvents. cbn [snd].
  destruct logged as [ex|cookie]; [intros _; eexists; reflexivity|].
  destruct (matchTenantId cookie); [|intros _; eexists; reflexivity].
  intros [H|H]; [discriminate H|].
  destruct (token w) as [m|r]; [eexists; reflexivity|].
  destruct (negb (token_ok r)); [eexists; reflexivity|].
  cbn [orb] in H. rewrite H, orb_true_r. eexists; reflexivity.
Qed.

End MoreRun.

Section FixedRun.

Import JsDate JsDateFacts.

Variable tza : Z.

Lemma daysFrom_length n currentDate :
  List.length (daysFrom n currentDate) = n.
Proof.
  revert currentDate. induction n as [|n IH]; intros currentDate; simpl;
    [reflexivity|]. rewrite IH. reflexivity.
Qed.

Lemma daysFrom_steps n currentDate :
  daysFrom n currentDate
  = map (fun k => currentDate + Z.of_nat k * msPerDay) (seq 0 n).
Proof.
  revert currentDate. induction n as [|n IH]; intros currentDate;
    [reflexivity|].
  cbn [daysFrom seq map]. f_equal; [lia|].
  rewrite IH, <- seq_shift, map_map. apply map_ext. intros k. lia.
Qed.

Lemma numberOfDays_fuel startDate endDate :
  (numberOfDays startDate endDate <= loopFuel startDate endDate)%nat.
Proof.
  unfold numberOfDays, loopFuel, msPerDay, msPerHour.
  destruct (Z.leb_spec startDate endDate) as [Hle|Hgt]; [|lia].
  assert ((endDate - startDate) / 86400000
          <= (endDate - startDate) / (23 * 3600000))
    by (Z.to_euclidean_division_equations; lia).
  lia.
Qed.

Lemma run_in_days w startDate endDate events :
  tryFetchTeachingContent tza w startDate endDate = (events, None) ->
  exists dir,
    outputDir (env_DOCX_PATH w) = Some dir
    /\ events
       = Fetch LoginRequest :: Fetch TokenRequest
         :: flat_map (fun day => snd (processDay tza w day))
              (daysFrom (numberOfDays startDate endDate) startDate)
         ++ [WriteFile (documentPath w dir)
               (titleParagraph :: weekParagraph tza startDate
                :: flat_map (fun day => fst (processDay tza w day))
                     (daysFrom (numberOfDays startDate endDate) startDate))].
Proof.
  intros Hrun.
  destruct (run_without_exception_writes_the_file tza w startDate endDate
              events Hrun) as (dayParagraphs & dayEvents & dir & Hloop & Hdir & ->).
  rewrite dayLoop_days in Hloop by apply numberOfDays_fuel.
  injection Hloop as <- <-. exists dir. split; [exact Hdir|reflexivity].
Qed.

End FixedRun.

(** X5.  In a zone of constant offset, a run whose [try] block ends
    without an exception: [DOCX_PATH] names a directory; the events are
    the login request, the token request, the events of the days from
    the start date on in steps of 24 hours, and last the one write of
    the file, to the path made of that directory and the file name;
    the document is the title, the week label and the paragraphs of
    these days; and twelve lookups were sent for each day of the
    range. *)
Theorem successful_run_shape
    (tza : Z) (w : World) (startDate endDate : Z) (events : list Event) :
  tryFetchTeachingContent tza w startDate endDate = (events, None) ->
  let days :=
    map (fun k => startDate + Z.of_nat k * JsDate.msPerDay)
        (seq 0 (numberOfDays startDate endDate)) in
  fetchTeachingContent tza w startDate endDate = events
  /\ (exists dir,
        outputDir (env_DOCX_PATH w) = Some dir
        /\ events
           = Fetch LoginRequest :: Fetch TokenRequest
             :: flat_map (fun day => snd (processDay tza w day)) days
             ++ [WriteFile
                   (if path_isAbsolute w
                         (outputFilename (env_OUTPUT_FILENAME w))
                    then outputFilename (env_OUTPUT_FILENAME w)
                    else path_join w dir
                           (outputFilename (env_OUTPUT_FILENAME w)))
                   (titleParagraph :: weekParagraph tza startDate
                    :: flat_map (fun day => fst (processDay tza w day))
                         days)])
  /\ List.length (detailRequests events)
     = (12 * numberOfDays startDate endDate)%nat.
Proof.
  intros Hrun days.
  destruct (run_in_days tza w startDate endDate events Hrun)
    as (dir & Hdir & Hevents).
  rewrite daysFrom_steps in Hevents. fold days in Hevents.
  split; [unfold fetchTeachingContent; rewrite Hrun; reflexivity|].
  split; [exists dir; split; [exact Hdir|exact Hevents]|].
  rewrite Hevents. cbn [detailRequests].
  rewrite detailRequests_app, detailRequests_days. cbn [detailRequests].
  rewrite app_nil_r.
  rewrite (flat_map_length_const (lessonsOfDay tza) days 12
             (lessonsOfDay_length tza)).
  unfold days. rewrite length_map, length_seq. reflexivity.
Qed.

Lemma successful_run_shape_witness :
  List.length
    (detailRequests
       (fetchTeachingContent Samples.cet Samples.quietWorld
          (utcMidnight 2025 3 10) (utcMidnight 2025 3 14)))
  = 60%nat.
Proof.
  destruct (successful_run_shape Samples.cet Samples.quietWorld
              (utcMidnight 2025 3 10) (utcMidnight 2025 3 14)
              (fst (tryFetchTeachingContent Samples.cet Samples.quietWorld
                      (utcMidnight 2025 3 10) (utcMidnight 2025 3 14))))
    as (Hrun & _ & Hcount).
  - vm_compute. reflexivity.
  - rewrite Hrun. exact Hcount.
Defined.

(** X6.  When the login fails (the request is rejected, the response
    is not ok or has no cookie, or the cookie names no tenant) or the
    token request fails (it is rejected, not ok, or its text is blank),
    the run is aborted: the login request, and the token request when
    the login went well, are the only requests; no slot lookup is made,
    no file is written, and the run ends with the one line "An error
    occurred:". *)
Theorem failed_authentication_aborts
    (zone : JsDate.Zone) (w : World) (startDate endDate : Z) :
  loginFails w = true \/ tokenFails w = true ->
  exists ex,
    fetchTeachingContent zone w startDate endDate
    = Fetch LoginRequest
      :: (if loginFails w then [] else [Fetch TokenRequest])
      ++ [ConsoleError ("An error occurred: " ++ describe ex)%string]
    /\ detailRequests (fetchTeachingContent zone w startDate endDate) = []
    /\ filter isWriteFile (fetchTeachingContent zone w startDate endDate) = [].
Proof.
  intros Hfail.
  destruct (thrown_before_the_loop zone w startDate endDate Hfail)
    as [ex Hrun].
  exists ex. unfold fetchTeachingContent. rewrite Hrun.
  destruct (loginFails w); repeat split; reflexivity.
Qed.

Lemma failed_authentication_aborts_witness :
  loginFails Samples.offlineWorld = true
  /\ detailRequests
       (fetchTeachingContent Samples.cet Samples.offlineWorld
          (utcMidnight 2025 3 10) (utcMidnight 2025 3 14)) = []
  /\ filter isWriteFile
       (fetchTeachingContent Samples.cet Samples.offlineWorld
          (utcMidnight 2025 3 10) (utcMidnight 2025 3 14)) = [].
Proof.
  split; [reflexivity|].
  destruct (failed_authentication_aborts Samples.cet Samples.offlineWorld
              (utcMidnight 2025 3 10) (utcMidnight 2025 3 14)
              (or_introl eq_refl))
    as (ex & _ & Hrequests & Hfile).
  split; assumption.
Defined.

(** The run of the school that can not be reached. *)
Example run_without_login :
  fetchTeachingContent Samples.cet Samples.offlineWorld
    (utcMidnight 2025 3 10) (utcMidnight 2025 3 14)
  = [Fetch LoginRequest;
     ConsoleError "An error occurred: TypeError: fetch failed"].
Proof. reflexivity. Qed.

(** X7.  [main] sends a request exactly when both inputs are
    dates and the start is not after the end; then it does what
    [fetchTeachingContent] does for the two dates (equal dates
    included).  When an input is not a date, its only output is the
    line about the date format. *)
Theorem main_sends_requests_iff_dates_are_valid
    (zone : JsDate.Zone) (parseDate : string -> option Z) (w : World)
    (startDateInput endDateInput : string) :
  ((exists request,
       In (Fetch request)
          (main zone parseDate w startDateInput endDateInput))
   <-> (exists startDate endDate,
          parseDate startDateInput = Some startDate
          /\ parseDate endDateInput = Some endDate
          /\ startDate <= endDate))
  /\ (parseDate startDateInput = None \/ parseDate endDateInput = None ->
      main zone parseDate w startDateInput endDateInput
      = [ConsoleError
           "Error: Invalid date format. Please use an valid date as YYYY-MM-DD."])
  /\ (forall startDate endDate,
        parseDate startDateInput = Some startDate ->
        parseDate endDateInput = Some endDate ->
        startDate <= endDate ->
        main zone parseDate w startDateInput endDateInput
        = fetchTeachingContent zone w startDate endDate).
Proof.
  unfold main, promptUserForTimeframe.
  destruct (parseDate startDateInput) as [startDate|];
    destruct (parseDate endDateInput) as [endDate|].
  - destruct (Z.gtb_spec startDate endDate) as [Hgt|Hle]; split.
    + split.
      * intros [request [H|[]]]. discriminate H.
      * intros (s & e & [= <-] & [= <-] & Hle). lia.
    + split; [intros [H|H]; discriminate H|].
      intros s e [= <-] [= <-] Hle. lia.
    + split.
      * intros _. exists startDate, endDate. repeat split. exact Hle.
      * intros _.
        destruct (fetchTeachingContent_starts_with_login zone w startDate
                    endDate) as [rest ->].
        exists LoginRequest. left. reflexivity.
    + split; [intros [H|H]; discriminate H|].
      intros s e [= <-] [= <-] _. reflexivity.
  - split; [split|split].
    + intros [request [H|[]]]. discriminate H.
    + intros (s & e & _ & H & _). discriminate H.
    + reflexivity.
    + intros s e _ H. discriminate H.
  - split; [split|split].
    + intros [request [H|[]]]. discriminate H.
    + intros (s & e & H & _). discriminate H.
    + reflexivity.
    + intros s e H. discriminate H.
  - split; [split|split].
    + intros [request [H|[]]]. discriminate H.
    + intros (s & e & H & _). discriminate H.
    + reflexivity.
    + intros s e H. discriminate H.
Qed.

(** X8.  In a zone of constant offset the step
    [setDate(getDate() + 1)] moves the date by 86400000 ms, also across
    the end of a month or a year: the local day number grows by one
    and the clock stays. *)
Theorem next_day_is_one_day_later (tza t : Z) :
  nextDay tza t = t + JsDate.msPerDay
  /\ localDay tza (nextDay tza t) = localDay tza t + 1
  /\ JsDate.getHours tza (nextDay tza t) = JsDate.getHours tza t
  /\ JsDate.getMinutes tza (nextDay tza t) = JsDate.getMinutes tza t.
Proof.
  rewrite nextDay_shift.
  unfold localDay, JsDate.getHours, JsDate.getMinutes, JsDate.HourFromTime,
    JsDate.MinFromTime, JsDate.Day, JsDate.LocalTime, JsDate.msPerDay,
    JsDate.msPerHour, JsDate.msPerMinute,
    JsDate.offsetAt, JsDate.offsetOfLocal;
    cbn [JsDate.standardOffset JsDate.summerTime JsDate.fixedOffset].
  repeat split; Z.to_euclidean_division_equations; lia.
Qed.

(** X9.  In a zone of constant offset, when the end date is a whole
    number of days after the start date (as for two inputs
    [YYYY-MM-DD]), the written document has the heading of the start
    date and the heading of the end date, each with the weekday and the
    date of its day: the range is inclusive. *)
Theorem range_includes_both_ends
    (tza : Z) (w : World) (startDate endDate : Z) (events : list Event) :
  tryFetchTeachingContent tza w startDate endDate = (events, None) ->
  startDate <= endDate ->
  (endDate - startDate) mod JsDate.msPerDay = 0 ->
  exists path document,
    In (WriteFile path document) events
    /\ In (headingOfDay (localDay tza startDate)) document
    /\ In (headingOfDay (localDay tza endDate)) document.
Proof.
  intros Hrun Hle Hmod.
  destruct (run_in_days tza w startDate endDate events Hrun)
    as (dir & _ & ->).
  do 2 eexists. split.
  { right. right. apply in_or_app. right. left. reflexivity. }
  assert (Hin : forall day,
             In day (daysFrom (numberOfDays startDate endDate) startDate) ->
             In (headingOfDay (localDay tza day))
                (flat_map (fun day => fst (processDay tza w day))
                   (daysFrom (numberOfDays startDate endDate) startDate))).
  { intros day Hday. apply in_flat_map. exists day. split; [exact Hday|].
    rewrite processDay_paragraphs, dayHeading_of_day. left. reflexivity. }
  assert (Hn : numberOfDays startDate endDate
               = Z.to_nat ((endDate - startDate) / JsDate.msPerDay + 1)).
  { unfold numberOfDays. destruct (Z.leb_spec startDate endDate); [reflexivity|lia]. }
  assert (Hq : 0 <= (endDate - startDate) / JsDate.msPerDay)
    by (apply Z.div_pos; unfold JsDate.msPerDay; lia).
  split; right; right; apply Hin; rewrite daysFrom_steps; apply in_map_iff.
  - exists O. split; [lia|]. apply in_seq. lia.
  - exists (Z.to_nat ((endDate - startDate) / JsDate.msPerDay)). split.
    + rewrite Z2Nat.id by exact Hq. unfold JsDate.msPerDay in *.
      Z.to_euclidean_division_equations; lia.
    + apply in_seq. lia.
Qed.

Lemma range_includes_both_ends_witness :
  exists path document,
    In (WriteFile path document)
       (fst (tryFetchTeachingContent Samples.cet Samples.quietWorld
               (utcMidnight 2025 3 10) (utcMidnight 2025 3 14)))
    /\ In "Montag, 10. März 2025:" (map textOf document)
    /\ In "Freitag, 14. März 2025:" (map textOf document).
Proof.
  destruct (range_includes_both_ends Samples.cet Samples.quietWorld
              (utcMidnight 2025 3 10) (utcMidnight 2025 3 14)
              (fst (tryFetchTeachingContent Samples.cet Samples.quietWorld
                      (utcMidnight 2025 3 10) (utcMidnight 2025 3 14))))
    as (path & document & Hwrite & Hstart & Hend).
  - vm_compute. reflexivity.
  - vm_compute. discriminate.
  - vm_compute. reflexivity.
  - exists path, document. split; [exact Hwrite|].
    apply (in_map textOf) in Hstart. apply (in_map textOf) in Hend.
    vm_compute in Hstart. vm_compute in Hend.
    split; [exact Hstart|exact Hend].
Defined.

(** ** More on the object of a day *)

Section MoreDay.

Import JsObject JsObjectFacts JsSetFacts.

Variable zone : JsDate.Zone.

Lemma In_fold_add l acc x :
  In x (fold_left JsSet.add l acc) <-> In x acc \/ In x l.
Proof.
  revert acc. induction l as [|y l IH]; intros acc; simpl; [tauto|].
  rewrite IH, In_add. split; intros H; intuition (subst; auto).
Qed.

(** The object of a day, by the insertions that took effect. *)
Lemma day_object w lessons :
  let ds := fst (processLessons zone w JsObject.empty lessons) in
  let lines := dayLines zone w lessons in
  WellFormed ds
  /\ map fst ds = firstSeen (map fst lines)
  /\ (forall k, linesOfSubject ds k = firstSeen (linesOf k lines)).
Proof.
  intros ds lines.
  pose proof (processLessons_store zone w lessons JsObject.empty
                WellFormed_empty) as Hstore.
  fold lines in Hstore. fold ds in Hstore.
  destruct (groupAll_success _ _ _ Hstore) as [Hkeys Hlines].
  split; [|split].
  - unfold ds. apply processLessons_WellFormed, WellFormed_empty.
  - rewrite Hkeys. apply fold_add_empty.
  - intros k. rewrite Hlines. apply fold_add_empty.
Qed.

Lemma NoDup_filter_keys (f : string * JsSet.t -> bool) (o : JsObject.t) :
  NoDup (map fst o) -> NoDup (map fst (filter f o)).
Proof.
  induction o as [|p o IH]; simpl; intros Hn; [constructor|].
  inversion Hn as [|? ? Hnot Hrest]; subst.
  destruct (f p); simpl; [|apply IH; exact Hrest].
  constructor; [|apply IH; exact Hrest].
  intros Hin. apply Hnot. apply in_map_iff in Hin.
  destruct Hin as [q [Hq Hin]]. apply filter_In in Hin.
  apply in_map_iff. exists q. split; [exact Hq|apply Hin].
Qed.

Lemma NoDup_insertIndexed n k s l :
  ~ In k (map (fun x => fst (snd x)) l) ->
  NoDup (map (fun x => fst (snd x)) l) ->
  NoDup (map (fun x => fst (snd x)) (insertIndexed n (k, s) l)).
Proof.
  induction l as [|[m [k' s']] l IH]; simpl; intros Hnot Hn.
  - constructor; [intros []|constructor].
  - destruct (n <? m); simpl.
    + constructor; [exact Hnot|exact Hn].
    + inversion Hn as [|? ? Hnot' Hrest]; subst.
      constructor.
      * intros Hin. apply in_map_iff in Hin.
        destruct Hin as [[n' [k'' s'']] [Heq Hin]]. simpl in Heq. subst k''.
        apply In_insertIndexed in Hin. destruct Hin as [Hin|Hin].
        -- injection Hin as _ -> _. apply Hnot. left. reflexivity.
        -- apply Hnot'. apply in_map_iff.
           exists (n', (k', s'')). split; [reflexivity|exact Hin].
      * apply IH; [|exact Hrest].
        intros Hin. apply Hnot. right. exact Hin.
Qed.

Lemma NoDup_index_keys o :
  NoDup (map fst o) ->
  NoDup (map (fun x => fst (snd x)) (indexProperties o)).
Proof.
  induction o as [|[k s] o IH]; simpl; intros Hn; [constructor|].
  inversion Hn as [|? ? Hnot Hrest]; subst.
  destruct (JsString.arrayIndex k) as [n|] eqn:E; [|apply IH; exact Hrest].
  apply NoDup_insertIndexed; [|apply IH; exact Hrest].
  intros Hin. apply In_index_keys in Hin. apply Hnot. apply Hin.
Qed.

(** [Object.entries] lists every key once. *)
Lemma NoDup_entries_keys o :
  NoDup (map fst o) -> NoDup (map fst (entries o)).
Proof.
  intros Hn. unfold entries. rewrite map_app, map_map.
  apply NoDup_app.
  - apply NoDup_index_keys. exact Hn.
  - apply NoDup_filter_keys. exact Hn.
  - intros k Hin Hin'. apply In_index_keys in Hin. destruct Hin as [_ Hidx].
    apply in_map_iff in Hin'. destruct Hin' as [[k' s] [Heq Hin']].
    simpl in Heq. subst k'. apply filter_In in Hin'.
    destruct Hin' as [_ Hplain]. unfold isIndexKey in Hplain.
    unfold plainName in Hidx. simpl in Hplain.
    destruct (JsString.arrayIndex k); discriminate.
Qed.

Lemma emittedSubjects_of_day heading (blocks : list (string * JsSet.t)) :
  isSubjectHeading heading = false ->
  emittedSubjects (heading :: flat_map renderSubject blocks ++ [emptyLine])
  = map fst blocks.
Proof.
  intros Hh. unfold emittedSubjects. cbn [filter]. rewrite Hh.
  rewrite filter_app. cbn [filter]. change (isSubjectHeading emptyLine) with false.
  rewrite app_nil_r.
  induction blocks as [|[k s] blocks IH]; [reflexivity|].
  cbn [flat_map]. rewrite filter_app, map_app, IH.
  unfold renderSubject. cbn [fst snd filter].
  change (isSubjectHeading (subjectHeading k)) with true. cbn [map app].
  change (firstText (subjectHeading k)) with k.
  replace (filter isSubjectHeading (map bulletLine (JsSet.values s)))
    with (@nil Paragraph); [reflexivity|].
  induction (JsSet.values s) as [|x l IHl]; [reflexivity|].
  cbn [map filter]. change (isSubjectHeading (bulletLine x)) with false.
  exact IHl.
Qed.

Lemma lineOf_nonempty e : lineOf zone e <> EmptyString.
Proof.
  unfold lineOf, canceledText, teachingContentOr.
  destruct (String.eqb (status e) "CANCELLED"); [simpl; discriminate|].
  destruct (teachingContent e) as [c|]; [|discriminate].
  destruct (String.eqb c "") eqn:E; [discriminate|].
  apply String.eqb_neq in E. exact E.
Qed.

Lemma subjectOf_not_long e s : subjectOf e = Some s -> s <> lf8LongName.
Proof.
  unfold subjectOf. destruct (subjectLongName e) as [name|]; [|discriminate].
  destruct (String.eqb name lf8LongName) eqn:E; intros [= <-].
  - intros H. vm_compute in H. discriminate H.
  - apply String.eqb_neq. exact E.
Qed.

Lemma In_insertedLines p lines : In p (insertedLines lines) -> In p lines.
Proof.
  induction lines as [|[s t] lines IH]; simpl; [tauto|].
  destruct (inherited s); [intros []|].
  intros [H|H]; [left; exact H|right; apply IH; exact H].
Qed.

(** Every insertion of a day comes from an entry of an answer. *)
Lemma In_dayLines w lessons s t :
  In (s, t) (dayLines zone w lessons) ->
  exists e, subjectOf e = Some s /\ t = lineOf zone e.
Proof.
  unfold dayLines. rewrite in_flat_map. intros [lesson [_ Hin]].
  apply In_insertedLines in Hin. unfold linesOfEntries in Hin.
  apply in_flat_map in Hin. destruct Hin as [e [_ Hin]].
  exists e. destruct (subjectOf e) as [s'|]; [|destruct Hin].
  destruct Hin as [[= <- <-]|[]]. split; reflexivity.
Qed.

Lemma In_linesOf k t lines : In t (linesOf k lines) <-> In (k, t) lines.
Proof.
  unfold linesOf. rewrite in_map_iff. split.
  - intros [[k' t'] [Heq Hin]]. simpl in Heq. subst t'.
    apply filter_In in Hin. destruct Hin as [Hin Hk]. simpl in Hk.
    apply String.eqb_eq in Hk. subst k'. exact Hin.
  - intros Hin. exists (k, t). split; [reflexivity|].
    apply filter_In. split; [exact Hin|apply String.eqb_refl].
Qed.

End MoreDay.

(** X10.  The paragraphs of a day are the heading of the day, one
    block per subject, and the empty line.  No subject has two
    blocks, every block has at least one bullet line, no block shows
    a text twice, and no bullet line is empty. *)
Theorem day_blocks (zone : JsDate.Zone) (w : World) (currentDate : Z) :
  exists blocks : list (string * list string),
    fst (processDay zone w currentDate)
    = dayHeading zone currentDate
      :: flat_map renderSubject blocks ++ [emptyLine]
    /\ emittedSubjects (fst (processDay zone w currentDate)) = map fst blocks
    /\ NoDup (map fst blocks)
    /\ Forall (fun b => snd b <> [] /\ NoDup (snd b)
                        /\ ~ In EmptyString (snd b))
              blocks.
Proof.
  set (lessons := lessonsOfDay zone currentDate).
  set (ds := fst (processLessons zone w JsObject.empty lessons)).
  destruct (day_object zone w lessons) as (Hwf & Hkeys & Hlines).
  fold ds in Hwf, Hkeys, Hlines.
  assert (Hday : fst (processDay zone w currentDate)
                 = dayHeading zone currentDate
                   :: flat_map renderSubject (JsObject.entries ds)
                   ++ [emptyLine])
    by (rewrite processDay_paragraphs; reflexivity).
  exists (JsObject.entries ds). split; [exact Hday|]. split; [|split].
  - rewrite Hday. apply emittedSubjects_of_day. reflexivity.
  - apply NoDup_entries_keys. apply Hwf.
  - apply Forall_forall. intros [k s] Hin. simpl.
    apply (proj1 (In_entries _ _)) in Hin.
    assert (Hs : s = firstSeen (linesOf k (dayLines zone w lessons))).
    { rewrite <- Hlines. unfold linesOfSubject.
      rewrite (getOwn_of_In ds k s (proj1 Hwf) Hin). reflexivity. }
    split; [|split].
    + assert (Hk : In k (map fst (dayLines zone w lessons))).
      { apply (proj1 (In_firstSeen _ _)). rewrite <- Hkeys.
        apply (in_map fst) in Hin. exact Hin. }
      apply in_map_iff in Hk. destruct Hk as [[k' t] [Heq Hk]].
      simpl in Heq. subst k'.
      assert (Ht : In t s)
        by (rewrite Hs; apply (proj2 (In_firstSeen _ _)),
              (proj2 (In_linesOf _ _ _)); exact Hk).
      intros ->. destruct Ht.
    + destruct Hwf as [_ [Hsets _]]. rewrite Forall_forall in Hsets.
      apply (Hsets _ Hin).
    + rewrite Hs. intros Hempty.
      apply (proj1 (In_firstSeen _ _)) in Hempty.
      apply (proj1 (In_linesOf _ _ _)) in Hempty.
      apply In_dayLines in Hempty. destruct Hempty as [e [_ He]].
      symmetry in He. apply (lineOf_nonempty zone e He).
Qed.

(** X11.  The long name of LF 8 is never the text of a subject
    heading: an entry with that long name is grouped under the short
    name. *)
Theorem lf8_long_name_is_never_a_subject
    (zone : JsDate.Zone) (w : World) (currentDate : Z) :
  ~ In lf8LongName (emittedSubjects (fst (processDay zone w currentDate)))
  /\ (forall daySubjects entry,
        subjectLongName entry = Some lf8LongName ->
        processEntry zone daySubjects entry
        = groupBySubject daySubjects lf8ShortName (lineOf zone entry)).
Proof.
  split.
  - set (lessons := lessonsOfDay zone currentDate).
    destruct (day_object zone w lessons) as (Hwf & Hkeys & _).
    rewrite processDay_paragraphs. unfold renderSubjects.
    rewrite emittedSubjects_of_day by reflexivity.
    fold lessons. intros Hin.
    assert (Hk : In lf8LongName
                    (map fst (fst (processLessons zone w JsObject.empty
                                     lessons)))).
    { apply in_map_iff in Hin. destruct Hin as [[k s] [Heq Hin]].
      apply (proj1 (In_entries _ _)) in Hin.
      apply in_map_iff. exists (k, s). split; [exact Heq|exact Hin]. }
    rewrite Hkeys in Hk. apply (proj1 (In_firstSeen _ _)) in Hk.
    apply in_map_iff in Hk. destruct Hk as [[k t] [Heq Hk]].
    simpl in Heq. subst k.
    apply In_dayLines in Hk. destruct Hk as [e [He _]].
    apply (subjectOf_not_long e _ He). reflexivity.
  - intros daySubjects entry Hname.
    rewrite processEntry_as_group. unfold subjectOf. rewrite Hname.
    rewrite String.eqb_refl. reflexivity.
Qed.

(** ** The colour of a cancellation line *)

Section Colour.

Import JsDate JsString.

Variable zone : JsDate.Zone.

Lemma hasChar_app c a b :
  hasChar c (a ++ b)%string = hasChar c a || hasChar c b.
Proof.
  induction a as [|x a IH]; simpl; [reflexivity|].
  rewrite IH, orb_assoc. reflexivity.
Qed.

(** A string that contains a word contains the first letter of it. *)
Lemma includes_hasChar c needle hay :
  includes (String c needle) hay = true -> hasChar c hay = true.
Proof.
  intros H. apply includes_spec in H. destruct H as (before & after & ->).
  rewrite hasChar_app. simpl. rewrite Ascii.eqb_refl.
  apply orb_true_r.
Qed.

Lemma clock_has_no_K n :
  0 <= n <= 59 -> hasChar "K" (padStart2 (ofZ n)) = false.
Proof.
  intros H. rewrite <- (Z2Nat.id n) by lia.
  assert (Hk : (Z.to_nat n < 60)%nat) by lia.
  generalize dependent (Z.to_nat n). clear H. intros k Hk.
  do 60 (destruct k as [|k]; [vm_compute; reflexivity|]).
  lia.
Qed.

Lemma toLocaleTimeString_has_no_K d :
  hasChar "K" (toLocaleTimeString zone d) = false.
Proof.
  destruct d as [t|]; [|reflexivity].
  unfold toLocaleTimeString. rewrite !hasChar_app.
  rewrite !clock_has_no_K; [reflexivity| |].
  - unfold getMinutes, MinFromTime.
    pose proof (Z.mod_pos_bound (LocalTime zone t / msPerMinute) 60). lia.
  - unfold getHours, HourFromTime.
    pose proof (Z.mod_pos_bound (LocalTime zone t / msPerHour) 24). lia.
Qed.

Lemma canceledText_has_no_K e : hasChar "K" (canceledText zone e) = false.
Proof.
  unfold canceledText. rewrite !hasChar_app, !toLocaleTimeString_has_no_K.
  reflexivity.
Qed.

End Colour.

(** X12.  The line of a cancelled entry never contains "Kein
    Lehrstoff", also when its times are invalid: its bullet is
    black. *)
Theorem cancellation_line_is_black (zone : JsDate.Zone) (entry : Entry) :
  JsString.includes "Kein Lehrstoff" (canceledText zone entry) = false
  /\ map run_color (par_children (bulletLine (canceledText zone entry)))
     = [Some "000000"].
Proof.
  assert (H : JsString.includes "Kein Lehrstoff" (canceledText zone entry)
              = false).
  { destruct (JsString.includes "Kein Lehrstoff" (canceledText zone entry))
      eqn:E; [|reflexivity].
    apply includes_hasChar in E. rewrite canceledText_has_no_K in E.
    discriminate E. }
  split; [exact H|].
  unfold bulletLine. cbn [par_children map run_color]. rewrite H. reflexivity.
Qed.

(** ** The line of an entry, from the entry to the rendering *)

(** A line that was inserted under a subject is a bullet of the
    rendering. *)
Lemma inserted_line_is_rendered (daySubjects : JsObject.t)
    (subject text : string) :
  In text (linesOfSubject daySubjects subject) ->
  In (bulletLine text) (renderSubjects daySubjects).
Proof.
  unfold linesOfSubject, renderSubjects.
  destruct (JsObject.getOwn daySubjects subject) as [s|] eqn:Hown;
    [|intros []].
  intros Hin. apply in_flat_map. exists (subject, s). split.
  - apply In_entries, JsObjectFacts.getOwn_In, Hown.
  - right. apply in_map. exact Hin.
Qed.

(** X22.  The line of a cancelled entry, in a zone of constant
    offset.  A cancelled entry with a subject name hands the block
    "Group by subject" the line [Entfallen (HH:MM - HH:MM)] made of
    the hour and minute of its own start and end (24:00 is shown as
    00:00, and a date-time that [new Date] does not read as "Invalid
    Date"), whatever the object holds.  For a subject that is not
    named like a member of [Object.prototype] the block does not
    throw, the line joins the subject's set, no other set changes, and
    the line is a black bullet of the rendering. *)
Theorem cancelled_entry_line
    (tza : Z) (daySubjects : JsObject.t) (entry : Entry) (name : string) :
  subjectLongName entry = Some name ->
  status entry = "CANCELLED" ->
  let subject := if String.eqb name lf8LongName then lf8ShortName else name in
  let line :=
    ("Entfallen (" ++ shownTime (startDateTime entry) ++ " - "
     ++ shownTime (endDateTime entry) ++ ")")%string in
  let after := fst (processEntry tza daySubjects entry) in
  processEntry tza daySubjects entry = groupBySubject daySubjects subject line
  /\ (JsObject.inherited subject = false ->
      snd (processEntry tza daySubjects entry) = None
      /\ linesOfSubject after subject
         = JsSet.add (linesOfSubject daySubjects subject) line
      /\ (forall other, other <> subject ->
            JsObject.getOwn after other = JsObject.getOwn daySubjects other)
      /\ In {| par_text := None;
               par_children :=
                 [ {| run_text := line;
                      run_color := Some "000000";
                      run_underline := false |} ];
               par_heading := None;
               par_alignment := None;
               par_numbering := Some ("bullet-points", 0) |}
            (renderSubjects after)).
Proof.
  intros Hname Hstatus subject line after.
  assert (Hline : canceledText tza entry = line)
    by (unfold canceledText; rewrite !toLocaleTimeString_clock; reflexivity).
  assert (Hstep : processEntry tza daySubjects entry
                  = groupBySubject daySubjects subject line).
  { unfold processEntry. rewrite Hname, Hstatus. simpl String.eqb.
    fold subject. rewrite Hline. reflexivity. }
  split; [exact Hstep|].
  intros Hi. unfold after. rewrite Hstep.
  destruct (groupBySubject_adds daySubjects subject line Hi)
    as (Hnone & Hlines & Hothers).
  split; [exact Hnone|]. split; [exact Hlines|]. split; [exact Hothers|].
  assert (Hin : In (bulletLine line)
                   (renderSubjects
                      (fst (groupBySubject daySubjects subject line)))).
  { apply (inserted_line_is_rendered _ subject). rewrite Hlines.
    apply JsSetFacts.In_add. right. reflexivity. }
  assert (Hblack : JsString.includes "Kein Lehrstoff" line = false).
  { destruct (JsString.includes "Kein Lehrstoff" line) eqn:E; [|reflexivity].
    apply includes_hasChar in E. rewrite <- Hline in E.
    rewrite canceledText_has_no_K in E. discriminate E. }
  unfold bulletLine in Hin. rewrite Hblack in Hin. exact Hin.
Qed.

Lemma cancelled_entry_line_witness :
  map textOf
    (renderSubjects
       (fst (processEntry Samples.cet JsObject.empty Samples.cancelled)))
  = ["Mathe"; "Entfallen (08:00 - 09:30)"].
Proof.
  destruct (cancelled_entry_line Samples.cet JsObject.empty Samples.cancelled
              "Mathe" eq_refl eq_refl) as [Hstep _].
  rewrite Hstep. vm_compute. reflexivity.
Defined.

(** X23.  An entry that is not cancelled and has no teaching content
    hands the block "Group by subject" the fixed line "Kein Lehrstoff
    ...".  For a subject that is not named like a member of
    [Object.prototype] that line joins the subject's set, no other set
    changes, and the line is a red bullet of the rendering.  In the
    rendering of any object a bullet line is red when its text
    contains "Kein Lehrstoff" and black otherwise. *)
Theorem missing_content_line_and_colours
    (zone : JsDate.Zone) (daySubjects : JsObject.t) (entry : Entry)
    (name : string) :
  subjectLongName entry = Some name ->
  status entry <> "CANCELLED" ->
  teachingContent entry = None \/ teachingContent entry = Some EmptyString ->
  let subject := if String.eqb name lf8LongName then lf8ShortName else name in
  let line :=
    "Kein Lehrstoff durch die Lehrkraft angegeben! Bitte manuell eintragen!" in
  let after := fst (processEntry zone daySubjects entry) in
  processEntry zone daySubjects entry = groupBySubject daySubjects subject line
  /\ (JsObject.inherited subject = false ->
      snd (processEntry zone daySubjects entry) = None
      /\ linesOfSubject after subject
         = JsSet.add (linesOfSubject daySubjects subject) line
      /\ (forall other, other <> subject ->
            JsObject.getOwn after other = JsObject.getOwn daySubjects other)
      /\ In {| par_text := None;
               par_children :=
                 [ {| run_text := line;
                      run_color := Some "FF0000";
                      run_underline := false |} ];
               par_heading := None;
               par_alignment := None;
               par_numbering := Some ("bullet-points", 0) |}
            (renderSubjects after))
  /\ (forall (o : JsObject.t) (p : Paragraph),
        In p (renderSubjects o) -> isBullet p = true ->
        map run_color (par_children p)
        = [Some (if JsString.includes "Kein Lehrstoff" (firstText p)
                 then "FF0000" else "000000")]).
Proof.
  intros Hname Hstatus Hcontent subject line after.
  assert (Hstep : processEntry zone daySubjects entry
                  = groupBySubject daySubjects subject line).
  { unfold processEntry. rewrite Hname.
    apply String.eqb_neq in Hstatus. rewrite Hstatus. fold subject.
    unfold teachingContentOr.
    destruct Hcontent as [-> | ->]; reflexivity. }
  split; [exact Hstep|]. split.
  - intros Hi. unfold after. rewrite Hstep.
    destruct (groupBySubject_adds daySubjects subject line Hi)
      as (Hnone & Hlines & Hothers).
    split; [exact Hnone|]. split; [exact Hlines|]. split; [exact Hothers|].
    apply (inserted_line_is_rendered _ subject line). rewrite Hlines.
    apply JsSetFacts.In_add. right. reflexivity.
  - intros o p Hp Hb.
    destruct (bullets_of_renderSubjects o p Hp Hb) as [content ->].
    reflexivity.
Qed.

Lemma missing_content_line_and_colours_witness :
  map textOf
    (renderSubjects
       (fst (processEntry Samples.cet JsObject.empty Samples.silent)))
  = ["Mathe";
     "Kein Lehrstoff durch die Lehrkraft angegeben! Bitte manuell eintragen!"].
Proof.
  destruct (missing_content_line_and_colours Samples.cet JsObject.empty
              Samples.silent "Mathe" eq_refl
              ltac:(simpl; discriminate) (or_introl eq_refl))
    as [Hstep _].
  rewrite Hstep. vm_compute. reflexivity.
Defined.

(** ** Answers that repeat, and lines that stay *)

Section Repeat.

Import JsObject JsObjectFacts JsSetFacts.

Variable zone : JsDate.Zone.

Lemma replace_same o k s : getOwn o k = Some s -> replace o k s = o.
Proof.
  induction o as [|[k' s'] o IH]; simpl; [reflexivity|].
  destruct (String.eqb k k') eqn:E.
  - intros [= ->]. reflexivity.
  - intros H. rewrite (IH H). reflexivity.
Qed.

Lemma groupBySubject_present ds s t :
  In t (linesOfSubject ds s) -> groupBySubject ds s t = (ds, None).
Proof.
  unfold linesOfSubject. destruct (getOwn ds s) as [old|] eqn:H; [|intros []].
  intros Hin. unfold JsSet.values in Hin.
  rewrite (groupBySubject_own _ _ _ _ H).
  rewrite (add_present old t Hin), (replace_same _ _ _ H). reflexivity.
Qed.

Lemma groupAll_present lines :
  forall ds,
    (forall s t, In (s, t) lines -> In t (linesOfSubject ds s)) ->
    groupAll ds lines = (ds, None).
Proof.
  induction lines as [|[s t] lines IH]; intros ds H; [reflexivity|].
  simpl. rewrite groupBySubject_present by (apply H; left; reflexivity).
  apply IH. intros s' t' Hin. apply H. right. exact Hin.
Qed.

Lemma groupAll_again ds lines :
  WellFormed ds ->
  fst (groupAll (fst (groupAll ds lines)) lines) = fst (groupAll ds lines).
Proof.
  intros Hwf.
  pose proof (groupAll_insertedLines lines ds Hwf) as Hfirst.
  set (ds1 := fst (groupAll ds lines)) in *.
  assert (Hwf1 : WellFormed ds1) by (apply groupAll_WellFormed; exact Hwf).
  pose proof (groupAll_insertedLines lines ds1 Hwf1) as Hsecond.
  rewrite groupAll_present in Hsecond.
  - injection Hsecond as Hsecond. symmetry. exact Hsecond.
  - intros s t Hin.
    destruct (groupAll_success _ _ _ Hfirst) as [_ Hlines].
    rewrite Hlines. apply In_fold_add. right.
    apply In_linesOf. exact Hin.
Qed.

Lemma groupBySubject_appends ds s t k :
  exists tail,
    linesOfSubject (fst (groupBySubject ds s t)) k
    = linesOfSubject ds k ++ tail.
Proof.
  unfold linesOfSubject.
  destruct (getOwn ds s) as [old|] eqn:H.
  - rewrite (groupBySubject_own _ _ _ _ H). simpl fst.
    rewrite getOwn_replace. destruct (String.eqb k s) eqn:E.
    + apply String.eqb_eq in E. subst k. rewrite H.
      apply add_keeps_order.
    + exists []. rewrite app_nil_r. reflexivity.
  - destruct (inherited s) eqn:Hi.
    + rewrite (groupBySubject_inherited _ _ _ H Hi).
      exists []. rewrite app_nil_r. reflexivity.
    + rewrite (groupBySubject_new _ _ _ H Hi). simpl fst.
      rewrite (getOwn_app _ _ _ _ H). destruct (String.eqb k s) eqn:E.
      * apply String.eqb_eq in E. subst k. rewrite H. exists [t]. reflexivity.
      * exists []. rewrite app_nil_r. reflexivity.
Qed.

Lemma groupBySubject_keeps_keys ds s t :
  exists tail, map fst (fst (groupBySubject ds s t)) = map fst ds ++ tail.
Proof.
  rewrite groupBySubject_keys.
  destruct (JsSet.has (map fst ds) s || inherited s).
  - exists []. rewrite app_nil_r. reflexivity.
  - exists [s]. reflexivity.
Qed.

Lemma groupAll_appends lines :
  forall ds k,
    (exists tail,
        linesOfSubject (fst (groupAll ds lines)) k
        = linesOfSubject ds k ++ tail)
    /\ (exists tail, map fst (fst (groupAll ds lines)) = map fst ds ++ tail).
Proof.
  induction lines as [|[s t] lines IH]; intros ds k.
  - split; exists []; rewrite app_nil_r; reflexivity.
  - simpl.
    destruct (groupBySubject_appends ds s t k) as [tail1 H1].
    destruct (groupBySubject_keeps_keys ds s t) as [keys1 K1].
    destruct (groupBySubject ds s t) as [ds1 [ex|]]; simpl in *.
    + split; [exists tail1; exact H1|exists keys1; exact K1].
    + destruct (IH ds1 k) as [[tail2 H2] [keys2 K2]]. split.
      * exists (tail1 ++ tail2). rewrite H2, H1, app_assoc. reflexivity.
      * exists (keys1 ++ keys2). rewrite K2, K1, app_assoc. reflexivity.
Qed.

Lemma processLesson_as_group w ds lesson :
  fst (processLesson zone w ds lesson)
  = fst (groupAll ds (linesOfEntries zone (answeredEntries (detail w lesson)))).
Proof. rewrite processLesson_store, tryLesson_store. reflexivity. Qed.

End Repeat.

(** X13.  When a slot gets the answer an earlier slot got (a
    lesson that spans both hours), the second slot changes nothing in
    the object of the day. *)
Theorem repeated_answer_adds_nothing
    (zone : JsDate.Zone) (w : World) (daySubjects : JsObject.t) (first second : Lesson) :
  WellFormed daySubjects ->
  detail w second = detail w first ->
  fst (processLesson zone w (fst (processLesson zone w daySubjects first))
         second)
  = fst (processLesson zone w daySubjects first).
Proof.
  intros Hwf Hsame.
  rewrite !processLesson_as_group, Hsame.
  apply groupAll_again. exact Hwf.
Qed.

(** X14.  Processing lessons only appends: the lines a subject
    had before are still there, in the same order and at the start,
    and so are the subjects, whatever the lookups answer and whatever
    is thrown. *)
Theorem lines_are_only_appended
    (zone : JsDate.Zone) (w : World) (daySubjects : JsObject.t) (lessons : list Lesson)
    (subject : string) :
  (exists tail,
      linesOfSubject (fst (processLessons zone w daySubjects lessons)) subject
      = linesOfSubject daySubjects subject ++ tail)
  /\ (exists tail,
        map fst (fst (processLessons zone w daySubjects lessons))
        = map fst daySubjects ++ tail).
Proof.
  revert daySubjects.
  induction lessons as [|lesson rest IH]; intros daySubjects.
  - split; exists []; rewrite app_nil_r; reflexivity.
  - rewrite processLessons_cons. cbn [fst].
    destruct (IH (fst (processLesson zone w daySubjects lesson)))
      as [[tail2 H2] [keys2 K2]].
    rewrite processLesson_as_group in *.
    destruct (groupAll_appends
                (linesOfEntries zone (answeredEntries (detail w lesson)))
                daySubjects subject) as [[tail1 H1] [keys1 K1]].
    split.
    + exists (tail1 ++ tail2). rewrite H2, H1, app_assoc. reflexivity.
    + exists (keys1 ++ keys2). rewrite K2, K1, app_assoc. reflexivity.
Qed.

Lemma repeated_answer_adds_nothing_witness :
  fst (processLesson Samples.cet Samples.doubleLessonWorld
         (fst (processLesson Samples.cet Samples.doubleLessonWorld
                 JsObject.empty
                 (slotOf Samples.cet (utcMidnight 2025 3 10) 8)))
         (slotOf Samples.cet (utcMidnight 2025 3 10) 9))
  = fst (processLesson Samples.cet Samples.doubleLessonWorld
           JsObject.empty (slotOf Samples.cet (utcMidnight 2025 3 10) 8)).
Proof.
  apply (repeated_answer_adds_nothing Samples.cet
           Samples.doubleLessonWorld JsObject.empty).
  - apply WellFormed_empty.
  - reflexivity.
Defined.

(** ** The tenant and the cookie *)

Section Cookie.

Import JsString.

Lemma matchTenantId_unfold s :
  matchTenantId s
  = match (if String.prefix tenantPrefix s then
             match untilQuote (drop (String.length tenantPrefix) s) with
             | (String c value, true) => Some (String c value)
             | _ => None
             end
           else None) with
    | Some tenantId => Some tenantId
    | None =>
        match s with
        | EmptyString => None
        | String _ rest => matchTenantId rest
        end
    end.
Proof. destruct s; reflexivity. Qed.

Lemma drop_app p x : drop (String.length p) (p ++ x)%string = x.
Proof. induction p as [|c p IH]; simpl; [destruct x; reflexivity|exact IH]. Qed.

Lemma untilQuote_spec s :
  hasChar dquote (fst (untilQuote s)) = false
  /\ (if snd (untilQuote s)
      then exists rest, s = (fst (untilQuote s) ++ String dquote rest)%string
      else s = fst (untilQuote s)).
Proof.
  induction s as [|c s IH]; simpl.
  - split; reflexivity.
  - destruct (Ascii.eqb c dquote) eqn:E; simpl.
    + apply Ascii.eqb_eq in E. subst c. split; [reflexivity|].
      exists s. reflexivity.
    + destruct (untilQuote s) as [value closed]. simpl in *.
      destruct IH as [IH1 IH2]. rewrite E, IH1. split; [reflexivity|].
      destruct closed.
      * destruct IH2 as [rest ->]. exists rest. reflexivity.
      * rewrite IH2 at 1. reflexivity.
Qed.

Lemma untilQuote_app v after :
  hasChar dquote v = false ->
  untilQuote (v ++ String dquote after)%string = (v, true).
Proof.
  induction v as [|c v IH]; simpl; intros H.
  - reflexivity.
  - apply orb_false_iff in H. destruct H as [Hc Hv].
    rewrite Hc, (IH Hv). reflexivity.
Qed.

End Cookie.

(** X15.  What the tenant pattern returns is not empty, holds no
    double quote, and stands in the cookie between the text
    Tenant-Id=, a double quote, and a closing double quote. *)
Theorem tenant_id_is_a_quoted_value (s v : string) :
  matchTenantId s = Some v ->
  v <> EmptyString
  /\ hasChar JsString.dquote v = false
  /\ exists before after,
       s = (before ++ tenantPrefix ++ v ++ String JsString.dquote after)%string.
Proof.
  induction s as [|a s IH]; rewrite matchTenantId_unfold.
  - simpl. discriminate.
  - destruct (String.prefix tenantPrefix (String a s)) eqn:Hp.
    + apply prefix_spec in Hp. destruct Hp as [x Hx].
      rewrite Hx at 1. rewrite drop_app.
      pose proof (untilQuote_spec x) as [Hq Hrest].
      destruct (untilQuote x) as [[|c value] [|]]; simpl in *;
        try (intros H; destruct (IH H) as (Hv & Hn & before & after & ->);
             split; [exact Hv|]; split; [exact Hn|];
             exists (String a before), after; reflexivity).
      intros [= <-]. split; [discriminate|]. split; [exact Hq|].
      destruct Hrest as [rest ->]. exists EmptyString, rest.
      rewrite Hx. reflexivity.
    + intros H. destruct (IH H) as (Hv & Hn & before & after & ->).
      split; [exact Hv|]. split; [exact Hn|].
      exists (String a before), after. reflexivity.
Qed.

Lemma tenant_id_is_a_quoted_value_witness :
  exists before after,
    ("x; Tenant-Id=" ++ String JsString.dquote
       ("4711" ++ String JsString.dquote "; y"))%string
    = (before ++ tenantPrefix ++ "4711" ++ String JsString.dquote after)%string.
Proof.
  destruct (tenant_id_is_a_quoted_value
              ("x; Tenant-Id=" ++ String JsString.dquote
                 ("4711" ++ String JsString.dquote "; y"))%string
              "4711" eq_refl) as (_ & _ & H).
  exact H.
Defined.

(** X16.  A cookie that holds Tenant-Id= with a value in double
    quotes, not empty and without a double quote, has a match; when
    the cookie starts with it, the match is that value. *)
Theorem quoted_tenant_id_is_found (before v after : string) :
  v <> EmptyString ->
  hasChar JsString.dquote v = false ->
  (exists found,
      matchTenantId
        (before ++ tenantPrefix ++ v ++ String JsString.dquote after)%string
      = Some found)
  /\ matchTenantId (tenantPrefix ++ v ++ String JsString.dquote after)%string
     = Some v.
Proof.
  intros Hv Hq.
  assert (Hhere : matchTenantId
                    (tenantPrefix ++ v ++ String JsString.dquote after)%string
                  = Some v).
  { rewrite matchTenantId_unfold.
    assert (Hp : String.prefix tenantPrefix
                   (tenantPrefix ++ v ++ String JsString.dquote after)%string
                 = true)
      by (apply prefix_spec; eexists; reflexivity).
    rewrite Hp, drop_app, (untilQuote_app v after Hq).
    destruct v as [|c v]; [congruence|reflexivity]. }
  split; [|exact Hhere].
  induction before as [|a before IH].
  - exists v. exact Hhere.
  - rewrite matchTenantId_unfold.
    match goal with
    | |- context [match ?x with Some _ => _ | None => _ end] =>
        destruct x as [found|]
    end.
    + exists found. reflexivity.
    + exact IH.
Qed.

Lemma quoted_tenant_id_is_found_witness :
  matchTenantId
    (tenantPrefix ++ "4711" ++ String JsString.dquote "; Path=/")%string
  = Some "4711".
Proof.
  apply (quoted_tenant_id_is_found "JSESSIONID=abc; Path=/, " "4711"
           "; Path=/" ltac:(discriminate) eq_refl).
Defined.

Section Split.

Import JsString.

Lemma split_not_empty sep s : split sep s <> [].
Proof.
  destruct s as [|c s]; simpl; [discriminate|].
  destruct (Ascii.eqb c sep); [discriminate|].
  destruct (split sep s); discriminate.
Qed.

(** No piece holds the separator, and a character that the string does
    not hold is in no piece. *)
Lemma split_pieces sep c s :
  Forall (fun p => hasChar sep p = false
                   /\ (hasChar c s = false -> hasChar c p = false))
         (split sep s).
Proof.
  induction s as [|x s IH]; simpl.
  - constructor; [split; reflexivity|constructor].
  - destruct (Ascii.eqb x sep) eqn:E.
    + constructor; [split; reflexivity|].
      eapply Forall_impl; [|exact IH]. intros p [H1 H2]. split; [exact H1|].
      intros H. apply orb_false_iff in H. apply H2, H.
    + pose proof (split_not_empty sep s) as Hne.
      destruct (split sep s) as [|piece pieces]; [congruence|].
      inversion IH as [|? ? [H1 H2] Hrest]; subst.
      constructor.
      * simpl. rewrite E, H1. split; [reflexivity|].
        intros H. apply orb_false_iff in H. destruct H as [Hx Hs].
        rewrite Hx, (H2 Hs). reflexivity.
      * eapply Forall_impl; [|exact Hrest]. intros p [H3 H4].
        split; [exact H3|]. intros H. apply orb_false_iff in H. apply H4, H.
Qed.

(** The first piece is the string up to its first separator. *)
Lemma first_piece sep s :
  s = hd EmptyString (split sep s)
  \/ exists rest, s = (hd EmptyString (split sep s) ++ String sep rest)%string.
Proof.
  induction s as [|x s IH]; simpl.
  - left. reflexivity.
  - destruct (Ascii.eqb x sep) eqn:E.
    + apply Ascii.eqb_eq in E. subst x. right. exists s. reflexivity.
    + pose proof (split_not_empty sep s) as Hne.
      destruct (split sep s) as [|piece pieces]; [congruence|]. simpl in *.
      destruct IH as [IH|[rest IH]].
      * left. rewrite IH at 1. reflexivity.
      * right. exists rest. rewrite IH at 1. reflexivity.
Qed.

Lemma hasChar_join c sep pieces :
  hasChar c sep = false ->
  Forall (fun p => hasChar c p = false) pieces ->
  hasChar c (join sep pieces) = false.
Proof.
  intros Hsep H. unfold join.
  induction H as [|p pieces Hp Hrest IH]; [reflexivity|].
  destruct pieces as [|q pieces]; simpl; [exact Hp|].
  rewrite !hasChar_app, Hp, Hsep. exact IH.
Qed.

Lemma Forall2_map_left {A B : Type} (R : B -> A -> Prop) (f : A -> B)
    (l : list A) :
  (forall x, In x l -> R (f x) x) -> Forall2 R (map f l) l.
Proof.
  induction l as [|x l IH]; simpl; intros H; constructor.
  - apply H. left. reflexivity.
  - apply IH. intros y Hy. apply H. right. exact Hy.
Qed.

End Split.

(** X17.  When the login gives a cookie, the response was ok and
    had a header that is not empty; the cookie is the pieces of the
    header between commas, each cut at its first semicolon, joined by
    "; "; so no part holds a semicolon and the cookie holds no comma. *)
Theorem cookie_keeps_name_value_pairs (w : World) (cookie : string) :
  snd (loginAndGetCookie w) = inr cookie ->
  exists response header parts,
    login w = Resolved response
    /\ login_ok response = true
    /\ login_setCookie response = Some header
    /\ header <> EmptyString
    /\ cookie = JsString.join "; " parts
    /\ Forall2 (fun part piece =>
                  hasChar ";" part = false
                  /\ hasChar "," part = false
                  /\ (piece = part
                      \/ exists rest,
                           piece = (part ++ String ";" rest)%string))
               parts (JsString.split "," header)
    /\ hasChar "," cookie = false.
Proof.
  unfold loginAndGetCookie. simpl.
  destruct (login w) as [m|response] eqn:Hlogin; [discriminate|].
  destruct (login_ok response) eqn:Hok; [|discriminate]. simpl.
  destruct (login_setCookie response) as [header|] eqn:Hheader;
    [|discriminate].
  destruct (String.eqb header "") eqn:E; [discriminate|].
  intros [= <-]. apply String.eqb_neq in E.
  set (first := fun piece => hd EmptyString (JsString.split ";" piece)).
  assert (Hparts :
    Forall2 (fun part piece =>
               hasChar ";" part = false
               /\ hasChar "," part = false
               /\ (piece = part
                   \/ exists rest, piece = (part ++ String ";" rest)%string))
            (map first (JsString.split "," header))
            (JsString.split "," header)).
  { apply Forall2_map_left. intros piece Hpiece.
    pose proof (split_pieces "," "," header) as Hcomma.
    rewrite Forall_forall in Hcomma.
    destruct (Hcomma piece Hpiece) as [Hnocomma _].
    pose proof (split_pieces ";" "," piece) as Hsemi.
    pose proof (split_not_empty ";" piece) as Hne.
    unfold first.
    destruct (JsString.split ";" piece) as [|p ps] eqn:Hsplit; [congruence|].
    inversion Hsemi as [|? ? [H1 H2] _]; subst. simpl.
    split; [exact H1|]. split; [exact (H2 Hnocomma)|].
    pose proof (first_piece ";" piece) as Hfirst.
    rewrite Hsplit in Hfirst. exact Hfirst. }
  exists response, header, (map first (JsString.split "," header)).
  repeat split; try reflexivity; try assumption.
  apply hasChar_join; [reflexivity|].
  apply Forall_forall. intros part Hpart.
  apply in_map_iff in Hpart. destruct Hpart as [piece [<- Hpiece]].
  pose proof (split_pieces "," "," header) as Hcomma.
  rewrite Forall_forall in Hcomma.
  destruct (Hcomma piece Hpiece) as [Hnocomma _].
  pose proof (split_pieces ";" "," piece) as Hsemi.
  pose proof (split_not_empty ";" piece) as Hne.
  unfold first.
  destruct (JsString.split ";" piece) as [|p ps]; [congruence|].
  inversion Hsemi as [|? ? [_ H2] _]; subst. exact (H2 Hnocomma).
Qed.

Lemma cookie_keeps_name_value_pairs_witness :
  hasChar ","
    (JsString.join "; "
       (map (fun piece => hd EmptyString (JsString.split ";" piece))
            (JsString.split "," Samples.cookieHeader)))
  = false.
Proof.
  destruct (cookie_keeps_name_value_pairs Samples.quietWorld _ eq_refl)
    as (_ & _ & _ & _ & _ & _ & _ & _ & _ & H).
  exact H.
Defined.

(** ** The name of the output file *)

Section FileName.

Lemma toLowerCase_app a b :
  toLowerCase (a ++ b) = (toLowerCase a ++ toLowerCase b)%string.
Proof.
  induction a as [|c a IH]; simpl; [reflexivity|]. rewrite IH. reflexivity.
Qed.

Lemma length_append a b :
  String.length (a ++ b) = (String.length a + String.length b)%nat.
Proof.
  induction a as [|c a IH]; simpl; [reflexivity|]. rewrite IH. reflexivity.
Qed.

Lemma endsWith_append a suffix : endsWith suffix (a ++ suffix) = true.
Proof.
  unfold endsWith. rewrite length_append.
  replace (String.length a + String.length suffix - String.length suffix)%nat
    with (String.length a) by lia.
  rewrite drop_app, String.eqb_refl.
  apply andb_true_iff. split; [apply Nat.leb_le; lia|reflexivity].
Qed.

Lemma trimStartFrom_blank s :
  forall fuel,
    (String.length s <= fuel)%nat ->
    JsString.allWhiteSpace s = true ->
    JsTrim.trimStartFrom fuel s = EmptyString.
Proof.
  induction s as [|c s IH]; intros fuel Hfuel Hs.
  - destruct fuel; reflexivity.
  - simpl in Hs. apply andb_true_iff in Hs. destruct Hs as [Hc Hs].
    destruct fuel as [|fuel]; [simpl in Hfuel; lia|].
    cbn [JsTrim.trimStartFrom JsTrim.skipWhiteSpace]. rewrite Hc.
    apply IH; [simpl in Hfuel; lia|exact Hs].
Qed.

(** A string of ASCII white space is trimmed to the empty string. *)
Lemma trim_blank s :
  JsString.allWhiteSpace s = true -> JsTrim.trim s = EmptyString.
Proof.
  intros H. unfold JsTrim.trim, JsTrim.trimStart.
  rewrite (trimStartFrom_blank s _ (le_n _) H). reflexivity.
Qed.

End FileName.

(** X18.  The name of the output file ends in [.docx] in some
    capitalisation.  A name that is given and not blank is used
    trimmed, with [.docx] added only when it does not end so already;
    a name that is not set, or blank, gives
    [TeachingContentOverview.docx]. *)
Theorem outputFilename_ends_in_docx (value : option string) :
  endsWith ".docx" (toLowerCase (outputFilename value)) = true
  /\ (forall v,
        value = Some v -> JsTrim.trim v <> EmptyString ->
        outputFilename value
        = if endsWith ".docx" (toLowerCase (JsTrim.trim v))
          then JsTrim.trim v
          else (JsTrim.trim v ++ ".docx")%string)
  /\ (value = None \/ (exists v, value = Some v /\ JsTrim.trim v = EmptyString)
      -> outputFilename value = "TeachingContentOverview.docx")
  /\ (forall v,
        value = Some v -> JsString.allWhiteSpace v = true ->
        outputFilename value = "TeachingContentOverview.docx").
Proof.
  split; [|split; [|split]].
  - unfold outputFilename.
    match goal with
    | |- context [negb (endsWith ".docx" (toLowerCase ?x))] =>
        destruct (endsWith ".docx" (toLowerCase x)) eqn:E; simpl negb;
        cbv iota
    end.
    + exact E.
    + rewrite toLowerCase_app. apply (endsWith_append _ ".docx").
  - intros v -> Hv. unfold outputFilename.
    apply String.eqb_neq in Hv. rewrite Hv.
    assert (Hne : String.eqb v "" = false).
    { destruct v; [|reflexivity]. vm_compute in Hv. discriminate Hv. }
    rewrite Hne. simpl andb. cbv iota.
    destruct (endsWith ".docx" (toLowerCase (JsTrim.trim v))); reflexivity.
  - intros [-> | [v [-> Hv]]]; unfold outputFilename.
    + reflexivity.
    + rewrite Hv. rewrite andb_false_r. reflexivity.
  - intros v -> Hv. unfold outputFilename.
    rewrite (trim_blank v Hv). rewrite andb_false_r. reflexivity.
Qed.

(** ** Entries and bullet lines *)

Section Shown.

Import JsObject JsObjectFacts JsSetFacts.

Variable zone : JsDate.Zone.

Lemma In_dayLines_entry w lessons s t :
  In (s, t) (dayLines zone w lessons) ->
  exists lesson e,
    In lesson lessons
    /\ In e (answeredEntries (detail w lesson))
    /\ subjectOf e = Some s /\ t = lineOf zone e.
Proof.
  unfold dayLines. rewrite in_flat_map. intros [lesson [Hlesson Hin]].
  apply In_insertedLines in Hin. unfold linesOfEntries in Hin.
  apply in_flat_map in Hin. destruct Hin as [e [He Hin]].
  exists lesson, e. split; [exact Hlesson|]. split; [exact He|].
  destruct (subjectOf e) as [s'|]; [|destruct Hin].
  destruct Hin as [[= <- <-]|[]]. split; reflexivity.
Qed.

Lemma insertedLines_all lines :
  Forall (fun p => inherited (fst p) = false) lines ->
  insertedLines lines = lines.
Proof.
  induction 1 as [|[s t] lines Hp _ IH]; [reflexivity|].
  simpl in *. rewrite Hp, IH. reflexivity.
Qed.

Lemma In_linesOfEntries entries e s :
  In e entries -> subjectOf e = Some s ->
  In (s, lineOf zone e) (linesOfEntries zone entries).
Proof.
  intros He Hs. unfold linesOfEntries. apply in_flat_map.
  exists e. split; [exact He|]. rewrite Hs. left. reflexivity.
Qed.

Lemma linesOfEntries_subjects entries p :
  In p (linesOfEntries zone entries) ->
  exists e, In e entries /\ subjectOf e = Some (fst p).
Proof.
  unfold linesOfEntries. rewrite in_flat_map. intros [e [He Hin]].
  exists e. split; [exact He|].
  destruct (subjectOf e) as [s|]; [|destruct Hin].
  destruct Hin as [<-|[]]. reflexivity.
Qed.

End Shown.

(** X19.  Every bullet line of a day shows the line of an entry
    with a subject that one of the twelve lookups of that day
    returned: nothing is invented. *)
Theorem every_bullet_comes_from_an_entry
    (zone : JsDate.Zone) (w : World) (currentDate : Z) (p : Paragraph) :
  In p (fst (processDay zone w currentDate)) ->
  isBullet p = true ->
  exists lesson entry,
    In lesson (lessonsOfDay zone currentDate)
    /\ In entry (answeredEntries (detail w lesson))
    /\ subjectOf entry <> None
    /\ p = bulletLine (lineOf zone entry).
Proof.
  intros Hin Hb.
  set (lessons := lessonsOfDay zone currentDate).
  destruct (day_object zone w lessons) as (Hwf & _ & Hlines).
  rewrite processDay_paragraphs in Hin. fold lessons in Hin.
  destruct Hin as [<-|Hin]; [discriminate Hb|].
  apply in_app_or in Hin. destruct Hin as [Hin|[<-|[]]]; [|discriminate Hb].
  unfold renderSubjects in Hin. apply in_flat_map in Hin.
  destruct Hin as [[k s] [Hks Hin]].
  destruct Hin as [<-|Hin]; [discriminate Hb|].
  apply in_map_iff in Hin. destruct Hin as [x [<- Hx]].
  apply (proj1 (In_entries _ _)) in Hks.
  assert (Hs : s = firstSeen (linesOf k (dayLines zone w lessons))).
  { rewrite <- Hlines. unfold linesOfSubject.
    rewrite (getOwn_of_In _ k s (proj1 Hwf) Hks). reflexivity. }
  simpl in Hx. unfold JsSet.values in Hx. rewrite Hs in Hx.
  apply (proj1 (In_firstSeen _ _)) in Hx.
  apply (proj1 (In_linesOf _ _ _)) in Hx.
  apply In_dayLines_entry in Hx.
  destruct Hx as (lesson & e & Hlesson & He & Hsub & ->).
  exists lesson, e. repeat split; try assumption. congruence.
Qed.

Lemma every_bullet_comes_from_an_entry_witness :
  exists lesson entry,
    In lesson (lessonsOfDay Samples.cet (utcMidnight 2025 3 10))
    /\ In entry
         (answeredEntries
            (detail (Samples.calmMorningWorld [Samples.mathe]) lesson))
    /\ subjectOf entry <> None
    /\ bulletLine "Bruchrechnen" = bulletLine (lineOf Samples.cet entry).
Proof.
  apply (every_bullet_comes_from_an_entry Samples.cet
           (Samples.calmMorningWorld [Samples.mathe])
           (utcMidnight 2025 3 10) (bulletLine "Bruchrechnen")).
  - vm_compute. right. right. left. reflexivity.
  - reflexivity.
Defined.

(** X20.  An entry with a subject, returned by a lookup of the
    day in which no subject is named like a member of
    [Object.prototype], is shown: the day has the heading of its
    subject and a bullet with its line, in the block of that
    subject. *)
Theorem every_entry_is_shown
    (zone : JsDate.Zone) (w : World) (currentDate : Z) (lesson : Lesson)
    (entry : Entry) (subject : string) :
  In lesson (lessonsOfDay zone currentDate) ->
  In entry (answeredEntries (detail w lesson)) ->
  subjectOf entry = Some subject ->
  (forall other name,
      In other (answeredEntries (detail w lesson)) ->
      subjectOf other = Some name -> JsObject.inherited name = false) ->
  In (subjectHeading subject) (fst (processDay zone w currentDate))
  /\ In (bulletLine (lineOf zone entry)) (fst (processDay zone w currentDate))
  /\ exists lines,
       In (renderSubject (subject, lines))
          (map renderSubject
             (JsObject.entries
                (fst (processLessons zone w JsObject.empty
                        (lessonsOfDay zone currentDate)))))
       /\ In (lineOf zone entry) lines.
Proof.
  intros Hlesson Hentry Hsubject Hplain.
  set (lessons := lessonsOfDay zone currentDate) in *.
  set (ds := fst (processLessons zone w JsObject.empty lessons)).
  destruct (day_object zone w lessons) as (Hwf & Hkeys & Hlines).
  fold ds in Hwf, Hkeys, Hlines.
  assert (Hline : In (subject, lineOf zone entry) (dayLines zone w lessons)).
  { unfold dayLines. apply in_flat_map. exists lesson.
    split; [exact Hlesson|]. rewrite insertedLines_all.
    - apply In_linesOfEntries; assumption.
    - apply Forall_forall. intros q Hq.
      destruct (linesOfEntries_subjects zone _ q Hq) as [e [He Hs]].
      apply (Hplain e (fst q) He Hs). }
  assert (Hin : In (lineOf zone entry) (linesOfSubject ds subject)).
  { rewrite Hlines. apply (proj2 (In_firstSeen _ _)).
    apply (proj2 (In_linesOf _ _ _)). exact Hline. }
  unfold linesOfSubject in Hin.
  destruct (JsObject.getOwn ds subject) as [s|] eqn:Hown; [|destruct Hin].
  apply JsObjectFacts.getOwn_In in Hown.
  apply (proj2 (In_entries _ _)) in Hown.
  assert (Hblock : forall q, In q (renderSubject (subject, s)) ->
                             In q (fst (processDay zone w currentDate))).
  { intros q Hq. rewrite processDay_paragraphs. fold lessons. fold ds.
    right. apply in_or_app. left. unfold renderSubjects.
    apply in_flat_map. exists (subject, s). split; assumption. }
  split; [apply Hblock; left; reflexivity|]. split.
  - apply Hblock. right. apply in_map. exact Hin.
  - exists s. split; [apply in_map; exact Hown|exact Hin].
Qed.

Lemma every_entry_is_shown_witness :
  In (bulletLine "Bruchrechnen")
     (fst (processDay Samples.cet (Samples.calmMorningWorld [Samples.mathe])
             (utcMidnight 2025 3 10))).
Proof.
  apply (every_entry_is_shown Samples.cet
           (Samples.calmMorningWorld [Samples.mathe])
           (utcMidnight 2025 3 10)
           (slotOf Samples.cet (utcMidnight 2025 3 10) 8)
           Samples.mathe "Mathe").
  - vm_compute. right. left. reflexivity.
  - vm_compute. left. reflexivity.
  - reflexivity.
  - intros other name Hother. vm_compute in Hother.
    destruct Hother as [<-|[]]. intros [= <-]. reflexivity.
Defined.

(** ** A subject named like a member of the prototype, in general *)

Section Prototype.

Import JsObject JsObjectFacts.

Variable zone : JsDate.Zone.

Lemma processEntry_WellFormed ds e :
  WellFormed ds -> WellFormed (fst (processEntry zone ds e)).
Proof.
  intros Hwf. rewrite processEntry_as_group.
  destruct (subjectOf e) as [s|]; [|exact Hwf].
  apply groupBySubject_WellFormed. exact Hwf.
Qed.

End Prototype.

(** X21.  An entry whose subject is named like a member of
    [Object.prototype] ends its slot: the entries before it are
    kept, [add] throws the [TypeError], and the entries after it are
    not processed. *)
Theorem prototype_name_ends_the_slot
    (zone : JsDate.Zone) (daySubjects : JsObject.t) (before after : list Entry)
    (entry : Entry) (name : string) :
  WellFormed daySubjects ->
  snd (processEntries zone daySubjects before) = None ->
  subjectOf entry = Some name ->
  JsObject.inherited name = true ->
  processEntries zone daySubjects (before ++ entry :: after)
  = (fst (processEntries zone daySubjects before), Some addNotAFunction).
Proof.
  revert daySubjects.
  induction before as [|b before IH]; intros daySubjects Hwf Hok Hname Hi.
  - cbn [app processEntries fst]. rewrite processEntry_as_group, Hname.
    rewrite (groupBySubject_inherited _ _ _
               (WellFormed_own_not_inherited daySubjects name Hwf Hi) Hi).
    reflexivity.
  - cbn [app processEntries] in *.
    pose proof (processEntry_WellFormed zone daySubjects b Hwf) as Hwf1.
    destruct (processEntry zone daySubjects b) as [ds1 [ex|]];
      [discriminate Hok|].
    apply IH; assumption.
Qed.

Lemma prototype_name_ends_the_slot_witness :
  processEntries Samples.cet JsObject.empty
    ([Samples.mathe]
     ++ Samples.entryOf (Some "toString") "" (Some "Ausgabe") :: [Samples.numbered])
  = (fst (processEntries Samples.cet JsObject.empty [Samples.mathe]),
     Some addNotAFunction).
Proof.
  apply (prototype_name_ends_the_slot Samples.cet JsObject.empty
           [Samples.mathe] [Samples.numbered]
           (Samples.entryOf (Some "toString") "" (Some "Ausgabe")) "toString").
  - apply WellFormed_empty.
  - reflexivity.
  - reflexivity.
  - reflexivity.
Defined.

(** ** The end of the run *)

Section EndOfRun.

Variable zone : JsDate.Zone.

Lemma dayLoop_writes_nothing fuel w currentDate endDate paragraphs events :
  dayLoop zone fuel w currentDate endDate = Some (paragraphs, events) ->
  filter isWriteFile events = [].
Proof.
  intros H. pose proof (dayLoop_calm zone fuel w endDate currentDate) as Hc.
  rewrite H in Hc.
  destruct (dayLoop zone fuel (calm w) currentDate endDate) as [[p' ev']|];
    [|contradiction].
  apply Hc.
Qed.

Lemma outputDir_none value :
  value = None \/ (exists v, value = Some v /\ JsTrim.trim v = EmptyString) ->
  outputDir value = None.
Proof.
  intros [->|[v [-> Hv]]]; [reflexivity|].
  unfold outputDir. rewrite Hv. cbn [String.eqb negb].
  rewrite andb_false_r. reflexivity.
Qed.

Lemma afterTheLoop_without_directory w events paragraphs :
  outputDir (env_DOCX_PATH w) = None ->
  fst (afterTheLoop w events paragraphs) = events
  /\ snd (afterTheLoop w events paragraphs)
     = match packer_toBuffer w paragraphs with
       | Some m => Some (Error m)
       | None => Some (ReferenceError "__dirname is not defined")
       end.
Proof.
  intros Hdir. unfold afterTheLoop. rewrite Hdir.
  destruct (packer_toBuffer w paragraphs); split; reflexivity.
Qed.

End EndOfRun.

(** X25.  The step to the next day keeps the clock of the local time.
    It moves the date by 24 hours, plus the offset of the zone at the
    date, minus the offset with which the local time of the next day
    is read: by 23, 24 or 25 hours.  So the loop over the days ends,
    for every range of dates in every zone. *)
Theorem every_step_moves_the_date_forward
    (zone : JsDate.Zone) (w : World) (currentDate endDate : Z) :
  nextDay zone currentDate
  = currentDate + JsDate.msPerDay + JsDate.offsetAt zone currentDate
    - JsDate.offsetOfLocal zone
        (JsDate.LocalTime zone currentDate + JsDate.msPerDay)
  /\ currentDate + 23 * JsDate.msPerHour
     <= nextDay zone currentDate
     <= currentDate + 25 * JsDate.msPerHour
  /\ exists paragraphs events,
       dayLoop zone (loopFuel currentDate endDate) w currentDate endDate
       = Some (paragraphs, events).
Proof.
  split; [|split].
  - unfold nextDay. rewrite JsDateFacts.setDate_local.
    replace (1 * JsDate.msPerDay) with JsDate.msPerDay by lia.
    unfold JsDate.UTC, JsDate.LocalTime. lia.
  - apply nextDay_bounds.
  - destruct (dayLoop_ends zone (loopFuel currentDate endDate) w
                currentDate endDate (le_n _)) as [[paragraphs events] H].
    exists paragraphs, events. exact H.
Qed.

(** X26.  When [DOCX_PATH] is not set, or blank, no file is written:
    the fallback of the script is [__dirname], which is not defined in
    an ES module.  The [try] block always ends with an exception; when
    the login, the token request and the packing of the document go
    well, all lookups are made first and the exception is the
    [ReferenceError]. *)
Theorem no_file_without_DOCX_PATH
    (zone : JsDate.Zone) (w : World) (startDate endDate : Z) :
  env_DOCX_PATH w = None
  \/ (exists v, env_DOCX_PATH w = Some v /\ JsTrim.trim v = EmptyString) ->
  filter isWriteFile (fetchTeachingContent zone w startDate endDate) = []
  /\ (exists ex,
        snd (tryFetchTeachingContent zone w startDate endDate) = Some ex)
  /\ (loginFails w = false -> tokenFails w = false ->
      (forall paragraphs, packer_toBuffer w paragraphs = None) ->
      exists paragraphs events,
        dayLoop zone (loopFuel startDate endDate) w startDate endDate
        = Some (paragraphs, events)
        /\ tryFetchTeachingContent zone w startDate endDate
           = (Fetch LoginRequest :: Fetch TokenRequest :: events,
              Some (ReferenceError "__dirname is not defined"))).
Proof.
  intros Hpath. apply outputDir_none in Hpath.
  destruct (dayLoop_ends zone (loopFuel startDate endDate) w
              startDate endDate (le_n _)) as [[paragraphs events] Hloop].
  pose proof (dayLoop_writes_nothing zone _ _ _ _ _ _ Hloop) as Hnone.
  assert (Hrun :
    (exists ex,
        tryFetchTeachingContent zone w startDate endDate
        = (Fetch LoginRequest
           :: (if loginFails w then [] else [Fetch TokenRequest]),
           Some ex)
        /\ (loginFails w = true \/ tokenFails w = true))
    \/ (loginFails w = false /\ tokenFails w = false
        /\ tryFetchTeachingContent zone w startDate endDate
           = afterTheLoop w
               (Fetch LoginRequest :: Fetch TokenRequest :: events)
               (titleParagraph :: weekParagraph zone startDate
                :: paragraphs))).
  { destruct (loginFails w) eqn:Hl.
    - left.
      destruct (thrown_before_the_loop zone w startDate endDate
                  (or_introl Hl)) as [ex Hex].
      rewrite Hl in Hex. exists ex. auto.
    - destruct (tokenFails w) eqn:Ht.
      + left.
        destruct (thrown_before_the_loop zone w startDate endDate
                    (or_intror Ht)) as [ex Hex].
        rewrite Hl in Hex. exists ex. auto.
      + right. split; [reflexivity|]. split; [reflexivity|].
        unfold loginFails, tokenFails in Hl, Ht.
        unfold tryFetchTeachingContent.
        destruct (loginAndGetCookie w) as [loginEvents logged] eqn:Hlogin.
        assert (HloginEvents : loginEvents = [Fetch LoginRequest])
          by (unfold loginAndGetCookie in Hlogin; congruence).
        subst loginEvents. cbn [snd] in Hl.
        destruct logged as [ex|cookie]; [discriminate Hl|].
        destruct (matchTenantId cookie); [|discriminate Hl].
        destruct (token w) as [m|r]; [discriminate Ht|].
        apply orb_false_iff in Ht. destruct Ht as [Hok Htext].
        rewrite Hok, Htext, orb_false_r.
        assert (Hne : String.eqb (token_text r) "" = false).
        { destruct (token_text r); [discriminate Htext|reflexivity]. }
        rewrite Hne, Hloop. reflexivity. }
  destruct Hrun as [(ex & Hrun & Hfail)|(Hl & Ht & Hrun)].
  - split; [|split].
    + unfold fetchTeachingContent. rewrite Hrun.
      destruct (loginFails w); reflexivity.
    + exists ex. rewrite Hrun. reflexivity.
    + intros Hl Ht. destruct Hfail; congruence.
  - destruct (afterTheLoop_without_directory w
                (Fetch LoginRequest :: Fetch TokenRequest :: events)
                (titleParagraph :: weekParagraph zone startDate :: paragraphs)
                Hpath) as [Hfst Hsnd].
    split; [|split].
    + unfold fetchTeachingContent.
      rewrite (surjective_pairing (tryFetchTeachingContent _ _ _ _)).
      rewrite Hrun, Hfst, Hsnd.
      destruct (packer_toBuffer w _); rewrite filter_app;
        cbn [filter isWriteFile]; rewrite Hnone; reflexivity.
    + rewrite Hrun, Hsnd. destruct (packer_toBuffer w _); eexists; reflexivity.
    + intros _ _ Hpack. exists paragraphs, events. split; [exact Hloop|].
      rewrite Hrun.
      rewrite (surjective_pairing (afterTheLoop _ _ _)), Hfst, Hsnd, Hpack.
      reflexivity.
Qed.

Lemma no_file_without_DOCX_PATH_witness :
  env_DOCX_PATH Samples.noPathWorld = None
  /\ filter isWriteFile
       (fetchTeachingContent Samples.cet Samples.noPathWorld
          (utcMidnight 2025 3 10) (utcMidnight 2025 3 10)) = []
  /\ filter (fun e => negb (isFetch e))
       (fetchTeachingContent Samples.cet Samples.noPathWorld
          (utcMidnight 2025 3 10) (utcMidnight 2025 3 10))
     = [ConsoleError
          "An error occurred: ReferenceError: __dirname is not defined"].
Proof.
  split; [reflexivity|].
  destruct (no_file_without_DOCX_PATH Samples.cet Samples.noPathWorld
              (utcMidnight 2025 3 10) (utcMidnight 2025 3 10)
              (or_introl eq_refl)) as [Hfile _].
  split; [exact Hfile|]. vm_compute. reflexivity.
Defined.

(** X27.  In the zone Europe/Berlin, for the inputs 2025-10-25 and
    2025-10-27 the day of the end date is not processed.  The dates
    are midnight UTC, 02:00 of local summer time; the step from Sunday
    26 October, when summer time ends, keeps the clock 02:00 and so is
    25 hours long, an hour beyond the end date.  Twenty-four lookups
    are sent and the document has the headings of Saturday and Sunday
    only.  Where summer time begins, from 2025-03-29 to 2025-03-31,
    the step is 23 hours long and the three days are processed. *)
Theorem end_of_summer_time_drops_the_last_day :
  let run startDate endDate :=
    fetchTeachingContent Samples.berlin Samples.quietWorld startDate endDate in
  let documents events :=
    flat_map (fun e => match e with
                       | WriteFile _ paragraphs => [map textOf paragraphs]
                       | _ => []
                       end) events in
  let autumn := run (utcMidnight 2025 10 25) (utcMidnight 2025 10 27) in
  let spring := run (utcMidnight 2025 3 29) (utcMidnight 2025 3 31) in
  documents autumn
  = [["Berichtsheft"; "KW43/2025";
      "Samstag, 25. Oktober 2025:"; "";
      "Sonntag, 26. Oktober 2025:"; ""]]
  /\ List.length (detailRequests autumn) = 24%nat
  /\ nextDay Samples.berlin (utcMidnight 2025 10 26)
     = utcMidnight 2025 10 27 + JsDate.msPerHour
  /\ documents spring
     = [["Berichtsheft"; "KW13/2025";
         "Samstag, 29. März 2025:"; "";
         "Sonntag, 30. März 2025:"; "";
         "Montag, 31. März 2025:"; ""]]
  /\ List.length (detailRequests spring) = 36%nat
  /\ nextDay Samples.berlin (utcMidnight 2025 3 30)
     = utcMidnight 2025 3 31 - JsDate.msPerHour.
Proof. vm_compute. repeat split. Qed.
